(** * Sensor calibration and atmospheric derivation pipeline of the
      AVR64DD32 weather station (BMP390.c, SHT45.c, Altitude.c,
      ElAndAzComp.c, Communications.c, main.c).

    Integer code is modelled bit-exactly over [Z]: every operation of a
    fixed-width C type is followed by the wrap-around of that type, [>>] on
    a signed operand is the arithmetic shift and [/] truncates toward zero.
    Floating-point quantities are idealised as real numbers: no rounding,
    and the solar angles are the numbers the command text denotes. The
    values computed from sensor counts stay finite; the place where the C
    library leaves the reals is Altitude.c ([log], [pow] and a quotient
    outside their domain), and the results stored there are kept as values
    of [cdouble], which has NaN and the two infinities. The I2C transport
    (ReadMulti) and CRC8MAXIM, whose body is not in the sources, are
    parameters. *)

From Stdlib Require Import ZArith Reals Lra Lia Bool List.
Import ListNotations.
Local Open Scope Z_scope.

(** ** Fixed-width integers *)

Definition wrap_unsigned (w z : Z) : Z := z mod 2 ^ w.
Definition wrap_signed (w z : Z) : Z := (z + 2 ^ (w - 1)) mod 2 ^ w - 2 ^ (w - 1).

Definition to_uint16 := wrap_unsigned 16.
Definition to_int16 := wrap_signed 16.
Definition to_int32 := wrap_signed 32.
Definition to_uint32 := wrap_unsigned 32.
Definition to_int64 := wrap_signed 64.
Definition to_uint64 := wrap_unsigned 64.

Definition in_int16 (z : Z) : Prop := - 2 ^ 15 <= z < 2 ^ 15.
Definition in_uint16 (z : Z) : Prop := 0 <= z < 2 ^ 16.
Definition in_int32 (z : Z) : Prop := - 2 ^ 31 <= z < 2 ^ 31.
Definition in_int64 (z : Z) : Prop := - 2 ^ 63 <= z < 2 ^ 63.
Definition in_uint64 (z : Z) : Prop := 0 <= z < 2 ^ 64.

(** int32_t arithmetic (the [long] of the target). *)
Definition add32 (a b : Z) : Z := to_int32 (a + b).
Definition sub32 (a b : Z) : Z := to_int32 (a - b).
Definition mul32 (a b : Z) : Z := to_int32 (a * b).
Definition shl32 (a n : Z) : Z := to_int32 (Z.shiftl a n).

(** int64_t arithmetic. *)
Definition add64 (a b : Z) : Z := to_int64 (a + b).
Definition sub64 (a b : Z) : Z := to_int64 (a - b).
Definition mul64 (a b : Z) : Z := to_int64 (a * b).
Definition shl64 (a n : Z) : Z := to_int64 (Z.shiftl a n).

(** Arithmetic right shift of a signed operand. *)
Definition sar (a n : Z) : Z := Z.shiftr a n.

(** Signed 64-bit division: truncation toward zero; no result for a zero
    divisor. *)
Definition div64 (a b : Z) : option Z :=
  if b =? 0 then None else Some (to_int64 (Z.quot a b)).

(** uint64_t operations of the calibration decoder. *)
Definition shr_u64 (a n : Z) : Z := Z.shiftr a n.
Definition shl_u64 (a n : Z) : Z := to_uint64 (Z.shiftl a n).

(** ** Data model (BMP390.h, SHT45.h, ElAndAzComp.h, Communications.h,
       Altitude.h) *)

Module BMP390_h.

Record BMP280Values := {
  dig_T1 : Z;  (* uint16_t *)
  dig_T2 : Z;  (* int16_t *)
  dig_T3 : Z;
  dig_P1 : Z;  (* uint16_t *)
  dig_P2 : Z;  (* int16_t *)
  dig_P3 : Z;
  dig_P4 : Z;
  dig_P5 : Z;
  dig_P6 : Z;
  dig_P7 : Z;
  dig_P8 : Z;
  dig_P9 : Z;
  UT : Z;      (* int32_t *)
  UP : Z;      (* int32_t *)
  t_fine : Z;  (* int32_t *)
  T : Z;       (* int16_t *)
  p : Z        (* uint32_t *)
}.

Record BMP280Config := {
  t_sb : Z; filter : Z; spi3w_en : Z; osrs_t : Z; osrs_p : Z; Mode : Z
}.

Record BMP280Status := { measuring : Z; im_update : Z }.

Record BMP280Result := {
  ID : Z;
  Temperature : R;  (* float *)
  Pressure : R;     (* double, hPa *)
  CalibrationValues : BMP280Values;
  Config : BMP280Config;
  Status : BMP280Status
}.

Definition set_t_fine (v : Z) (c : BMP280Values) : BMP280Values :=
  {| dig_T1 := dig_T1 c; dig_T2 := dig_T2 c; dig_T3 := dig_T3 c;
     dig_P1 := dig_P1 c; dig_P2 := dig_P2 c; dig_P3 := dig_P3 c;
     dig_P4 := dig_P4 c; dig_P5 := dig_P5 c; dig_P6 := dig_P6 c;
     dig_P7 := dig_P7 c; dig_P8 := dig_P8 c; dig_P9 := dig_P9 c;
     UT := UT c; UP := UP c; t_fine := v; T := T c; p := p c |}.

Definition set_T (v : Z) (c : BMP280Values) : BMP280Values :=
  {| dig_T1 := dig_T1 c; dig_T2 := dig_T2 c; dig_T3 := dig_T3 c;
     dig_P1 := dig_P1 c; dig_P2 := dig_P2 c; dig_P3 := dig_P3 c;
     dig_P4 := dig_P4 c; dig_P5 := dig_P5 c; dig_P6 := dig_P6 c;
     dig_P7 := dig_P7 c; dig_P8 := dig_P8 c; dig_P9 := dig_P9 c;
     UT := UT c; UP := UP c; t_fine := t_fine c; T := v; p := p c |}.

Definition set_p (v : Z) (c : BMP280Values) : BMP280Values :=
  {| dig_T1 := dig_T1 c; dig_T2 := dig_T2 c; dig_T3 := dig_T3 c;
     dig_P1 := dig_P1 c; dig_P2 := dig_P2 c; dig_P3 := dig_P3 c;
     dig_P4 := dig_P4 c; dig_P5 := dig_P5 c; dig_P6 := dig_P6 c;
     dig_P7 := dig_P7 c; dig_P8 := dig_P8 c; dig_P9 := dig_P9 c;
     UT := UT c; UP := UP c; t_fine := t_fine c; T := T c; p := v |}.

Definition set_raw (ut up : Z) (c : BMP280Values) : BMP280Values :=
  {| dig_T1 := dig_T1 c; dig_T2 := dig_T2 c; dig_T3 := dig_T3 c;
     dig_P1 := dig_P1 c; dig_P2 := dig_P2 c; dig_P3 := dig_P3 c;
     dig_P4 := dig_P4 c; dig_P5 := dig_P5 c; dig_P6 := dig_P6 c;
     dig_P7 := dig_P7 c; dig_P8 := dig_P8 c; dig_P9 := dig_P9 c;
     UT := ut; UP := up; t_fine := t_fine c; T := T c; p := p c |}.

(** The three groups of coefficients ReadBMP280Calibration stores, one per
    8-byte read. *)
Definition set_part0 (t1 t2 t3 p1 : Z) (c : BMP280Values) : BMP280Values :=
  {| dig_T1 := t1; dig_T2 := t2; dig_T3 := t3; dig_P1 := p1;
     dig_P2 := dig_P2 c; dig_P3 := dig_P3 c; dig_P4 := dig_P4 c;
     dig_P5 := dig_P5 c; dig_P6 := dig_P6 c; dig_P7 := dig_P7 c;
     dig_P8 := dig_P8 c; dig_P9 := dig_P9 c;
     UT := UT c; UP := UP c; t_fine := t_fine c; T := T c; p := p c |}.

Definition set_part1 (p2 p3 p4 p5 : Z) (c : BMP280Values) : BMP280Values :=
  {| dig_T1 := dig_T1 c; dig_T2 := dig_T2 c; dig_T3 := dig_T3 c;
     dig_P1 := dig_P1 c;
     dig_P2 := p2; dig_P3 := p3; dig_P4 := p4; dig_P5 := p5;
     dig_P6 := dig_P6 c; dig_P7 := dig_P7 c; dig_P8 := dig_P8 c;
     dig_P9 := dig_P9 c;
     UT := UT c; UP := UP c; t_fine := t_fine c; T := T c; p := p c |}.

Definition set_part2 (p6 p7 p8 p9 : Z) (c : BMP280Values) : BMP280Values :=
  {| dig_T1 := dig_T1 c; dig_T2 := dig_T2 c; dig_T3 := dig_T3 c;
     dig_P1 := dig_P1 c; dig_P2 := dig_P2 c; dig_P3 := dig_P3 c;
     dig_P4 := dig_P4 c; dig_P5 := dig_P5 c;
     dig_P6 := p6; dig_P7 := p7; dig_P8 := p8; dig_P9 := p9;
     UT := UT c; UP := UP c; t_fine := t_fine c; T := T c; p := p c |}.

Definition set_CalibrationValues (v : BMP280Values) (b : BMP280Result) :=
  {| ID := ID b; Temperature := Temperature b; Pressure := Pressure b;
     CalibrationValues := v; Config := Config b; Status := Status b |}.

Definition set_Temperature (v : R) (b : BMP280Result) :=
  {| ID := ID b; Temperature := v; Pressure := Pressure b;
     CalibrationValues := CalibrationValues b; Config := Config b;
     Status := Status b |}.

Definition set_Pressure (v : R) (b : BMP280Result) :=
  {| ID := ID b; Temperature := Temperature b; Pressure := v;
     CalibrationValues := CalibrationValues b; Config := Config b;
     Status := Status b |}.

(** Register addresses of the three calibration reads. *)
Definition calib00 : Z := 0x88.
Definition calib08 : Z := 0x90.
Definition calib16 : Z := 0x98.
Definition BMP280Add : Z := 0x76.

End BMP390_h.

Module SHT45_h.

Record SHT := {
  OTP_DISABLE : Z; Heater : Z; Resolution : Z; Battery : Z;
  T : R;    (* float, degrees Celsius *)
  RH : R;   (* float, percent *)
  Fault : Z;
  e : R
}.

Definition set_T (v : R) (s : SHT) : SHT :=
  {| OTP_DISABLE := OTP_DISABLE s; Heater := Heater s;
     Resolution := Resolution s; Battery := Battery s;
     T := v; RH := RH s; Fault := Fault s; e := e s |}.

Definition set_RH (v : R) (s : SHT) : SHT :=
  {| OTP_DISABLE := OTP_DISABLE s; Heater := Heater s;
     Resolution := Resolution s; Battery := Battery s;
     T := T s; RH := v; Fault := Fault s; e := e s |}.

End SHT45_h.

Module ElAndAzComp_h.

Record SunAngles := {
  elevation : R; azimuth : R; adjelevation : R; adjazimuth : R;
  sunlevel : Z
}.

Definition set_ephemeris (az el : R) (s : SunAngles) : SunAngles :=
  {| elevation := el; azimuth := az; adjelevation := adjelevation s;
     adjazimuth := adjazimuth s; sunlevel := sunlevel s |}.

Definition set_adjusted (el az : R) (s : SunAngles) : SunAngles :=
  {| elevation := elevation s; azimuth := azimuth s; adjelevation := el;
     adjazimuth := az; sunlevel := sunlevel s |}.

End ElAndAzComp_h.

Module Communications_h.

Record Calendar := {
  year : Z; month : Z; day : Z; hour : Z; minute : Z; second : Z;
  hunderts : Z;
  latitude : R; longitude : R;
  timezone : Z;
  altitude : Z;  (* int16_t, metres *)
  error : Z; errorCounter : Z; warning : Z; counterImitator : Z
}.

End Communications_h.

(** ** Values of a C [double] that may leave the reals *)

Inductive cdouble : Type :=
| Val (r : R)
| PInf
| NInf
| NaN.

Inductive sgn : Type := Neg | Zero | Pos.

Definition Rsgn (r : R) : sgn :=
  if Rlt_dec 0 r then Pos else if Rlt_dec r 0 then Neg else Zero.

Definition sgn_mul (a b : sgn) : sgn :=
  match a, b with
  | Zero, _ | _, Zero => Zero
  | Pos, Pos | Neg, Neg => Pos
  | _, _ => Neg
  end.

(** Sign of a value that is not NaN. *)
Definition csgn (x : cdouble) : sgn :=
  match x with
  | Val r => Rsgn r
  | PInf => Pos
  | NInf => Neg
  | NaN => Zero
  end.

(** The infinity of a sign; an infinity whose sign is undetermined
    (infinity times zero, zero over zero) is NaN. *)
Definition inf_of (s : sgn) : cdouble :=
  match s with Pos => PInf | Neg => NInf | Zero => NaN end.

Definition cneg (x : cdouble) : cdouble :=
  match x with
  | Val r => Val (- r)
  | PInf => NInf
  | NInf => PInf
  | NaN => NaN
  end.

Definition cadd (x y : cdouble) : cdouble :=
  match x, y with
  | NaN, _ | _, NaN => NaN
  | Val a, Val b => Val (a + b)
  | PInf, NInf | NInf, PInf => NaN
  | PInf, _ | _, PInf => PInf
  | NInf, _ | _, NInf => NInf
  end.

Definition csub (x y : cdouble) : cdouble := cadd x (cneg y).

Definition cmul (x y : cdouble) : cdouble :=
  match x, y with
  | NaN, _ | _, NaN => NaN
  | Val a, Val b => Val (a * b)
  | _, _ => inf_of (sgn_mul (csgn x) (csgn y))
  end.

(** Division; a zero divisor is taken as [+0]. *)
Definition cdiv (x y : cdouble) : cdouble :=
  match x, y with
  | NaN, _ | _, NaN => NaN
  | Val a, Val b =>
      if Req_dec_T b 0 then inf_of (Rsgn a) else Val (a / b)
  | Val _, _ => Val 0
  | _, Val b =>
      inf_of (sgn_mul (csgn x) (if Req_dec_T b 0 then Pos else Rsgn b))
  | _, _ => NaN
  end.

(** [exp], [log] and [pow] of <math.h>. *)
Definition cexp (x : cdouble) : cdouble :=
  match x with
  | Val r => Val (exp r)
  | PInf => PInf
  | NInf => Val 0
  | NaN => NaN
  end.

Definition clog (x : cdouble) : cdouble :=
  match x with
  | Val r =>
      if Rlt_dec 0 r then Val (ln r)
      else if Req_dec_T r 0 then NInf else NaN
  | PInf => PInf
  | NInf => NaN
  | NaN => NaN
  end.

(** [pow x y] for a finite exponent that is not an integer (both call sites
    pass such a constant). *)
Definition cpow (x : cdouble) (y : R) : cdouble :=
  match x with
  | Val r =>
      if Rlt_dec 0 r then Val (Rpower r y)
      else if Req_dec_T r 0 then (if Rlt_dec y 0 then PInf else Val 0)
      else NaN
  | PInf | NInf => if Rlt_dec y 0 then Val 0 else PInf
  | NaN => NaN
  end.

Module Altitude_h.

Definition T0 : R := 273.15.
Definition A : R := 6.112.
Definition B : R := 17.67.
Definition C : R := 243.5.
Definition GRAVITY : R := 9.80665.
Definition MOLAR_MASS_AIR : R := 0.0289644.
Definition UNIVERSAL_GAS_CONSTANT : R := 8.31432.
Definition SEA_LEVEL_PRESSURE : R := 1013.25.

Record Alt := {
  UNCOMP : cdouble;  (* double *)
  COMP : cdouble;    (* double *)
  AVRG : cdouble     (* float *)
}.

End Altitude_h.

(** ** The global variables *)

Record Globals := {
  BMP280 : BMP390_h.BMP280Result;
  SHT21 : SHT45_h.SHT;
  SUN : ElAndAzComp_h.SunAngles;
  Date_Clock : Communications_h.Calendar;
  Altitude : Altitude_h.Alt
}.

Definition set_BMP280 (v : BMP390_h.BMP280Result) (g : Globals) : Globals :=
  {| BMP280 := v; SHT21 := SHT21 g; SUN := SUN g;
     Date_Clock := Date_Clock g; Altitude := Altitude g |}.

Definition set_SHT21 (v : SHT45_h.SHT) (g : Globals) : Globals :=
  {| BMP280 := BMP280 g; SHT21 := v; SUN := SUN g;
     Date_Clock := Date_Clock g; Altitude := Altitude g |}.

Definition set_SUN (v : ElAndAzComp_h.SunAngles) (g : Globals) : Globals :=
  {| BMP280 := BMP280 g; SHT21 := SHT21 g; SUN := v;
     Date_Clock := Date_Clock g; Altitude := Altitude g |}.

Definition set_Altitude (v : Altitude_h.Alt) (g : Globals) : Globals :=
  {| BMP280 := BMP280 g; SHT21 := SHT21 g; SUN := SUN g;
     Date_Clock := Date_Clock g; Altitude := v |}.

(** Initial values (BMP390Var.h, SHT45Var.h, ElAndAzCompVar.h,
    CommunicationsVar.h, AltitudeVar.h); members without an initialiser
    are zero. *)
Definition BMP280_init : BMP390_h.BMP280Result :=
  {| BMP390_h.ID := 0x58;
     BMP390_h.Temperature := 0%R;
     BMP390_h.Pressure := 0%R;
     BMP390_h.CalibrationValues :=
       {| BMP390_h.dig_T1 := 0; BMP390_h.dig_T2 := 0; BMP390_h.dig_T3 := 0;
          BMP390_h.dig_P1 := 0; BMP390_h.dig_P2 := 0; BMP390_h.dig_P3 := 0;
          BMP390_h.dig_P4 := 0; BMP390_h.dig_P5 := 0; BMP390_h.dig_P6 := 0;
          BMP390_h.dig_P7 := 0; BMP390_h.dig_P8 := 0; BMP390_h.dig_P9 := 0;
          BMP390_h.UT := 0x800000; BMP390_h.UP := 0x800000;
          BMP390_h.t_fine := 0; BMP390_h.T := 0; BMP390_h.p := 0 |};
     BMP390_h.Config :=
       {| BMP390_h.t_sb := 0; BMP390_h.filter := 0; BMP390_h.spi3w_en := 0;
          BMP390_h.osrs_t := 0; BMP390_h.osrs_p := 0; BMP390_h.Mode := 0 |};
     BMP390_h.Status := {| BMP390_h.measuring := 0; BMP390_h.im_update := 0 |}
  |}.

Definition SHT21_init : SHT45_h.SHT :=
  {| SHT45_h.OTP_DISABLE := 1; SHT45_h.Heater := 0; SHT45_h.Resolution := 0;
     SHT45_h.Battery := 0; SHT45_h.T := 0%R; SHT45_h.RH := 0%R;
     SHT45_h.Fault := 0; SHT45_h.e := 0%R |}.

Definition SUN_init : ElAndAzComp_h.SunAngles :=
  {| ElAndAzComp_h.elevation := 0%R; ElAndAzComp_h.azimuth := 0%R;
     ElAndAzComp_h.adjelevation := 0%R; ElAndAzComp_h.adjazimuth := 0%R;
     ElAndAzComp_h.sunlevel := 0 |}.

Definition Date_Clock_init : Communications_h.Calendar :=
  {| Communications_h.year := 0; Communications_h.month := 0;
     Communications_h.day := 0; Communications_h.hour := 0;
     Communications_h.minute := 0; Communications_h.second := 0;
     Communications_h.hunderts := 0;
     Communications_h.latitude := 0%R; Communications_h.longitude := 0%R;
     Communications_h.timezone := 2;
     Communications_h.altitude := -50;
     Communications_h.error := 0; Communications_h.errorCounter := 0;
     Communications_h.warning := 0; Communications_h.counterImitator := 0 |}.

Definition Altitude_init : Altitude_h.Alt :=
  {| Altitude_h.UNCOMP := Val 0; Altitude_h.COMP := Val 0;
     Altitude_h.AVRG := Val 88 |}.

Definition globals_init : Globals :=
  {| BMP280 := BMP280_init; SHT21 := SHT21_init; SUN := SUN_init;
     Date_Clock := Date_Clock_init; Altitude := Altitude_init |}.

(** ** BMP390.c *)

Definition cal (g : Globals) : BMP390_h.BMP280Values :=
  BMP390_h.CalibrationValues (BMP280 g).

Definition set_cal (c : BMP390_h.BMP280Values) (g : Globals) : Globals :=
  set_BMP280 (BMP390_h.set_CalibrationValues c (BMP280 g)) g.

(** The expression every coefficient is decoded with,
    [(x & 0xFF) << 8 | (x & 0xFF00) >> 8], on the uint64_t operand [x]. *)
Definition swap_expr (x : Z) : Z :=
  Z.lor (shl_u64 (Z.land x 0xFF) 8) (shr_u64 (Z.land x 0xFF00) 8).

(** One iteration of the loop of ReadBMP280Calibration; [ReadMulti] is the
    I2C block read (i2c.c), which returns the bytes of the block as one
    uint64_t. *)
Definition calibration_step (ReadMulti : Z -> Z -> Z -> Z) (i : Z)
    (g : Globals) : Globals :=
  let startAdd :=
    if i =? 1 then BMP390_h.calib08
    else if i =? 2 then BMP390_h.calib16 else BMP390_h.calib00 in
  let part := if i =? 1 then 1 else if i =? 2 then 2 else 0 in
  let data := ReadMulti BMP390_h.BMP280Add startAdd 8 in
  let f48 := swap_expr (shr_u64 data 48) in
  let f32 := swap_expr (shr_u64 data 32) in
  let f16 := swap_expr (shr_u64 data 16) in
  let f0 := swap_expr data in
  if part =? 0 then
    set_cal (BMP390_h.set_part0 (to_uint16 f48) (to_int16 f32)
               (to_int16 f16) (to_uint16 f0) (cal g)) g
  else if part =? 1 then
    set_cal (BMP390_h.set_part1 (to_int16 f48) (to_int16 f32)
               (to_int16 f16) (to_int16 f0) (cal g)) g
  else
    set_cal (BMP390_h.set_part2 (to_int16 f48) (to_int16 f32)
               (to_int16 f16) (to_int16 f0) (cal g)) g.

Definition ReadBMP280Calibration (ReadMulti : Z -> Z -> Z -> Z)
    (g : Globals) : Globals :=
  fold_left (fun acc i => calibration_step ReadMulti i acc) [0; 1; 2] g.

(** int16_t CalcTrueTemp(): the returned value and the globals after the
    call. *)
Definition CalcTrueTemp (g : Globals) : Z * Globals :=
  let c := cal g in
  let UT := BMP390_h.UT c in
  let dig_T1 := BMP390_h.dig_T1 c in
  let dig_T2 := BMP390_h.dig_T2 c in
  let dig_T3 := BMP390_h.dig_T3 c in
  let var1 := sar (mul32 (sub32 (sar UT 3) (shl32 dig_T1 1)) dig_T2) 11 in
  let var2 :=
    sar (mul32 (sar (mul32 (sub32 (sar UT 4) dig_T1)
                           (sub32 (sar UT 4) dig_T1)) 12) dig_T3) 14 in
  let t_fine := add32 var1 var2 in
  let T := sar (add32 (mul32 t_fine 5) 128) 8 in
  let c1 := BMP390_h.set_T (to_int16 T) (BMP390_h.set_t_fine t_fine c) in
  let b1 := BMP390_h.set_CalibrationValues c1 (BMP280 g) in
  let b2 := BMP390_h.set_Temperature (IZR T / 100)%R b1 in
  (to_int16 T, set_BMP280 b2 g).

(** The value of [var1] that CalcTruePres tests against zero. *)
Definition pres_var1 (g : Globals) : Z :=
  let c := cal g in
  let var1 := sub64 (BMP390_h.t_fine c) 128000 in
  sar (mul64 (add64 (shl64 1 47) var1) (BMP390_h.dig_P1 c)) 33.

Definition pres_var2 (g : Globals) : Z :=
  let c := cal g in
  let var1 := sub64 (BMP390_h.t_fine c) 128000 in
  let var2 := mul64 (mul64 var1 var1) (BMP390_h.dig_P6 c) in
  let var2 := add64 var2 (shl64 (mul64 var1 (BMP390_h.dig_P5 c)) 17) in
  add64 var2 (shl64 (BMP390_h.dig_P4 c) 35).

(** The statements of CalcTruePres below the guard, up to the last
    assignment of [p] (an int64_t); [None] stands for a division by zero. *)
Definition pres_tail (g : Globals) (var1 var2 : Z) : option Z :=
  let c := cal g in
  let p := sub32 1048576 (BMP390_h.UP c) in
  match div64 (mul64 (sub64 (shl64 p 31) var2) 3125) var1 with
  | None => None
  | Some p =>
      let var1 :=
        sar (mul64 (mul64 (BMP390_h.dig_P9 c) (sar p 13)) (sar p 13)) 25 in
      let var2 := sar (mul64 (BMP390_h.dig_P8 c) p) 19 in
      Some (add64 (sar (add64 (add64 p var1) var2) 8)
                  (shl64 (BMP390_h.dig_P7 c) 4))
  end.

(** uint32_t CalcTruePres(): [None] when the division by [var1] is reached
    with [var1 = 0]; otherwise the returned value and the globals after the
    call. *)
Definition CalcTruePres (g : Globals) : option (Z * Globals) :=
  let var2 := pres_var2 g in
  let var1 := pres_var1 g in
  if var1 =? 0 then Some (0, g)
  else
    match pres_tail g var1 var2 with
    | None => None
    | Some p =>
        let b1 := BMP390_h.set_Pressure (IZR p / 25600)%R (BMP280 g) in
        let c1 := BMP390_h.set_p (to_uint32 p) (BMP390_h.CalibrationValues b1) in
        let b2 := BMP390_h.set_CalibrationValues c1 b1 in
        Some (to_uint32 p, set_BMP280 b2 g)
    end.

(** ReadBMP280TP once the sensor is ready: the two 3-byte reads, shifted
    right by four, become the 20-bit raw counts. *)
Definition ReadBMP280TP (press_word temp_word : Z) (g : Globals) : Globals :=
  set_cal (BMP390_h.set_raw (to_int32 (shr_u64 temp_word 4))
             (to_int32 (shr_u64 press_word 4)) (cal g)) g.

(** The reference data set of BMP390.h. *)
Definition reference_cal : BMP390_h.BMP280Values :=
  {| BMP390_h.dig_T1 := 27504; BMP390_h.dig_T2 := 26435;
     BMP390_h.dig_T3 := -1000;
     BMP390_h.dig_P1 := 36477; BMP390_h.dig_P2 := -10685;
     BMP390_h.dig_P3 := 3024; BMP390_h.dig_P4 := 2855;
     BMP390_h.dig_P5 := 140; BMP390_h.dig_P6 := -7;
     BMP390_h.dig_P7 := 15500; BMP390_h.dig_P8 := -14600;
     BMP390_h.dig_P9 := 6000;
     BMP390_h.UT := 519888; BMP390_h.UP := 415148;
     BMP390_h.t_fine := 0; BMP390_h.T := 0; BMP390_h.p := 0 |}.

Definition reference_globals : Globals := set_cal reference_cal globals_init.

(** ** SHT45.c *)

Section Separator.

(** CRC8MAXIM is declared in Settings.h ([uint16_t CRC8MAXIM(uint32_t)]);
    its body is not part of the sources, so it is a parameter here. *)
Variable CRC8MAXIM : Z -> Z.

Definition Separator (data : Z) (g : Globals) : Z * Globals :=
  let reader := to_uint16 (CRC8MAXIM data) in
  if negb (Z.land reader 2 =? 0) then
    let result := (IZR (to_uint32 (reader - 2)) / 65536)%R in
    (0, set_SHT21 (SHT45_h.set_RH (result * 125 - 6)%R (SHT21 g)) g)
  else
    let result := (IZR reader / 65536)%R in
    (0, set_SHT21 (SHT45_h.set_T (result * 175.72 - 46.85)%R (SHT21 g)) g).

End Separator.

(** ** ElAndAzComp.c *)

(** [pow] of <math.h> on a positive base. Date_Clock.altitude is an
    int16_t, so the base [1 - 0.0065 * altitude / 288.15] of the call below
    is above 0.26. *)
Definition c_pow (x y : R) : R := Rpower x y.

Definition lapse_factor (altitude : Z) : R :=
  c_pow (1 - (0.0065 * IZR altitude / 288.15)) 5.255.

Definition calculate_refraction (g : Globals) : R * Globals :=
  let elevation := ElAndAzComp_h.elevation (SUN g) in
  if Rle_dec elevation 0 then (0%R, g)
  else
    let elevation_rad := (elevation * PI / 180)%R in
    let g1 :=
      if 0 <? Communications_h.altitude (Date_Clock g) then
        set_BMP280
          (BMP390_h.set_Pressure
             (BMP390_h.Pressure (BMP280 g)
              * lapse_factor (Communications_h.altitude (Date_Clock g)))%R
             (BMP280 g)) g
      else g in
    let refraction :=
      (0.0167 / tan (elevation_rad + (10.3 / (elevation + 5.11))))%R in
    let refraction :=
      (refraction * ((BMP390_h.Pressure (BMP280 g1) / 1010)
                     * (283 / (273 + SHT45_h.T (SHT21 g1)))))%R in
    (refraction, g1).

Definition correct_solar_angles (g : Globals) : Globals :=
  if Rlt_dec 0 (ElAndAzComp_h.elevation (SUN g)) then
    let (refraction, g1) := calculate_refraction g in
    set_SUN
      (ElAndAzComp_h.set_adjusted
         (ElAndAzComp_h.elevation (SUN g1) + refraction / 60)%R
         (ElAndAzComp_h.azimuth (SUN g1)) (SUN g1)) g1
  else g.

(** ** Communications.c *)

(** What ClockAndDataReader leaves in the globals the pipeline reads: a
    complete frame stores the two solar angles. The date, position and
    time-zone tokens go to members of Date_Clock that the pipeline never
    reads. *)
Inductive Command : Type :=
| NoCommand
| Angles (azimuth elevation : R).

Definition ClockAndDataReader (c : Command) (g : Globals) : Globals :=
  match c with
  | NoCommand => g
  | Angles az el => set_SUN (ElAndAzComp_h.set_ephemeris az el (SUN g)) g
  end.

Definition Retransmitt (c : Command) (g : Globals) : Globals :=
  correct_solar_angles (ClockAndDataReader c g).

(** ** Altitude.c *)

Definition vapor_pressure (g : Globals) : cdouble :=
  let T := Val (SHT45_h.T (SHT21 g)) in
  let es :=
    cmul (Val Altitude_h.A)
         (cexp (cdiv (cmul (Val Altitude_h.B) T)
                     (cadd T (Val Altitude_h.C)))) in
  cmul es (cdiv (Val (SHT45_h.RH (SHT21 g))) (Val 100)).

Definition adjusted_pressure (g : Globals) : cdouble :=
  csub (Val (BMP390_h.Pressure (BMP280 g))) (vapor_pressure g).

Definition calculate_adjusted_elevation (g : Globals) : cdouble :=
  let temp_k := cadd (Val (SHT45_h.T (SHT21 g))) (Val Altitude_h.T0) in
  cmul
    (cmul (cdiv temp_k (Val Altitude_h.GRAVITY))
          (clog (cdiv (Val Altitude_h.SEA_LEVEL_PRESSURE)
                      (adjusted_pressure g))))
    (cdiv (Val Altitude_h.UNIVERSAL_GAS_CONSTANT)
          (Val Altitude_h.MOLAR_MASS_AIR)).

Definition pressure_ratio (g : Globals) : cdouble :=
  cdiv (Val (BMP390_h.Pressure (BMP280 g)))
       (Val Altitude_h.SEA_LEVEL_PRESSURE).

Definition AltitudeAverage (g : Globals) : Globals :=
  let uncomp :=
    cmul (Val 44330.7692307)
         (csub (cpow (pressure_ratio g) (-0.1902632)) (Val 1)) in
  let comp := calculate_adjusted_elevation g in
  set_Altitude
    {| Altitude_h.UNCOMP := uncomp;
       Altitude_h.COMP := comp;
       Altitude_h.AVRG := cdiv (cadd uncomp comp) (Val 2) |} g.

(** ** main.c: one pass of the loop, up to AltitudeAverage *)

Record CycleInput := {
  press_word : Z;   (* ReadMulti(BMP280Add, press_msb, 3) *)
  temp_word : Z;    (* ReadMulti(BMP280Add, temp_msb, 3) *)
  rh_word : Z;      (* SHT21_Read(HOLD_MASTER_RH_MES) *)
  t_word : Z;       (* SHT21_Read(HOLD_MASTER_T_MES) *)
  command : Command
}.

(** WindSpeed, WindDirection and SunLevel, which run between Retransmitt and
    AltitudeAverage, write only Wind and SUN.sunlevel. *)
Definition pipeline_cycle (CRC8MAXIM : Z -> Z) (i : CycleInput)
    (g : Globals) : option Globals :=
  let g := ReadBMP280TP (press_word i) (temp_word i) g in
  let g := snd (CalcTrueTemp g) in
  match CalcTruePres g with
  | None => None
  | Some (_, g) =>
      let g := snd (Separator CRC8MAXIM (rh_word i) g) in
      let g := snd (Separator CRC8MAXIM (t_word i) g) in
      let g := Retransmitt (command i) g in
      Some (AltitudeAverage g)
  end.

(** ** The sequences of the specification *)

(** The temperature sequence of the data sheet over unbounded integers. *)
Definition spec_temp_var1 (raw_t dig_T1 dig_T2 : Z) : Z :=
  Z.shiftr ((Z.shiftr raw_t 3 - Z.shiftl dig_T1 1) * dig_T2) 11.

Definition spec_temp_var2 (raw_t dig_T1 dig_T3 : Z) : Z :=
  Z.shiftr
    (Z.shiftr ((Z.shiftr raw_t 4 - dig_T1) * (Z.shiftr raw_t 4 - dig_T1)) 12
     * dig_T3) 14.

Definition spec_fine (raw_t dig_T1 dig_T2 dig_T3 : Z) : Z :=
  spec_temp_var1 raw_t dig_T1 dig_T2 + spec_temp_var2 raw_t dig_T1 dig_T3.

Definition spec_true_temp (fine : Z) : Z := Z.shiftr (fine * 5 + 128) 8.

(** The pressure-step [var1] over unbounded integers. *)
Definition spec_pres_var1 (fine dig_P1 : Z) : Z :=
  Z.shiftr ((Z.shiftl 1 47 + (fine - 128000)) * dig_P1) 33.

(** The 16-bit field of a 64-bit word at a bit offset, and its byte swap. *)
Definition field16 (block shift : Z) : Z := Z.shiftr block shift mod 2 ^ 16.

Definition bswap16 (f : Z) : Z := (f mod 2 ^ 8) * 2 ^ 8 + f / 2 ^ 8.

(** Every operation of the temperature sequence, on the exact integers,
    stays inside the type C evaluates it in (int32_t, and int16_t for the
    returned value). *)
Definition temp_no_overflow (raw_t dig_T1 dig_T2 dig_T3 : Z) : Prop :=
  let a := Z.shiftr raw_t 3 - Z.shiftl dig_T1 1 in
  let b := Z.shiftr raw_t 4 - dig_T1 in
  let fine := spec_fine raw_t dig_T1 dig_T2 dig_T3 in
  in_int32 (Z.shiftl dig_T1 1) /\ in_int32 a /\ in_int32 (a * dig_T2) /\
  in_int32 b /\ in_int32 (b * b) /\ in_int32 (Z.shiftr (b * b) 12 * dig_T3) /\
  in_int32 fine /\ in_int32 (fine * 5) /\ in_int32 (fine * 5 + 128) /\
  in_int16 (spec_true_temp fine).

(** The range the temperature step is used in: a 20-bit raw count,
    coefficients of their 16-bit types, the 16-bit count [raw_t >> 4] within
    32767 of dig_T1, and dig_T3 of magnitude at most 8192 (the reference
    set has -1000). *)
Definition valid_temp_range (c : BMP390_h.BMP280Values) : Prop :=
  0 <= BMP390_h.UT c < 2 ^ 20 /\
  in_uint16 (BMP390_h.dig_T1 c) /\
  in_int16 (BMP390_h.dig_T2 c) /\
  in_int16 (BMP390_h.dig_T3 c) /\
  - 32767 <= Z.shiftr (BMP390_h.UT c) 4 - BMP390_h.dig_T1 c <= 32767 /\
  - 8192 <= BMP390_h.dig_T3 c <= 8192.

(** ** Runs and concrete states used in the statements below *)

(** Successive calls of Retransmitt, one per poll of the clock device. *)
Definition Retransmitt_many (cs : list Command) (g : Globals) : Globals :=
  fold_left (fun acc c => Retransmitt c acc) cs g.

(** A poll that leaves the sun at or below the horizon. *)
Definition below_horizon (c : Command) : Prop :=
  match c with
  | NoCommand => True
  | Angles _ el => (el <= 0)%R
  end.

Definition is_nonfinite (x : cdouble) : Prop :=
  match x with Val _ => False | _ => True end.

(** The settings menu (Windows.c) stores the observer altitude. *)
Definition set_altitude (v : Z) (g : Globals) : Globals :=
  let d := Date_Clock g in
  {| BMP280 := BMP280 g; SHT21 := SHT21 g; SUN := SUN g;
     Date_Clock :=
       {| Communications_h.year := Communications_h.year d;
          Communications_h.month := Communications_h.month d;
          Communications_h.day := Communications_h.day d;
          Communications_h.hour := Communications_h.hour d;
          Communications_h.minute := Communications_h.minute d;
          Communications_h.second := Communications_h.second d;
          Communications_h.hunderts := Communications_h.hunderts d;
          Communications_h.latitude := Communications_h.latitude d;
          Communications_h.longitude := Communications_h.longitude d;
          Communications_h.timezone := Communications_h.timezone d;
          Communications_h.altitude := v;
          Communications_h.error := Communications_h.error d;
          Communications_h.errorCounter := Communications_h.errorCounter d;
          Communications_h.warning := Communications_h.warning d;
          Communications_h.counterImitator :=
            Communications_h.counterImitator d |};
     Altitude := Altitude g |}.

(** A station 100 m above sea level with the reference calibration, and a
    poll that delivers the reference raw counts (left-aligned in their
    3-byte registers) while the sun stands 10 degrees above the horizon. *)
Definition station_100m : Globals := set_altitude 100 reference_globals.

Definition daylight_poll : CycleInput :=
  {| press_word := 415148 * 16; temp_word := 519888 * 16;
     rh_word := 0; t_word := 0; command := Angles 180 10 |}.

(** The globals before the first pressure has been stored
    (BMP280.Pressure = 0), with 25 degrees Celsius and 50 percent relative
    humidity measured. *)
Definition no_pressure_yet : Globals :=
  set_SHT21 (SHT45_h.set_RH 50 (SHT45_h.set_T 25 SHT21_init)) globals_init.

(** * The rest of the pipeline's code *)

(** ** More fixed-width integers: uint8_t, and the 16-bit [int] and
       [unsigned int] of avr-gcc *)

Definition to_uint8 := wrap_unsigned 8.
Definition to_int := wrap_signed 16.
Definition to_uint := wrap_unsigned 16.

Definition in_uint8 (z : Z) : Prop := 0 <= z < 2 ^ 8.

(** ** i2c.c: block transfers *)

(** What the bus does during one call of ReadMulti: the error code left by
    the two address phases and the register byte (0 when all three were
    acknowledged) and, for each call of ReadByteInf in turn, the byte
    received, or [None] for a time-out. A list that ends early stands for
    time-outs from there on. *)
Record BusRead := {
  setup_error : Z;
  received : list (option Z)
}.

(** The loop of ReadMulti, [n] iterations from index [i]. *)
Fixpoint ReadMulti_loop (n : nat) (bytes i : Z) (rx : list (option Z))
    (data : Z) : Z :=
  match n with
  | O => data
  | S n' =>
      match rx with
      | Some byte :: rx' =>
          ReadMulti_loop n' bytes (i + 1) rx'
            (Z.lor data (shl_u64 (to_uint8 byte) (8 * (bytes - 1 - i))))
      | _ => data
      end
  end.

Definition ReadMulti_on (b : BusRead) (bytes : Z) : Z :=
  if (bytes =? 0) || (8 <? bytes) then 0
  else if setup_error b =? 0 then
    ReadMulti_loop (Z.to_nat bytes) bytes 0 (received b) 0
  else 0.

(** The byte WriteMulti hands to TransmitByte in iteration [i]. *)
Definition WriteMulti_byte (data bytes i : Z) : Z :=
  to_uint8 (Z.land (shr_u64 data (8 * (bytes - 1 - i))) 0xFF).

(** The loop of WriteMulti: the bytes handed to TransmitByte, given the
    error code each call returns; the loop stops after the first call that
    reports an error. *)
Fixpoint WriteMulti_loop (n : nat) (bytes i : Z) (errors : list Z)
    (data : Z) : list Z :=
  match n with
  | O => []
  | S n' =>
      match errors with
      | e :: errors' =>
          if e =? 0 then
            WriteMulti_byte data bytes i
            :: WriteMulti_loop n' bytes (i + 1) errors' data
          else [WriteMulti_byte data bytes i]
      | [] => [WriteMulti_byte data bytes i]
      end
  end.

(** A device that acknowledges everything and answers a block read with the
    contents of consecutive registers, as both sensors do. *)
Definition healthy_read (regs : Z -> Z) (reg bytes : Z) : BusRead :=
  {| setup_error := 0;
     received :=
       map (fun k => Some (regs (reg + Z.of_nat k))) (seq 0 (Z.to_nat bytes)) |}.

Definition ReadMulti_healthy (regs : Z -> Z) (addr reg bytes : Z) : Z :=
  ReadMulti_on (healthy_read regs reg bytes) bytes.

(** A bus on which the device does not answer: every transfer ends in the
    error [e]. *)
Definition ReadMulti_failing (e : Z) (addr reg bytes : Z) : Z :=
  ReadMulti_on {| setup_error := e; received := [] |} bytes.

(** Big-endian value of a list of bytes. *)
Definition be_from (acc : Z) (bs : list Z) : Z :=
  fold_left (fun a b => a * 256 + b) bs acc.

Definition be_value (bs : list Z) : Z := be_from 0 bs.

(** The twelve calibration coefficients. *)
Definition coefficients (c : BMP390_h.BMP280Values) : list Z :=
  [BMP390_h.dig_T1 c; BMP390_h.dig_T2 c; BMP390_h.dig_T3 c;
   BMP390_h.dig_P1 c; BMP390_h.dig_P2 c; BMP390_h.dig_P3 c;
   BMP390_h.dig_P4 c; BMP390_h.dig_P5 c; BMP390_h.dig_P6 c;
   BMP390_h.dig_P7 c; BMP390_h.dig_P8 c; BMP390_h.dig_P9 c].

(** Little-endian 16-bit value of two register bytes. *)
Definition le16 (lo hi : Z) : Z := lo + 256 * hi.

(** The bytes a block read gets before the first time-out, at most [n]. *)
Fixpoint taken (n : nat) (rx : list (option Z)) : list Z :=
  match n, rx with
  | S n', Some byte :: rx' => byte :: taken n' rx'
  | _, _ => []
  end.

(** The calibration registers 0x88..0x9F of a sensor that holds the
    reference coefficients of BMP390.h; other registers read as 0. *)
Definition reference_registers (r : Z) : Z :=
  nth (Z.to_nat (r - 0x88))
    [112; 107; 67; 103; 24; 252; 125; 142; 67; 214; 208; 11;
     39; 11; 140; 0; 249; 255; 140; 60; 248; 198; 112; 23] 0.

(** What is set up once, before the loop: the calibration coefficients, the
    sensor configuration and the observer's calendar and place. *)
Definition same_setup (g g' : Globals) : Prop :=
  coefficients (cal g') = coefficients (cal g) /\
  BMP390_h.ID (BMP280 g') = BMP390_h.ID (BMP280 g) /\
  BMP390_h.Config (BMP280 g') = BMP390_h.Config (BMP280 g) /\
  BMP390_h.Status (BMP280 g') = BMP390_h.Status (BMP280 g) /\
  Date_Clock g' = Date_Clock g.

(** ** SHT45.c: the user register *)

Definition BATTERY_ADD : Z := 6.
Definition OTP_ADD : Z := 1.
Definition HEATER_ADD : Z := 2.
Definition RESOLUTION_ADD : Z := 129.
Definition ON : Z := 1.

(** SHT21_Settings_Read, given the byte ReadReg returned. *)
Definition SHT21_Settings_Read (reader : Z) (g : Globals) : Globals :=
  let s := SHT21 g in
  set_SHT21
    {| SHT45_h.OTP_DISABLE :=
         to_uint8 (Z.shiftr (Z.land reader (Z.shiftl ON OTP_ADD)) OTP_ADD);
       SHT45_h.Heater :=
         to_uint8 (Z.shiftr (Z.land reader (Z.shiftl ON HEATER_ADD)) HEATER_ADD);
       SHT45_h.Resolution := to_uint8 (Z.land reader RESOLUTION_ADD);
       SHT45_h.Battery :=
         to_uint8 (Z.shiftr (Z.land reader (Z.shiftl ON BATTERY_ADD)) BATTERY_ADD);
       SHT45_h.T := SHT45_h.T s; SHT45_h.RH := SHT45_h.RH s;
       SHT45_h.Fault := SHT45_h.Fault s; SHT45_h.e := SHT45_h.e s |} g.

(** The byte SHT21_Settings_Write passes to WriteToReg (the sum is formed
    in [int] and cannot overflow for uint8_t members). *)
Definition SHT21_Settings_Write (g : Globals) : Z :=
  let s := SHT21 g in
  to_uint8 (SHT45_h.Resolution s
            + Z.shiftl (SHT45_h.Heater s) HEATER_ADD
            + Z.shiftl (SHT45_h.OTP_DISABLE s) OTP_ADD
            + Z.shiftl (SHT45_h.Battery s) BATTERY_ADD).

(** SHT21_Reset, given the byte the user register reads after the reset:
    the globals afterwards and the byte written back, if any. *)
Definition SHT21_Reset (reader save : Z) (g : Globals) : Globals * option Z :=
  let g1 := SHT21_Settings_Read reader g in
  if negb (Z.land save 1 =? 0) then (g1, Some (SHT21_Settings_Write g1))
  else (g1, None).

(** Settings the data sheet allows: one of the four resolutions and three
    flags. *)
Definition valid_settings (s : SHT45_h.SHT) : Prop :=
  (SHT45_h.Resolution s = 0 \/ SHT45_h.Resolution s = 1 \/
   SHT45_h.Resolution s = 128 \/ SHT45_h.Resolution s = 129) /\
  (SHT45_h.Heater s = 0 \/ SHT45_h.Heater s = 1) /\
  (SHT45_h.OTP_DISABLE s = 0 \/ SHT45_h.OTP_DISABLE s = 1) /\
  (SHT45_h.Battery s = 0 \/ SHT45_h.Battery s = 1).

(** All bytes, for checks by enumeration. *)
Definition all_bytes : list Z := map Z.of_nat (seq 0 256).

(** The real-valued barometric formula of AltitudeAverage. *)
Definition barometric (P : R) : R :=
  (44330.7692307 * (Rpower (P / Altitude_h.SEA_LEVEL_PRESSURE) (-0.1902632) - 1))%R.

(** The real-valued hypsometric formula of calculate_adjusted_elevation,
    for temperature [T] (Celsius) and adjusted pressure [a]. *)
Definition hypsometric (T a : R) : R :=
  ((T + Altitude_h.T0) / Altitude_h.GRAVITY
   * ln (Altitude_h.SEA_LEVEL_PRESSURE / a)
   * (Altitude_h.UNIVERSAL_GAS_CONSTANT / Altitude_h.MOLAR_MASS_AIR))%R.

(** ** Communications.c: validation *)

(** C's [/] and [%] on [int] operands. *)
Definition c_div (a b : Z) : Z := Z.quot a b.
Definition c_mod (a b : Z) : Z := Z.rem a b.

Definition isLeapYear (year : Z) : Z :=
  if ((c_mod year 4 =? 0) && negb (c_mod year 100 =? 0))
     || (c_mod year 400 =? 0)
  then 1 else 0.

(** Assignment to an array element. *)
Fixpoint array_set (l : list Z) (i : nat) (v : Z) : list Z :=
  match l, i with
  | [], _ => []
  | _ :: l', O => v :: l'
  | x :: l', S i' => x :: array_set l' i' v
  end.

(** isValidDateTime: 0 for a valid date and time, 1 otherwise; [None]
    would be a read outside daysInMonth. *)
Definition isValidDateTime (year month day hour minute second : Z)
    : option Z :=
  let daysInMonth := [31; 28; 31; 30; 31; 30; 31; 31; 30; 31; 30; 31] in
  if (year <? 1) || (month <? 1) || (12 <? month) then Some 1
  else
    let daysInMonth :=
      if negb (isLeapYear year =? 0) then array_set daysInMonth 1 29
      else daysInMonth in
    if day <? 1 then Some 1
    else
      match nth_error daysInMonth (Z.to_nat (month - 1)) with
      | None => None
      | Some days =>
          if (days <? day) || (23 <? hour) || (59 <? minute) || (59 <? second)
          then Some 1 else Some 0
      end.

Definition isValidTimeZone (timeZone : Z) : Z :=
  if (timeZone <? -12) || (12 <? timeZone) then 1 else 0.

Definition isValidAltitude (altitude : Z) : Z :=
  if (altitude <? -500) || (9000 <? altitude) then 1 else 0.

Definition isValidLatitude (latitude : R) : Z :=
  if Rlt_dec latitude (-90) then 1
  else if Rlt_dec 90 latitude then 1 else 0.

Definition isValidLongitude (longitude : R) : Z :=
  if Rlt_dec longitude (-180) then 1
  else if Rlt_dec 180 longitude then 1 else 0.

(** The calendar the validation is meant to follow. *)
Definition gregorian_leap (year : Z) : bool :=
  ((year mod 4 =? 0) && negb (year mod 100 =? 0)) || (year mod 400 =? 0).

Definition days_in_month (year month : Z) : Z :=
  if month =? 2 then (if gregorian_leap year then 29 else 28)
  else if (month =? 4) || (month =? 6) || (month =? 9) || (month =? 11)
       then 30 else 31.

Definition valid_date_time (year month day hour minute second : Z) : Prop :=
  1 <= year /\ 1 <= month <= 12 /\ 1 <= day <= days_in_month year month /\
  hour <= 23 /\ minute <= 59 /\ second <= 59.

(** ** Windows.c: the digits of the settings editor *)

Definition to_int8 := wrap_signed 8.

(** [abs] of <stdlib.h> on an [int]. *)
Definition c_abs (x : Z) : Z := to_int (Z.abs x).

Definition extractDigitFromTime (step : Z) (g : Globals) : Z :=
  let d := Date_Clock g in
  to_uint8
    (if step =? 0 then c_mod (c_div (Communications_h.year d) 1000) 10
     else if step =? 1 then c_mod (c_div (Communications_h.year d) 100) 10
     else if step =? 2 then c_mod (c_div (Communications_h.year d) 10) 10
     else if step =? 3 then c_mod (Communications_h.year d) 10
     else if step =? 4 then c_mod (c_div (Communications_h.month d) 10) 10
     else if step =? 5 then c_mod (Communications_h.month d) 10
     else if step =? 6 then c_mod (c_div (Communications_h.day d) 10) 10
     else if step =? 7 then c_mod (Communications_h.day d) 10
     else if step =? 8 then c_mod (c_div (Communications_h.hour d) 10) 10
     else if step =? 9 then c_mod (Communications_h.hour d) 10
     else if step =? 10 then c_mod (c_div (Communications_h.minute d) 10) 10
     else if step =? 11 then c_mod (Communications_h.minute d) 10
     else if step =? 12 then c_mod (c_div (Communications_h.second d) 10) 10
     else if step =? 13 then c_mod (Communications_h.second d) 10
     else 0).

Definition extractDigitFromTimeZone (step : Z) (g : Globals) : Z :=
  let tz := Communications_h.timezone (Date_Clock g) in
  to_uint8
    (if step =? 0 then (if tz <? 0 then 1 else 0)
     else if step =? 1 then c_mod (c_div (c_abs tz) 10) 10
     else if step =? 2 then c_mod (c_abs tz) 10
     else 0).

Definition extractDigitFromAltitude (step : Z) (g : Globals) : Z :=
  let alt := Communications_h.altitude (Date_Clock g) in
  to_uint8
    (if step =? 0 then (if alt <? 0 then 1 else 0)
     else if step =? 1 then c_mod (c_div (c_abs alt) 1000) 10
     else if step =? 2 then c_mod (c_div (c_abs alt) 100) 10
     else if step =? 3 then c_mod (c_div (c_abs alt) 10) 10
     else if step =? 4 then c_mod (c_abs alt) 10
     else 0).

(** calculateValue over the digits it is pointed at. *)
Definition calculateValue (digits : list Z) : Z :=
  fold_left (fun result d => add64 (mul64 result 10) d) digits 0.

(** applySign; its [int] parameter and result are 16 bits wide. *)
Definition applySign (signDigit value : Z) : Z :=
  if signDigit =? 0 then to_int value else to_int (- to_int value).

Definition applySignDouble (signDigit : Z) (value : R) : R :=
  if signDigit =? 0 then value else (- value)%R.

(** [digits[first .. first + n - 1]] of the 38-element array. *)
Definition digits_at (a : list Z) (first n : nat) : list Z :=
  firstn n (skipn first a).

(** The values ValidateNewData decodes from the array newTimeAndPlace. *)
Definition entered_year (a : list Z) : Z :=
  let d := fun k => nth k a 0 in
  to_uint (to_uint (to_uint (to_uint (d 0%nat * 1000) + to_uint (d 1%nat * 100))
                    + d 2%nat * 10) + d 3%nat).

(** A two-digit field, passed on as a [uint8_t]. *)
Definition entered_field (a : list Z) (k : nat) : Z :=
  to_uint8 (nth k a 0 * 10 + nth (S k) a 0).

Definition entered_timezone (a : list Z) : Z :=
  to_int8 (applySign (nth 14 a 0) (calculateValue (digits_at a 15 2))).

Definition entered_altitude (a : list Z) : Z :=
  to_int16 (applySign (nth 17 a 0) (calculateValue (digits_at a 18 4))).

Definition entered_latitude (a : list Z) : R :=
  applySignDouble (nth 22 a 0) (IZR (calculateValue (digits_at a 23 6)) / 10000)%R.

Definition entered_longitude (a : list Z) : R :=
  applySignDouble (nth 29 a 0) (IZR (calculateValue (digits_at a 30 7)) / 10000)%R.

(** ValidateNewData: the new [*step], the value left in
    Keypad3x4.key_held and the globals. Writes to the screen and to the
    clock device leave the globals alone. *)
Definition ValidateNewData (a : list Z) (g : Globals)
    : option (Z * Z * Globals) :=
  let newTimeZone := entered_timezone a in
  let newAltitude := entered_altitude a in
  let newLatitude := entered_latitude a in
  let newLongitude := entered_longitude a in
  match isValidDateTime (entered_year a)
          (entered_field a 4) (entered_field a 6)
          (entered_field a 8) (entered_field a 10) (entered_field a 12) with
  | None => None
  | Some v =>
      if v =? 1 then Some (0, 21, g)
      else if isValidTimeZone newTimeZone =? 1 then Some (14, 21, g)
      else if isValidAltitude newAltitude =? 1 then Some (17, 21, g)
      else if isValidLatitude newLatitude =? 1 then Some (22, 21, g)
      else if isValidLongitude newLongitude =? 1 then Some (30, 21, g)
      else Some (0, 0, set_altitude newAltitude g)
  end.

(** The plain decimal value of a digit string. *)
Definition decimal (digits : list Z) : Z :=
  fold_left (fun r d => r * 10 + d) digits 0.

(** The digits the editor takes over from the current altitude and time
    zone when the fields are confirmed unchanged. *)
Definition altitude_digits (g : Globals) : list Z :=
  map (fun k => extractDigitFromAltitude k g) [0; 1; 2; 3; 4].

Definition timezone_digits (g : Globals) : list Z :=
  map (fun k => extractDigitFromTimeZone k g) [0; 1; 2].

Definition time_digits (g : Globals) : list Z :=
  map (fun k => extractDigitFromTime k g)
    [0; 1; 2; 3; 4; 5; 6; 7; 8; 9; 10; 11; 12; 13].

(** Conversion of a [double] to an integer type truncates toward zero;
    [round] of <math.h> rounds halves away from zero. *)
Definition c_trunc (x : R) : Z :=
  if Rle_dec 0 x then Int_part x else - Int_part (- x).

Definition c_round (x : R) : R :=
  if Rle_dec 0 x then IZR (Int_part (x + / 2))
  else (- IZR (Int_part (- x + / 2)))%R.

(** extractDigitFromLocation. The divisor is a [uint32_t] that the loop
    multiplies by 10; [None] stands for a division by a divisor that has
    wrapped to 0. A [double] beyond the range of the integer type it is
    converted to is taken modulo that range. *)
Fixpoint divisor_loop (n : nat) (divisor : Z) : Z :=
  match n with
  | O => divisor
  | S n' => divisor_loop n' (to_uint32 (divisor * 10))
  end.

Definition digit_of (value divisor : Z) : option Z :=
  if divisor =? 0 then None
  else Some (to_uint8 (to_uint32 (value / divisor) mod 10)).

Definition extractDigitFromLocation (intgpart : Z) (number : R) (step : Z)
    : option Z :=
  if step =? 0 then Some (if Rlt_dec number 0 then 1 else 0)
  else
    let number := Rabs number in
    let integer_part := to_uint8 (c_trunc number) in
    let fractional_part :=
      to_uint32 (c_trunc (c_round ((number - IZR integer_part) * 10000))) in
    if step <=? intgpart then
      digit_of integer_part (divisor_loop (Z.to_nat (intgpart - step)) 1)
    else
      digit_of fractional_part
        (divisor_loop (Z.to_nat (4 + intgpart - step)) 1).

(** DataExtraction: the next step and the array. The array has 38
    entries in the program, so that the store is within it. *)
Definition DataExtraction (step : Z) (a : list Z) (g : Globals)
    : option (Z * list Z) :=
  let store := fun v =>
    Some (to_uint8 (step + 1), array_set a (Z.to_nat step) v) in
  if step <? 14 then store (extractDigitFromTime step g)
  else if (14 <=? step) && (step <? 17) then
    store (extractDigitFromTimeZone (to_uint8 (step - 14)) g)
  else if (17 <=? step) && (step <? 22) then
    store (extractDigitFromAltitude (to_uint8 (step - 17)) g)
  else if (22 <=? step) && (step <? 29) then
    match extractDigitFromLocation 2
            (Communications_h.latitude (Date_Clock g))
            (to_uint8 (step - 22)) with
    | Some v => store v
    | None => None
    end
  else if (29 <=? step) && (step <? 37) then
    match extractDigitFromLocation 3
            (Communications_h.longitude (Date_Clock g))
            (to_uint8 (step - 29)) with
    | Some v => store v
    | None => None
    end
  else Some (to_uint8 (step + 1), a).

(** The # key pressed [n] times in DateAndLocationChangeWindow, as long as
    the step stays below 38. *)
Fixpoint press_hash (n : nat) (step : Z) (a : list Z) (g : Globals)
    : option (Z * list Z) :=
  match n with
  | O => Some (step, a)
  | S n' =>
      match DataExtraction step a g with
      | Some (step', a') => press_hash n' step' a' g
      | None => None
      end
  end.

Definition latitude_digits (g : Globals) : list (option Z) :=
  map (extractDigitFromLocation 2 (Communications_h.latitude (Date_Clock g)))
    [0; 1; 2; 3; 4; 5; 6].

Definition longitude_digits (g : Globals) : list (option Z) :=
  map (extractDigitFromLocation 3 (Communications_h.longitude (Date_Clock g)))
    [0; 1; 2; 3; 4; 5; 6; 7].

(** The date and time fields as the clock device's frame sets them. *)
Definition set_clock (y mo dd h mi s : Z) (g : Globals) : Globals :=
  let d := Date_Clock g in
  {| BMP280 := BMP280 g; SHT21 := SHT21 g; SUN := SUN g;
     Date_Clock :=
       {| Communications_h.year := y;
          Communications_h.month := mo;
          Communications_h.day := dd;
          Communications_h.hour := h;
          Communications_h.minute := mi;
          Communications_h.second := s;
          Communications_h.hunderts := Communications_h.hunderts d;
          Communications_h.latitude := Communications_h.latitude d;
          Communications_h.longitude := Communications_h.longitude d;
          Communications_h.timezone := Communications_h.timezone d;
          Communications_h.altitude := Communications_h.altitude d;
          Communications_h.error := Communications_h.error d;
          Communications_h.errorCounter := Communications_h.errorCounter d;
          Communications_h.warning := Communications_h.warning d;
          Communications_h.counterImitator :=
            Communications_h.counterImitator d |};
     Altitude := Altitude g |}.

Definition set_location (lat lon : R) (g : Globals) : Globals :=
  let d := Date_Clock g in
  {| BMP280 := BMP280 g; SHT21 := SHT21 g; SUN := SUN g;
     Date_Clock :=
       {| Communications_h.year := Communications_h.year d;
          Communications_h.month := Communications_h.month d;
          Communications_h.day := Communications_h.day d;
          Communications_h.hour := Communications_h.hour d;
          Communications_h.minute := Communications_h.minute d;
          Communications_h.second := Communications_h.second d;
          Communications_h.hunderts := Communications_h.hunderts d;
          Communications_h.latitude := lat;
          Communications_h.longitude := lon;
          Communications_h.timezone := Communications_h.timezone d;
          Communications_h.altitude := Communications_h.altitude d;
          Communications_h.error := Communications_h.error d;
          Communications_h.errorCounter := Communications_h.errorCounter d;
          Communications_h.warning := Communications_h.warning d;
          Communications_h.counterImitator :=
            Communications_h.counterImitator d |};
     Altitude := Altitude g |}.

(** 10 December 2024, 12:30:45, at 54.6872 N, 25.2797 E, with the initial
    time zone +2 and altitude -50 m, and the editor's array for it. *)
Definition editor_state : Globals :=
  set_location 54.6872 25.2797 (set_clock 2024 12 10 12 30 45 globals_init).

Definition editor_array : list Z :=
  [2; 0; 2; 4; 1; 2; 1; 0; 1; 2; 3; 0; 4; 5;
   0; 0; 2;
   1; 0; 0; 5; 0;
   0; 5; 4; 6; 8; 7; 2;
   0; 0; 2; 5; 2; 7; 9; 7;
   0].

(** ** ADC.c, Wind.c and SunLevel of ElAndAzComp.c *)

Module Wind_h.

Definition WINDADCRES : Z := 4095.
Definition WINDADCSTEP : Z := c_div WINDADCRES 7.
Definition WINDADCHALFSTEP : Z := c_div WINDADCSTEP 2.
Definition WINDDIRTOLERANCE : Z := c_div WINDADCSTEP 4.

Record WindParam := { speed : Z; direction : Z }.

End Wind_h.

(** ADC0_read, on the 16-bit result register ADC0.RES. *)
Definition ADC0_read (RES : Z) : Z := Z.shiftr (to_uint16 RES) 4.

Definition WindSpeed (RES : Z) (w : Wind_h.WindParam) : Wind_h.WindParam :=
  {| Wind_h.speed :=
       to_uint8 (c_trunc (IZR (ADC0_read RES) * 0.00732421875)%R);
     Wind_h.direction := Wind_h.direction w |}.

Definition WindDirection (RES : Z) (w : Wind_h.WindParam) : Wind_h.WindParam :=
  let rawDirect := ADC0_read RES in
  let set d := {| Wind_h.speed := Wind_h.speed w; Wind_h.direction := d |} in
  if rawDirect <? Wind_h.WINDADCHALFSTEP then set 0
  else if Wind_h.WINDADCRES - Wind_h.WINDADCHALFSTEP <? rawDirect then set 7
  else
    let position :=
      to_uint8 (to_uint (rawDirect + Wind_h.WINDADCHALFSTEP)
                / Wind_h.WINDADCSTEP) in
    let center := to_uint16 (to_int (position * Wind_h.WINDADCSTEP)) in
    if (to_uint (center - Wind_h.WINDDIRTOLERANCE) <=? rawDirect)
       && (rawDirect <=? to_uint (center + Wind_h.WINDDIRTOLERANCE))
    then set position
    else w.

(** SunLevel: the integer quotient goes through [round] into the
    [uint16_t] field. *)
Definition SunLevel (RES : Z) (g : Globals) : Globals :=
  let s := SUN g in
  set_SUN
    {| ElAndAzComp_h.elevation := ElAndAzComp_h.elevation s;
       ElAndAzComp_h.azimuth := ElAndAzComp_h.azimuth s;
       ElAndAzComp_h.adjelevation := ElAndAzComp_h.adjelevation s;
       ElAndAzComp_h.adjazimuth := ElAndAzComp_h.adjazimuth s;
       ElAndAzComp_h.sunlevel :=
         to_uint16 (c_trunc (c_round (IZR (to_uint (ADC0_read RES) / 4)))) |}
    g.

(** ** BMP390.c: configuration and status registers *)

Definition set_Config (c : BMP390_h.BMP280Config) (g : Globals) : Globals :=
  let b := BMP280 g in
  set_BMP280
    {| BMP390_h.ID := BMP390_h.ID b;
       BMP390_h.Temperature := BMP390_h.Temperature b;
       BMP390_h.Pressure := BMP390_h.Pressure b;
       BMP390_h.CalibrationValues := BMP390_h.CalibrationValues b;
       BMP390_h.Config := c;
       BMP390_h.Status := BMP390_h.Status b |} g.

Definition set_Status (s : BMP390_h.BMP280Status) (g : Globals) : Globals :=
  let b := BMP280 g in
  set_BMP280
    {| BMP390_h.ID := BMP390_h.ID b;
       BMP390_h.Temperature := BMP390_h.Temperature b;
       BMP390_h.Pressure := BMP390_h.Pressure b;
       BMP390_h.CalibrationValues := BMP390_h.CalibrationValues b;
       BMP390_h.Config := BMP390_h.Config b;
       BMP390_h.Status := s |} g.

Definition ctrl_meas : Z := 0xf4.
Definition config : Z := 0xf5.

(** ReadBMP280Config on the word ReadMulti returned. *)
Definition ReadBMP280Config (data : Z) (g : Globals) : Globals :=
  set_Config
    {| BMP390_h.t_sb := to_uint8 (Z.land (shr_u64 data 5) 0xfff);
       BMP390_h.filter := to_uint8 (Z.land (shr_u64 data 2) 0xfff);
       BMP390_h.spi3w_en := to_uint8 (Z.land data 0xf);
       BMP390_h.osrs_t := to_uint8 (Z.land (shr_u64 data 13) 0xfff);
       BMP390_h.osrs_p := to_uint8 (Z.land (shr_u64 data 10) 0xfff);
       BMP390_h.Mode := to_uint8 (Z.land (shr_u64 data 8) 0xff) |} g.

(** WriteBMP280Config: the bytes handed to WriteToReg for ctrl_meas and
    for config. *)
Definition WriteBMP280Config (g : Globals) : Z * Z :=
  let c := BMP390_h.Config (BMP280 g) in
  (to_uint8 (to_int (to_int (to_int (Z.shiftl (BMP390_h.osrs_p c) 5)
                             + to_int (Z.shiftl (BMP390_h.osrs_t c) 2))
                     + BMP390_h.Mode c)),
   to_uint8 (to_int (to_int (to_int (Z.shiftl (BMP390_h.t_sb c) 5)
                             + to_int (Z.shiftl (BMP390_h.filter c) 2))
                     + BMP390_h.spi3w_en c))).

(** ReadBMP280Status on the byte ReadReg returned. *)
Definition ReadBMP280Status (data : Z) (g : Globals) : Globals :=
  set_Status
    {| BMP390_h.measuring := to_uint8 (Z.land (Z.shiftr data 3) 0xf);
       BMP390_h.im_update := to_uint8 (Z.land data 0xf) |} g.

(** The condition under which ReadBMP280TP polls the status again. *)
Definition ReadBMP280TP_waits (g : Globals) : bool :=
  negb (BMP390_h.measuring (BMP390_h.Status (BMP280 g)) =? 0)
  && negb (BMP390_h.im_update (BMP390_h.Status (BMP280 g)) =? 0).

(** The configuration main() sets before WriteBMP280Config. *)
Definition main_config : BMP390_h.BMP280Config :=
  {| BMP390_h.t_sb := 0; BMP390_h.filter := 4; BMP390_h.spi3w_en := 1;
     BMP390_h.osrs_t := 5; BMP390_h.osrs_p := 5; BMP390_h.Mode := 3 |}.

(** A register file that holds what was written to ctrl_meas and config. *)
Definition config_registers (ctrl cfg : Z) (r : Z) : Z :=
  if r =? ctrl_meas then ctrl else if r =? config then cfg else 0.

(** ** main.c: one pass of the loop, up to AltitudeAverage *)

(** [ws], [wd] and [sl] are the contents of ADC0.RES at the three
    conversions. *)
Definition main_cycle (CRC8MAXIM : Z -> Z) (i : CycleInput) (ws wd sl : Z)
    (g : Globals) (w : Wind_h.WindParam)
    : option (Globals * Wind_h.WindParam) :=
  let g := ReadBMP280TP (press_word i) (temp_word i) g in
  let g := snd (CalcTrueTemp g) in
  match CalcTruePres g with
  | None => None
  | Some (_, g) =>
      let g := snd (Separator CRC8MAXIM (rh_word i) g) in
      let g := snd (Separator CRC8MAXIM (t_word i) g) in
      let g := Retransmitt (command i) g in
      let w := WindSpeed ws w in
      let w := WindDirection wd w in
      let g := SunLevel sl g in
      Some (AltitudeAverage g, w)
  end.

(** ** SHT45.c: SHT21_Read *)

Definition HOLD_MASTER_T_MES : Z := 0xe3.
Definition HOLD_MASTER_RH_MES : Z := 0xe5.
Definition NO_HOLD_MASTER_T_MES : Z := 0xf3.
Definition NO_HOLD_MASTER_RH_MES : Z := 0xf5.

(** The three-byte loop of the no-hold branch, on a [uint32_t]. *)
Fixpoint SHT21_Read_loop (n : nat) (i : Z) (rx : list (option Z)) (data : Z)
    : Z :=
  match n with
  | O => data
  | S n' =>
      match rx with
      | Some byte :: rx' =>
          SHT21_Read_loop n' (i + 1) rx'
            (Z.lor data (to_uint32 (Z.shiftl (to_uint8 byte) (8 * (2 - i)))))
      | _ => data
      end
  end.

(** SHT21_Read on a bus as for ReadMulti; in the no-hold modes the setup
    is the address, the command byte and, after the delay, the address for
    reading. *)
Definition SHT21_Read (mode : Z) (b : BusRead) : Z :=
  if (mode =? HOLD_MASTER_T_MES) || (mode =? HOLD_MASTER_RH_MES) then
    to_uint32 (ReadMulti_on b 3)
  else if (mode =? NO_HOLD_MASTER_T_MES) || (mode =? NO_HOLD_MASTER_RH_MES)
  then
    if setup_error b =? 0 then SHT21_Read_loop 3 0 (received b) 0 else 0
  else 0.

(** ** Keypad3x4.c *)

Module Keypad3x4_h.

Definition DEBOUNCE_DELAY : Z := 10.
Definition HOLD_THRESHOLD : Z := 50.
Definition LONG_PRESS_ADD : Z := 20.

(** Keypad3x4.key and Keypad3x4.key_held, with the two static variables
    of keypad(). *)
Record KeypadState := {
  last_key : Z;       (* static uint8_t *)
  hold_counter : Z;   (* static uint16_t *)
  key : Z;
  key_held : Z
}.

End Keypad3x4_h.

(** scan_keypad. [PORTD_IN r] and [PORTF_IN r] are the input registers of
    the two ports while row [r] is driven low; column 0 is read from
    PORTD, columns 1 and 2 from PORTF. *)
Definition col_pins : list Z := [0x02; 0x10; 0x08].

Definition pin_state (PORTD_IN PORTF_IN : Z -> Z) (row col : nat) : bool :=
  if Nat.eqb col 0
  then Z.land (PORTD_IN (Z.of_nat row)) (nth col col_pins 0) =? 0
  else Z.land (PORTF_IN (Z.of_nat row)) (nth col col_pins 0) =? 0.

Fixpoint scan_cols (PORTD_IN PORTF_IN : Z -> Z) (row col n : nat)
    : option Z :=
  match n with
  | O => None
  | S n' =>
      if pin_state PORTD_IN PORTF_IN row col
      then Some (to_uint8
                   (to_int (to_int (to_int (Z.of_nat row * 3) + Z.of_nat col)
                            + 1)))
      else scan_cols PORTD_IN PORTF_IN row (S col) n'
  end.

Fixpoint scan_rows (PORTD_IN PORTF_IN : Z -> Z) (row n : nat) : Z :=
  match n with
  | O => 0
  | S n' =>
      match scan_cols PORTD_IN PORTF_IN row 0 3 with
      | Some k => k
      | None => scan_rows PORTD_IN PORTF_IN (S row) n'
      end
  end.

Definition scan_keypad (PORTD_IN PORTF_IN : Z -> Z) : Z :=
  scan_rows PORTD_IN PORTF_IN 0 4.

(** keypad(), given what scan_keypad returned. Clearing the screen on a
    long press leaves this state alone. *)
Definition keypad (scanned : Z) (s : Keypad3x4_h.KeypadState)
    : Keypad3x4_h.KeypadState :=
  if (scanned =? Keypad3x4_h.last_key s) && negb (scanned =? 0) then
    let hold_counter :=
      to_uint16 (Keypad3x4_h.hold_counter s + Keypad3x4_h.DEBOUNCE_DELAY) in
    if hold_counter =? Keypad3x4_h.HOLD_THRESHOLD then
      {| Keypad3x4_h.last_key := scanned;
         Keypad3x4_h.hold_counter :=
           to_uint16 (Keypad3x4_h.HOLD_THRESHOLD + 1);
         Keypad3x4_h.key := 0;
         Keypad3x4_h.key_held :=
           to_uint8 (scanned + Keypad3x4_h.LONG_PRESS_ADD) |}
    else
      {| Keypad3x4_h.last_key := scanned;
         Keypad3x4_h.hold_counter := hold_counter;
         Keypad3x4_h.key := scanned;
         Keypad3x4_h.key_held := Keypad3x4_h.key_held s |}
  else
    {| Keypad3x4_h.last_key := scanned;
       Keypad3x4_h.hold_counter := 0;
       Keypad3x4_h.key := scanned;
       Keypad3x4_h.key_held := Keypad3x4_h.key_held s |}.

(** The same scan result in [n] calls in a row. *)
Definition keypad_held (scanned : Z) (n : nat) (s : Keypad3x4_h.KeypadState)
    : Keypad3x4_h.KeypadState :=
  Nat.iter n (keypad scanned) s.

Definition keypad_init : Keypad3x4_h.KeypadState :=
  {| Keypad3x4_h.last_key := 0; Keypad3x4_h.hold_counter := 0;
     Keypad3x4_h.key := 0; Keypad3x4_h.key_held := 0 |}.

(** ** ST7567S.c: where a text goes on the 128-pixel line *)

Inductive alignment_t := ALIGN_LEFT | ALIGN_CENTER | ALIGN_RIGHT.

(** calculate_start_pixel on the characters before the terminating NUL.
    The length is counted in a [uint8_t]: with 256 characters or more the
    counting loop does not end, which is [None] here. *)
Definition calculate_start_pixel (text : list Z) (alignment : alignment_t)
    : option Z :=
  if (256 <=? Z.of_nat (length text)) then None
  else
    let text_length := to_uint8 (Z.of_nat (length text)) in
    let text_width := to_uint8 (to_int (text_length * 6)) in
    Some match alignment with
         | ALIGN_CENTER => to_uint8 (c_div (to_int (128 - text_width)) 2)
         | ALIGN_RIGHT => to_uint8 (to_int (128 - text_width))
         | ALIGN_LEFT => 0
         end.

(** The number of characters screen_write_text asks screen_draw_text to
    draw. *)
Definition max_chars (start_pixel : Z) : Z :=
  to_uint8 (c_div (to_int (128 - start_pixel)) 6).

(** screen_draw_text: the characters handed to screen_draw_char, first
    from the text, then spaces. *)
Fixpoint draw_text_loop (text : list Z) (length max_length : Z)
    : list Z * Z :=
  match text with
  | [] => ([], length)
  | c :: text' =>
      if length <? max_length then
        let r := draw_text_loop text' (to_uint8 (length + 1)) max_length in
        (c :: fst r, snd r)
      else ([], length)
  end.

Fixpoint draw_pad_loop (fuel : nat) (length max_length : Z) : list Z :=
  match fuel with
  | O => []
  | S fuel' =>
      if length <? max_length
      then 32 :: draw_pad_loop fuel' (to_uint8 (length + 1)) max_length
      else []
  end.

Definition screen_draw_text (text : list Z) (max_length : Z) : list Z :=
  let r := draw_text_loop text 0 max_length in
  fst r ++ draw_pad_loop 256 (snd r) max_length.

(** screen_write_text_aligned: the start pixel and the characters drawn. *)
Definition screen_write_text_aligned (text : list Z) (alignment : alignment_t)
    : option (Z * list Z) :=
  match calculate_start_pixel text alignment with
  | Some start_pixel =>
      Some (start_pixel, screen_draw_text text (max_chars start_pixel))
  | None => None
  end.

(** * Properties *)

(** ** Wrap-around is the identity inside the range of the type *)

Lemma to_int32_id (z : Z) : in_int32 z -> to_int32 z = z.
Proof.
  unfold in_int32, to_int32, wrap_signed. intros H.
  change (2 ^ (32 - 1)) with (2 ^ 31). change (2 ^ 32) with (2 * 2 ^ 31).
  rewrite Z.mod_small; lia.
Qed.

Lemma to_int64_id (z : Z) : in_int64 z -> to_int64 z = z.
Proof.
  unfold in_int64, to_int64, wrap_signed. intros H.
  change (2 ^ (64 - 1)) with (2 ^ 63). change (2 ^ 64) with (2 * 2 ^ 63).
  rewrite Z.mod_small; lia.
Qed.

Lemma to_int16_id (z : Z) : in_int16 z -> to_int16 z = z.
Proof.
  unfold in_int16, to_int16, wrap_signed. intros H.
  change (2 ^ (16 - 1)) with (2 ^ 15). change (2 ^ 16) with (2 * 2 ^ 15).
  rewrite Z.mod_small; lia.
Qed.

Lemma to_uint16_id (z : Z) : in_uint16 z -> to_uint16 z = z.
Proof.
  unfold in_uint16, to_uint16, wrap_unsigned. intros H.
  apply Z.mod_small; lia.
Qed.

(** ** CalcTruePres: the guard *)

Lemma div64_some (a b : Z) : b <> 0 -> exists q, div64 a b = Some q.
Proof.
  intros H. unfold div64. destruct (Z.eqb_spec b 0) as [E | _].
  - contradiction.
  - eexists; reflexivity.
Qed.

Lemma pres_tail_some (g : Globals) (var1 var2 : Z) :
  var1 <> 0 -> exists p, pres_tail g var1 var2 = Some p.
Proof.
  intros H. unfold pres_tail.
  destruct (div64_some
              (mul64 (sub64 (shl64 (sub32 1048576 (BMP390_h.UP (cal g))) 31)
                            var2) 3125) var1 H) as [q Hq].
  rewrite Hq. eexists; reflexivity.
Qed.

(** Without wrap-around the guard tests the value of the data-sheet
    expression. *)
Lemma pres_var1_exact (g : Globals) :
  in_int32 (BMP390_h.t_fine (cal g)) ->
  in_uint16 (BMP390_h.dig_P1 (cal g)) ->
  pres_var1 g =
  spec_pres_var1 (BMP390_h.t_fine (cal g)) (BMP390_h.dig_P1 (cal g)).
Proof.
  unfold in_int32, in_uint16, pres_var1, spec_pres_var1, sar.
  intros Hf Hp.
  set (f := BMP390_h.t_fine (cal g)) in *.
  set (P1 := BMP390_h.dig_P1 (cal g)) in *.
  unfold sub64, add64, mul64, shl64.
  change (Z.shiftl 1 47) with (2 ^ 47).
  rewrite (to_int64_id (f - 128000)) by (unfold in_int64; lia).
  rewrite (to_int64_id (2 ^ 47)) by (unfold in_int64; lia).
  rewrite (to_int64_id (2 ^ 47 + (f - 128000))) by (unfold in_int64; lia).
  rewrite to_int64_id; [reflexivity |].
  unfold in_int64. split; nia.
Qed.

(** X6. The guard of CalcTruePres fires exactly when dig_P1 is zero:
    with t_fine a 32-bit and dig_P1 a 16-bit value, var1 is 0 if and only
    if dig_P1 is 0. *)
Lemma pres_var1_zero_iff (g : Globals) :
  in_int32 (BMP390_h.t_fine (cal g)) ->
  in_uint16 (BMP390_h.dig_P1 (cal g)) ->
  pres_var1 g = 0 <-> BMP390_h.dig_P1 (cal g) = 0.
Proof.
  intros Hf Hp. rewrite (pres_var1_exact g Hf Hp).
  unfold spec_pres_var1, in_int32, in_uint16 in *.
  set (f := BMP390_h.t_fine (cal g)) in *.
  set (P1 := BMP390_h.dig_P1 (cal g)) in *.
  change (Z.shiftl 1 47) with (2 ^ 47).
  rewrite Z.shiftr_div_pow2 by lia.
  split.
  - intros H.
    destruct (Z.eq_dec P1 0) as [E | NE]; [exact E | exfalso].
    assert (2 ^ 33 <= (2 ^ 47 + (f - 128000)) * P1) by nia.
    assert (1 <= (2 ^ 47 + (f - 128000)) * P1 / 2 ^ 33).
    { apply Z.div_le_lower_bound; lia. }
    lia.
  - intros ->. rewrite Z.mul_0_r. reflexivity.
Qed.

(** C1. With the reference calibration and raw counts of BMP390.h,
    CalcTrueTemp returns 2508 and leaves t_fine = 128422; CalcTruePres, run
    on the globals CalcTrueTemp leaves, returns p = 25763824, and p / 25600
    is within 0.01 of 1006.399 (it is the hPa value the call stores). *)
Theorem reference_example :
  let r := CalcTrueTemp reference_globals in
  fst r = 2508 /\
  BMP390_h.t_fine (cal (snd r)) = 128422 /\
  exists (p : Z) (g' : Globals),
    CalcTruePres (snd r) = Some (p, g') /\
    p = 25763824 /\
    (Rabs (IZR p / 25600 - 1006.399) < 0.01)%R /\
    BMP390_h.Pressure (BMP280 g') = (IZR p / 25600)%R.
Proof.
  cbv zeta. split; [vm_compute; reflexivity |].
  split; [vm_compute; reflexivity |].
  unfold CalcTruePres.
  replace (pres_var1 (snd (CalcTrueTemp reference_globals)))
    with 597639168 by (vm_compute; reflexivity).
  replace (pres_tail (snd (CalcTrueTemp reference_globals)) 597639168
             (pres_var2 (snd (CalcTrueTemp reference_globals))))
    with (Some 25763824) by (vm_compute; reflexivity).
  change (597639168 =? 0) with false. cbv iota.
  change (to_uint32 25763824) with 25763824.
  eexists; eexists. split; [reflexivity |].
  split; [reflexivity |].
  split; [| reflexivity].
  unfold Rabs. destruct (Rcase_abs _); lra.
Qed.

(** C2. Whenever [var1] evaluates to zero CalcTruePres returns 0; no state
    makes it divide by zero, because the division is evaluated only on the
    branch where [var1] is not zero; and for an int32_t t_fine and a
    uint16_t dig_P1 the tested value is the one of the expression
    [(((1 << 47) + (t_fine - 128000)) * dig_P1) >> 33]. *)
Theorem CalcTruePres_guard (g : Globals) :
  (pres_var1 g = 0 -> exists g', CalcTruePres g = Some (0, g')) /\
  (exists r, CalcTruePres g = Some r) /\
  (forall var2, pres_tail g (pres_var1 g) var2 = None -> pres_var1 g = 0) /\
  (in_int32 (BMP390_h.t_fine (cal g)) ->
   in_uint16 (BMP390_h.dig_P1 (cal g)) ->
   pres_var1 g =
   spec_pres_var1 (BMP390_h.t_fine (cal g)) (BMP390_h.dig_P1 (cal g))).
Proof.
  split; [| split; [| split]].
  - intros H. unfold CalcTruePres. rewrite H. cbn. eexists; reflexivity.
  - unfold CalcTruePres.
    destruct (Z.eqb_spec (pres_var1 g) 0) as [E | NE].
    + eexists; reflexivity.
    + destruct (pres_tail_some g (pres_var1 g) (pres_var2 g) NE) as [p Hp].
      rewrite Hp. eexists; reflexivity.
  - intros var2 H.
    destruct (Z.eq_dec (pres_var1 g) 0) as [E | NE]; [exact E |].
    destruct (pres_tail_some g (pres_var1 g) var2 NE) as [p Hp].
    congruence.
  - apply pres_var1_exact.
Qed.

(** C9. When the guard fires, CalcTruePres returns 0 and the globals are the
    ones it was called with: BMP280.Pressure and BMP280.CalibrationValues.p
    keep the values of the last call that got past the guard. *)
Theorem CalcTruePres_guard_keeps_state (g : Globals) :
  pres_var1 g = 0 ->
  exists g', CalcTruePres g = Some (0, g') /\
    BMP390_h.Pressure (BMP280 g') = BMP390_h.Pressure (BMP280 g) /\
    BMP390_h.p (cal g') = BMP390_h.p (cal g) /\
    g' = g.
Proof.
  intros H. exists g. unfold CalcTruePres. rewrite H. cbn. auto.
Qed.

(** The initial globals have dig_P1 = 0, so the guard fires on them. *)
Lemma CalcTruePres_guard_keeps_state_witness :
  pres_var1 globals_init = 0 /\
  exists g', CalcTruePres globals_init = Some (0, g') /\
    BMP390_h.Pressure (BMP280 g') = BMP390_h.Pressure (BMP280 globals_init) /\
    BMP390_h.p (cal g') = BMP390_h.p (cal globals_init) /\
    g' = globals_init.
Proof.
  split; [vm_compute; reflexivity |].
  apply (CalcTruePres_guard_keeps_state globals_init).
  vm_compute. reflexivity.
Defined.

(** ** CalcTrueTemp *)

Lemma temp_range_no_overflow (c : BMP390_h.BMP280Values) :
  valid_temp_range c ->
  temp_no_overflow (BMP390_h.UT c) (BMP390_h.dig_T1 c) (BMP390_h.dig_T2 c)
    (BMP390_h.dig_T3 c).
Proof.
  unfold valid_temp_range, temp_no_overflow, in_uint16, in_int16, in_int32,
    spec_true_temp, spec_fine, spec_temp_var1, spec_temp_var2.
  set (UT := BMP390_h.UT c). set (T1 := BMP390_h.dig_T1 c).
  set (T2 := BMP390_h.dig_T2 c). set (T3 := BMP390_h.dig_T3 c).
  intros (HU & H1 & H2 & H3 & Hb & H3').
  cbv zeta.
  rewrite !Z.shiftr_div_pow2, !Z.shiftl_mul_pow2 by lia.
  change (2 ^ 1) with 2. change (2 ^ 3) with 8. change (2 ^ 4) with 16 in *.
  rewrite Z.shiftr_div_pow2 in Hb by lia. change (2 ^ 4) with 16 in Hb.
  set (b := UT / 16 - T1) in *.
  assert (Ha : 2 * b <= UT / 8 - T1 * 2 <= 2 * b + 1).
  { unfold b. replace (UT / 16) with (UT / 8 / 2)
      by (rewrite Z.div_div by lia; reflexivity).
    pose proof (Z.div_mod (UT / 8) 2 ltac:(lia)).
    pose proof (Z.mod_pos_bound (UT / 8) 2 ltac:(lia)). lia. }
  set (a := UT / 8 - T1 * 2) in *.
  assert (Hp1 : - 2 ^ 31 < a * T2 < 2 ^ 31) by nia.
  assert (Hbb : 0 <= b * b <= 32767 * 32767) by nia.
  assert (Hq : 0 <= b * b / 2 ^ 12 <= 262128).
  { split; [apply Z.div_pos; lia |].
    apply Z.lt_succ_r. apply Z.div_lt_upper_bound; lia. }
  set (q := b * b / 2 ^ 12) in *.
  assert (Hp2 : - 2 ^ 31 < q * T3 < 2 ^ 31) by nia.
  assert (Hv1 : - 2 ^ 20 <= a * T2 / 2 ^ 11 <= 2 ^ 20).
  { split; [apply Z.div_le_lower_bound | apply Z.div_le_upper_bound]; lia. }
  assert (Hv2 : - 2 ^ 17 <= q * T3 / 2 ^ 14 <= 2 ^ 17).
  { split; [apply Z.div_le_lower_bound | apply Z.div_le_upper_bound]; lia. }
  set (v1 := a * T2 / 2 ^ 11) in *. set (v2 := q * T3 / 2 ^ 14) in *.
  assert (Ht : - 2 ^ 15 <= ((v1 + v2) * 5 + 128) / 2 ^ 8 < 2 ^ 15).
  { split; [apply Z.div_le_lower_bound | apply Z.div_lt_upper_bound]; lia. }
  repeat split; lia.
Qed.

(** Outside that range the 32-bit products wrap: with the largest 20-bit
    count and dig_T1 = 0, dig_T2 = 32767 the stored t_fine is not the value
    of the sequence. *)
Lemma CalcTrueTemp_wraps_outside_range :
  let c :=
    BMP390_h.set_part0 0 32767 0 0 (BMP390_h.set_raw 1048575 0 reference_cal) in
  BMP390_h.t_fine (cal (snd (CalcTrueTemp (set_cal c globals_init)))) = -80
  /\ spec_fine 1048575 0 32767 0 = 2097072.
Proof. split; vm_compute; reflexivity. Qed.

(** C7. For a 20-bit raw count and a calibration set in the valid range,
    CalcTrueTemp evaluates the data-sheet sequence in int32_t without any
    operation leaving the type: the t_fine it stores for CalcTruePres is
    [var1 + var2] of the sequence, and the value it returns (and stores in
    CalibrationValues.T) is [(fine * 5 + 128) >> 8]. The calibration
    coefficients and raw counts are left as they were. *)
Theorem CalcTrueTemp_exact (g : Globals) :
  valid_temp_range (cal g) ->
  let c := cal g in
  let fine :=
    spec_fine (BMP390_h.UT c) (BMP390_h.dig_T1 c) (BMP390_h.dig_T2 c)
      (BMP390_h.dig_T3 c) in
  let g' := snd (CalcTrueTemp g) in
  temp_no_overflow (BMP390_h.UT c) (BMP390_h.dig_T1 c) (BMP390_h.dig_T2 c)
    (BMP390_h.dig_T3 c) /\
  BMP390_h.t_fine (cal g') = fine /\
  fst (CalcTrueTemp g) = spec_true_temp fine /\
  BMP390_h.T (cal g') = spec_true_temp fine /\
  cal g' = BMP390_h.set_T (spec_true_temp fine) (BMP390_h.set_t_fine fine c).
Proof.
  intros Hv. cbv zeta.
  pose proof (temp_range_no_overflow (cal g) Hv) as Hno.
  split; [exact Hno |].
  unfold temp_no_overflow in Hno. cbv zeta in Hno.
  destruct Hno as (Hs & Ha & HaT & Hb & Hbb & HqT & Hf & Hf5 & Hf128 & HT).
  assert (Efine : add32
             (sar (mul32 (sub32 (sar (BMP390_h.UT (cal g)) 3)
                                (shl32 (BMP390_h.dig_T1 (cal g)) 1))
                         (BMP390_h.dig_T2 (cal g))) 11)
             (sar (mul32 (sar (mul32 (sub32 (sar (BMP390_h.UT (cal g)) 4)
                                            (BMP390_h.dig_T1 (cal g)))
                                     (sub32 (sar (BMP390_h.UT (cal g)) 4)
                                            (BMP390_h.dig_T1 (cal g)))) 12)
                         (BMP390_h.dig_T3 (cal g))) 14)
           = spec_fine (BMP390_h.UT (cal g)) (BMP390_h.dig_T1 (cal g))
               (BMP390_h.dig_T2 (cal g)) (BMP390_h.dig_T3 (cal g))).
  { unfold add32, mul32, sub32, shl32, sar.
    rewrite (to_int32_id _ Hs), (to_int32_id _ Ha), (to_int32_id _ HaT).
    rewrite (to_int32_id _ Hb), (to_int32_id _ Hbb), (to_int32_id _ HqT).
    apply to_int32_id. exact Hf. }
  assert (ET : sar (add32 (mul32
             (spec_fine (BMP390_h.UT (cal g)) (BMP390_h.dig_T1 (cal g))
                (BMP390_h.dig_T2 (cal g)) (BMP390_h.dig_T3 (cal g))) 5) 128) 8
           = spec_true_temp
               (spec_fine (BMP390_h.UT (cal g)) (BMP390_h.dig_T1 (cal g))
                  (BMP390_h.dig_T2 (cal g)) (BMP390_h.dig_T3 (cal g)))).
  { unfold add32, mul32, sar, spec_true_temp.
    rewrite (to_int32_id _ Hf5), (to_int32_id _ Hf128). reflexivity. }
  unfold CalcTrueTemp. cbv zeta. rewrite Efine, ET.
  rewrite (to_int16_id _ HT).
  repeat split.
Qed.

(** The reference data set lies in the valid range. *)
Lemma CalcTrueTemp_exact_witness :
  valid_temp_range (cal reference_globals) /\
  BMP390_h.t_fine (cal (snd (CalcTrueTemp reference_globals))) =
  spec_fine 519888 27504 26435 (-1000).
Proof.
  split.
  - unfold valid_temp_range, in_uint16, in_int16.
    vm_compute. repeat split; congruence.
  - apply (CalcTrueTemp_exact reference_globals).
    unfold valid_temp_range, in_uint16, in_int16.
    vm_compute. repeat split; congruence.
Defined.

(** ** ReadBMP280Calibration *)

Lemma lor_disjoint (a b : Z) :
  0 <= b < 2 ^ 8 -> Z.lor (a * 2 ^ 8) b = a * 2 ^ 8 + b.
Proof.
  intros Hb.
  assert (E : Z.land (a * 2 ^ 8) b = 0).
  { apply Z.bits_inj'. intros n Hn.
    rewrite Z.land_spec, Z.bits_0.
    destruct (Z.ltb_spec n 8) as [L | G].
    - rewrite Z.mul_pow2_bits_low by lia. reflexivity.
    - replace b with (b mod 2 ^ 8) by (apply Z.mod_small; lia).
      rewrite Z.mod_pow2_bits_high by lia. apply andb_false_r. }
  rewrite (Z.add_nocarry_lxor _ _ E). symmetry. apply Z.lxor_lor. exact E.
Qed.

(** The decoding expression is the byte swap of the low 16 bits of its
    operand. *)
Lemma swap_expr_bswap16 (x : Z) : swap_expr x = bswap16 (x mod 2 ^ 16).
Proof.
  unfold swap_expr, bswap16, shl_u64, shr_u64, to_uint64, wrap_unsigned.
  change 0xFF with (Z.ones 8). rewrite Z.land_ones by lia.
  change 0xFF00 with (Z.shiftl (Z.ones 8) 8).
  rewrite Z.shiftr_land, Z.shiftr_shiftl_l by lia.
  change (8 - 8) with 0. rewrite Z.shiftl_0_r, Z.land_ones by lia.
  rewrite Z.shiftl_mul_pow2, !Z.shiftr_div_pow2 by lia.
  pose proof (Z.mod_pos_bound x (2 ^ 8) ltac:(lia)) as Hlo.
  pose proof (Z.mod_pos_bound (x / 2 ^ 8) (2 ^ 8) ltac:(lia)) as Hhi.
  rewrite (Z.mod_small (x mod 2 ^ 8 * 2 ^ 8)) by lia.
  rewrite lor_disjoint by exact Hhi.
  change (2 ^ 16) with (2 ^ 8 * 2 ^ 8).
  rewrite Z.rem_mul_r by lia.
  replace (x mod 2 ^ 8 + 2 ^ 8 * ((x / 2 ^ 8) mod 2 ^ 8))
    with (x mod 2 ^ 8 + (x / 2 ^ 8) mod 2 ^ 8 * 2 ^ 8) by lia.
  rewrite Z.mod_add, Z.mod_mod, Z.div_add by lia.
  rewrite (Z.div_small (x mod 2 ^ 8)) by lia.
  lia.
Qed.

Lemma bswap16_range (f : Z) : 0 <= f < 2 ^ 16 -> in_uint16 (bswap16 f).
Proof.
  intros H. unfold in_uint16, bswap16.
  pose proof (Z.mod_pos_bound f (2 ^ 8) ltac:(lia)).
  assert (0 <= f / 2 ^ 8 < 2 ^ 8).
  { split; [apply Z.div_pos; lia | apply Z.div_lt_upper_bound; lia]. }
  lia.
Qed.

Lemma decode_field (block shift : Z) :
  0 <= shift ->
  swap_expr (shr_u64 block shift) = bswap16 (field16 block shift) /\
  in_uint16 (swap_expr (shr_u64 block shift)).
Proof.
  intros Hs. unfold shr_u64, field16.
  rewrite swap_expr_bswap16. split; [reflexivity |].
  apply bswap16_range. apply Z.mod_pos_bound. lia.
Qed.

(** C8. After ReadBMP280Calibration every coefficient is the byte swap of
    the 16-bit field of its 64-bit word: dig_T1, dig_T2, dig_T3, dig_P1 at
    bits 48, 32, 16, 0 of the first read, dig_P2..dig_P5 of the second and
    dig_P6..dig_P9 of the third. dig_T1 and dig_P1 are stored as uint16_t,
    the others as int16_t (the same 16 bits read as a signed value); the
    byte swap is the value of
    [((block >> shift) & 0xFF) << 8 | ((block >> shift) & 0xFF00) >> 8]. *)
Theorem ReadBMP280Calibration_decodes (ReadMulti : Z -> Z -> Z -> Z)
    (g : Globals) :
  let d0 := ReadMulti BMP390_h.BMP280Add BMP390_h.calib00 8 in
  let d1 := ReadMulti BMP390_h.BMP280Add BMP390_h.calib08 8 in
  let d2 := ReadMulti BMP390_h.BMP280Add BMP390_h.calib16 8 in
  let c := cal (ReadBMP280Calibration ReadMulti g) in
  (BMP390_h.dig_T1 c = bswap16 (field16 d0 48) /\
   BMP390_h.dig_T2 c = to_int16 (bswap16 (field16 d0 32)) /\
   BMP390_h.dig_T3 c = to_int16 (bswap16 (field16 d0 16)) /\
   BMP390_h.dig_P1 c = bswap16 (field16 d0 0)) /\
  (BMP390_h.dig_P2 c = to_int16 (bswap16 (field16 d1 48)) /\
   BMP390_h.dig_P3 c = to_int16 (bswap16 (field16 d1 32)) /\
   BMP390_h.dig_P4 c = to_int16 (bswap16 (field16 d1 16)) /\
   BMP390_h.dig_P5 c = to_int16 (bswap16 (field16 d1 0))) /\
  (BMP390_h.dig_P6 c = to_int16 (bswap16 (field16 d2 48)) /\
   BMP390_h.dig_P7 c = to_int16 (bswap16 (field16 d2 32)) /\
   BMP390_h.dig_P8 c = to_int16 (bswap16 (field16 d2 16)) /\
   BMP390_h.dig_P9 c = to_int16 (bswap16 (field16 d2 0))) /\
  (forall block shift, 0 <= shift ->
     bswap16 (field16 block shift) =
     Z.lor (shl_u64 (Z.land (shr_u64 block shift) 0xFF) 8)
           (shr_u64 (Z.land (shr_u64 block shift) 0xFF00) 8)).
Proof.
  cbv zeta.
  unfold ReadBMP280Calibration, fold_left, calibration_step.
  change (0 =? 1) with false. change (0 =? 2) with false.
  change (1 =? 1) with true. change (2 =? 1) with false.
  change (2 =? 2) with true. change (0 =? 0) with true.
  change (1 =? 0) with false. change (2 =? 0) with false.
  cbv iota.
  set (d0 := ReadMulti BMP390_h.BMP280Add BMP390_h.calib00 8).
  set (d1 := ReadMulti BMP390_h.BMP280Add BMP390_h.calib08 8).
  set (d2 := ReadMulti BMP390_h.BMP280Add BMP390_h.calib16 8).
  assert (E0 : forall d, swap_expr d = bswap16 (field16 d 0)).
  { intros d. destruct (decode_field d 0 ltac:(lia)) as [E _].
    unfold shr_u64 in E. rewrite Z.shiftr_0_r in E. exact E. }
  assert (U0 : forall d, in_uint16 (swap_expr d)).
  { intros d. destruct (decode_field d 0 ltac:(lia)) as [_ U].
    unfold shr_u64 in U. rewrite Z.shiftr_0_r in U. exact U. }
  pose proof (fun d s H => proj1 (decode_field d s H)) as E.
  cbn [cal set_cal set_BMP280 BMP280 BMP390_h.CalibrationValues
       BMP390_h.set_CalibrationValues BMP390_h.set_part0 BMP390_h.set_part1
       BMP390_h.set_part2 BMP390_h.dig_T1 BMP390_h.dig_T2 BMP390_h.dig_T3
       BMP390_h.dig_P1 BMP390_h.dig_P2 BMP390_h.dig_P3 BMP390_h.dig_P4
       BMP390_h.dig_P5 BMP390_h.dig_P6 BMP390_h.dig_P7 BMP390_h.dig_P8
       BMP390_h.dig_P9].
  rewrite !(to_uint16_id _ (U0 _)).
  rewrite !E by lia. rewrite !E0.
  repeat split.
  intros block shift Hs. symmetry. apply (E block shift Hs).
Qed.

(** ** Separator *)

Lemma land_2_testbit (r : Z) : (Z.land r 2 =? 0) = negb (Z.testbit r 1).
Proof.
  change 2 with (Z.shiftl 1 1).
  assert (E : Z.land r (Z.shiftl 1 1) = Z.shiftl (Z.b2z (Z.testbit r 1)) 1).
  { apply Z.bits_inj'. intros n Hn.
    rewrite Z.land_spec.
    destruct (Z.eq_dec n 1) as [-> | NE].
    - rewrite !Z.shiftl_spec by lia. change (1 - 1) with 0.
      rewrite Z.bit0_odd, Z.b2z_bit0.
      change (Z.odd 1) with true. apply andb_true_r.
    - rewrite !Z.shiftl_spec by lia.
      destruct (Z.ltb_spec (n - 1) 0) as [L | G].
      + rewrite (Z.testbit_neg_r 1 (n - 1)) by lia.
        rewrite (Z.testbit_neg_r (Z.b2z (Z.testbit r 1)) (n - 1)) by lia.
        apply andb_false_r.
      + replace (Z.testbit 1 (n - 1)) with false.
        * rewrite andb_false_r. symmetry.
          destruct (Z.testbit r 1); cbn [Z.b2z].
          -- change 1 with (2 ^ 0). apply Z.pow2_bits_false. lia.
          -- apply Z.bits_0.
        * symmetry. change 1 with (2 ^ 0). apply Z.pow2_bits_false. lia. }
  rewrite E. destruct (Z.testbit r 1); reflexivity.
Qed.

Lemma uint16_bit1_ge_2 (r : Z) :
  in_uint16 r -> Z.testbit r 1 = true -> 2 <= r < 2 ^ 16.
Proof.
  unfold in_uint16. intros H Hb.
  destruct (Z.eq_dec r 0) as [-> | N0]; [discriminate |].
  destruct (Z.eq_dec r 1) as [-> | N1]; [discriminate |].
  lia.
Qed.

Lemma to_uint16_range (z : Z) : in_uint16 (to_uint16 z).
Proof.
  unfold in_uint16, to_uint16, wrap_unsigned. apply Z.mod_pos_bound. lia.
Qed.

(** C4 (as amended). Separator looks at bit 1 of [reader], the 16-bit word
    CRC8MAXIM returns for the raw word, and at nothing else. If the bit is
    set it stores the relative humidity [((reader - 2) / 65536) * 125 - 6],
    the status bit being cleared before the scaling, and leaves the
    temperature; otherwise it stores the temperature
    [(reader / 65536) * 175.72 - 46.85] and leaves the humidity. It returns
    0 in both cases. *)
Theorem Separator_decodes (CRC8MAXIM : Z -> Z) (data : Z) (g : Globals) :
  let reader := to_uint16 (CRC8MAXIM data) in
  fst (Separator CRC8MAXIM data g) = 0 /\
  (Z.testbit reader 1 = true ->
   snd (Separator CRC8MAXIM data g) =
   set_SHT21
     (SHT45_h.set_RH (IZR (reader - 2) / 65536 * 125 - 6)%R (SHT21 g)) g) /\
  (Z.testbit reader 1 = false ->
   snd (Separator CRC8MAXIM data g) =
   set_SHT21
     (SHT45_h.set_T (IZR reader / 65536 * 175.72 - 46.85)%R (SHT21 g)) g).
Proof.
  cbv zeta. unfold Separator. rewrite land_2_testbit, negb_involutive.
  destruct (Z.testbit (to_uint16 (CRC8MAXIM data)) 1) eqn:Hb; cbn [fst snd].
  - split; [reflexivity |]. split; [| discriminate]. intros _.
    pose proof (uint16_bit1_ge_2 _ (to_uint16_range (CRC8MAXIM data)) Hb).
    unfold to_uint32, wrap_unsigned. rewrite Z.mod_small by lia. reflexivity.
  - split; [reflexivity |]. split; [discriminate |]. intros _. reflexivity.
Qed.

(** C4, counterexample. Let CRC8MAXIM hand the raw word on unchanged, and
    let the raw word be 2: its status bit is set, and the humidity stored is
    -6, not the [(2 / 65536) * 125 - 6] of the claim. *)
Lemma Separator_humidity_not_raw_formula :
  Z.testbit 2 1 = true /\
  SHT45_h.RH (SHT21 (snd (Separator (fun d => d) 2 globals_init))) = (-6)%R /\
  (IZR 2 / 65536 * 125 - 6 <> -6)%R.
Proof.
  split; [reflexivity |]. split.
  - unfold Separator.
    change (to_uint16 2) with 2.
    change (negb (Z.land 2 2 =? 0)) with true. cbv iota.
    change (to_uint32 (2 - 2)) with 0. cbn. lra.
  - lra.
Qed.

(** For no CRC8MAXIM at all does the humidity branch store the formula of
    the raw word for every raw word with status bit 1 set. *)
Lemma Separator_raw_formula_fails_for_every_crc (CRC8MAXIM : Z -> Z) :
  SHT45_h.RH (SHT21 (snd (Separator CRC8MAXIM 2 globals_init))) <>
  (IZR 2 / 65536 * 125 - 6)%R.
Proof.
  unfold Separator. rewrite land_2_testbit, negb_involutive.
  pose proof (to_uint16_range (CRC8MAXIM 2)) as Hr.
  set (r := to_uint16 (CRC8MAXIM 2)) in *.
  destruct (Z.testbit r 1) eqn:Hb; cbn.
  - pose proof (uint16_bit1_ge_2 r Hr Hb) as Hge.
    unfold to_uint32, wrap_unsigned. rewrite Z.mod_small by lia.
    intros E.
    assert (E' : IZR (r - 2) = IZR 2) by lra.
    apply eq_IZR in E'. assert (E4 : r = 4) by lia.
    rewrite E4 in Hb. discriminate.
  - lra.
Qed.

(** ** Refraction correction *)

Lemma correct_solar_angles_at_night (g : Globals) :
  (ElAndAzComp_h.elevation (SUN g) <= 0)%R -> correct_solar_angles g = g.
Proof.
  intros H. unfold correct_solar_angles.
  destruct (Rlt_dec 0 (ElAndAzComp_h.elevation (SUN g))) as [L | _].
  - lra.
  - reflexivity.
Qed.

Lemma Retransmitt_below_horizon (c : Command) (g : Globals) :
  (ElAndAzComp_h.elevation (SUN g) <= 0)%R ->
  below_horizon c ->
  (ElAndAzComp_h.elevation (SUN (Retransmitt c g)) <= 0)%R /\
  ElAndAzComp_h.adjelevation (SUN (Retransmitt c g)) =
  ElAndAzComp_h.adjelevation (SUN g) /\
  ElAndAzComp_h.adjazimuth (SUN (Retransmitt c g)) =
  ElAndAzComp_h.adjazimuth (SUN g).
Proof.
  intros Hg Hc. unfold Retransmitt.
  destruct c as [| az el]; cbn [ClockAndDataReader below_horizon] in *.
  - rewrite correct_solar_angles_at_night by exact Hg. auto.
  - rewrite correct_solar_angles_at_night by exact Hc. cbn. auto.
Qed.

Lemma Retransmitt_many_below_horizon (cs : list Command) :
  forall g : Globals,
    (ElAndAzComp_h.elevation (SUN g) <= 0)%R ->
    Forall below_horizon cs ->
    ElAndAzComp_h.adjelevation (SUN (Retransmitt_many cs g)) =
    ElAndAzComp_h.adjelevation (SUN g) /\
    ElAndAzComp_h.adjazimuth (SUN (Retransmitt_many cs g)) =
    ElAndAzComp_h.adjazimuth (SUN g).
Proof.
  induction cs as [| c cs IH]; intros g Hg Hcs.
  - split; reflexivity.
  - inversion Hcs as [| c' cs' Hc Hrest]; subst.
    destruct (Retransmitt_below_horizon c g Hg Hc) as (Hel & Ha & Hz).
    unfold Retransmitt_many. cbn [fold_left].
    fold (Retransmitt_many cs (Retransmitt c g)).
    destruct (IH (Retransmitt c g) Hel Hrest) as [Ha' Hz'].
    split; congruence.
Qed.

(** C5. With the raw elevation at or below zero correct_solar_angles changes
    nothing; over any number of polls that keep the sun at or below the
    horizon SUN.adjelevation and SUN.adjazimuth keep the values they had;
    started from the initial globals they are still 0 and 0. *)
Theorem below_horizon_retains_adjusted (cs : list Command) (g : Globals) :
  (ElAndAzComp_h.elevation (SUN g) <= 0)%R ->
  Forall below_horizon cs ->
  correct_solar_angles g = g /\
  (ElAndAzComp_h.adjelevation (SUN (Retransmitt_many cs g)) =
   ElAndAzComp_h.adjelevation (SUN g) /\
   ElAndAzComp_h.adjazimuth (SUN (Retransmitt_many cs g)) =
   ElAndAzComp_h.adjazimuth (SUN g)) /\
  (ElAndAzComp_h.adjelevation (SUN (Retransmitt_many cs globals_init)) = 0%R /\
   ElAndAzComp_h.adjazimuth (SUN (Retransmitt_many cs globals_init)) = 0%R).
Proof.
  intros Hg Hcs. split; [apply correct_solar_angles_at_night; exact Hg |].
  split; [apply Retransmitt_many_below_horizon; assumption |].
  apply (Retransmitt_many_below_horizon cs globals_init); [cbn; lra | exact Hcs].
Qed.

Lemma below_horizon_retains_adjusted_witness :
  Forall below_horizon [Angles 100 (-5); NoCommand; Angles 120 0] /\
  (ElAndAzComp_h.adjelevation
     (SUN (Retransmitt_many [Angles 100 (-5); NoCommand; Angles 120 0]
             globals_init)) = 0%R /\
   ElAndAzComp_h.adjazimuth
     (SUN (Retransmitt_many [Angles 100 (-5); NoCommand; Angles 120 0]
             globals_init)) = 0%R).
Proof.
  assert (H : Forall below_horizon [Angles 100 (-5); NoCommand; Angles 120 0])
    by (repeat constructor; cbn; lra).
  split; [exact H |].
  apply (below_horizon_retains_adjusted
           [Angles 100 (-5); NoCommand; Angles 120 0] globals_init).
  - cbn. lra.
  - exact H.
Defined.

(** The three ways a call of calculate_refraction can go. *)
Lemma calculate_refraction_cases (g : Globals) :
  let el := ElAndAzComp_h.elevation (SUN g) in
  let alt := Communications_h.altitude (Date_Clock g) in
  ((el <= 0)%R /\ calculate_refraction g = (0%R, g)) \/
  ((0 < el)%R /\ alt <= 0 /\ snd (calculate_refraction g) = g) \/
  ((0 < el)%R /\ 0 < alt /\
   snd (calculate_refraction g) =
   set_BMP280
     (BMP390_h.set_Pressure
        (BMP390_h.Pressure (BMP280 g) * lapse_factor alt)%R (BMP280 g)) g).
Proof.
  cbv zeta. unfold calculate_refraction.
  destruct (Rle_dec (ElAndAzComp_h.elevation (SUN g)) 0) as [Hle | Hgt].
  - left. split; [exact Hle | reflexivity].
  - right.
    destruct (Z.ltb_spec 0 (Communications_h.altitude (Date_Clock g)))
      as [Ha | Ha]; cbn [snd].
    + right. repeat split; [lra | exact Ha].
    + left. repeat split; [lra | exact Ha].
Qed.

(** C10. With the raw elevation at or below zero calculate_refraction
    returns 0.0 and hands the globals back untouched. In any call the
    globals come back either untouched or with BMP280.Pressure alone
    replaced by [Pressure * lapse_factor altitude], and the latter happens
    exactly when the elevation is above zero and Date_Clock.altitude is
    above zero. *)
Theorem calculate_refraction_frame (g : Globals) :
  let el := ElAndAzComp_h.elevation (SUN g) in
  let alt := Communications_h.altitude (Date_Clock g) in
  let scaled :=
    set_BMP280
      (BMP390_h.set_Pressure
         (BMP390_h.Pressure (BMP280 g) * lapse_factor alt)%R (BMP280 g)) g in
  ((el <= 0)%R -> calculate_refraction g = (0%R, g)) /\
  ((0 < el)%R /\ 0 < alt -> snd (calculate_refraction g) = scaled) /\
  ((el <= 0)%R \/ alt <= 0 -> snd (calculate_refraction g) = g) /\
  (BMP390_h.Pressure (BMP280 (snd (calculate_refraction g))) <>
   BMP390_h.Pressure (BMP280 g) -> (0 < el)%R /\ 0 < alt).
Proof.
  cbv zeta.
  destruct (calculate_refraction_cases g)
    as [[Hel E] | [(Hel & Hal & E) | (Hel & Hal & E)]]; cbv zeta in *.
  - rewrite E. cbn [snd]. split; [| split; [| split]].
    + intros _. reflexivity.
    + intros [H _]. lra.
    + intros _. reflexivity.
    + intros H. contradiction H. reflexivity.
  - rewrite E. split; [| split; [| split]].
    + intros H. lra.
    + intros [_ H]. lia.
    + intros _. reflexivity.
    + intros H. contradiction H. reflexivity.
  - rewrite E. split; [| split; [| split]].
    + intros H. lra.
    + intros _. reflexivity.
    + intros [H | H]; [lra | lia].
    + intros _. split; assumption.
Qed.

(** The altitude-lapse factor of an observer above sea level (and within
    the int16_t range of Date_Clock.altitude) lies strictly between 0 and
    1. *)
Lemma lapse_factor_lt_1 (alt : Z) :
  0 < alt <= 32767 -> (0 < lapse_factor alt < 1)%R.
Proof.
  intros [Hlo Hhi]. unfold lapse_factor, c_pow, Rpower.
  assert (H1 : (1 <= IZR alt)%R) by (apply IZR_le; lia).
  assert (H2 : (IZR alt <= 32767)%R) by (apply IZR_le; lia).
  set (x := (1 - 0.0065 * IZR alt / 288.15)%R).
  assert (Hx : (0 < x < 1)%R) by (unfold x; split; lra).
  split; [apply exp_pos |].
  rewrite <- exp_0. apply exp_increasing.
  assert (Hln : (ln x < 0)%R).
  { rewrite <- ln_1. apply ln_increasing; lra. }
  nra.
Qed.

(** Whenever the sun is up and the observer is above sea level, a call of
    correct_solar_angles lowers the shared pressure. *)
Lemma correct_solar_angles_lowers_pressure (g : Globals) :
  (0 < ElAndAzComp_h.elevation (SUN g))%R ->
  0 < Communications_h.altitude (Date_Clock g) <= 32767 ->
  (0 < BMP390_h.Pressure (BMP280 g))%R ->
  BMP390_h.Pressure (BMP280 (correct_solar_angles g)) =
  (BMP390_h.Pressure (BMP280 g)
   * lapse_factor (Communications_h.altitude (Date_Clock g)))%R /\
  (BMP390_h.Pressure (BMP280 (correct_solar_angles g)) <
   BMP390_h.Pressure (BMP280 g))%R.
Proof.
  intros Hel Halt Hp.
  pose proof (lapse_factor_lt_1 _ Halt) as Hl.
  assert (E : BMP390_h.Pressure (BMP280 (correct_solar_angles g)) =
              (BMP390_h.Pressure (BMP280 g)
               * lapse_factor (Communications_h.altitude (Date_Clock g)))%R).
  { unfold correct_solar_angles.
    destruct (Rlt_dec 0 (ElAndAzComp_h.elevation (SUN g))) as [_ | N];
      [| contradiction].
    destruct (calculate_refraction_cases g)
      as [[Hn _] | [(_ & Hn & _) | (_ & _ & Hs)]]; cbv zeta in *;
      [lra | lia |].
    destruct (calculate_refraction g) as [r g1]. cbn [snd] in Hs.
    subst g1. reflexivity. }
  split; [exact E |]. rewrite E. nra.
Qed.

(** ** One pass of the main loop *)

Lemma CalcTruePres_past_guard (g : Globals) (p : Z) :
  pres_var1 g <> 0 ->
  pres_tail g (pres_var1 g) (pres_var2 g) = Some p ->
  CalcTruePres g =
  Some (to_uint32 p,
        set_BMP280
          (BMP390_h.set_CalibrationValues
             (BMP390_h.set_p (to_uint32 p) (cal g))
             (BMP390_h.set_Pressure (IZR p / 25600)%R (BMP280 g))) g).
Proof.
  intros Hnz Hp. unfold CalcTruePres.
  destruct (Z.eqb_spec (pres_var1 g) 0) as [E | _]; [contradiction |].
  rewrite Hp. reflexivity.
Qed.

Lemma Separator_frame (CRC8MAXIM : Z -> Z) (data : Z) (g : Globals) :
  BMP280 (snd (Separator CRC8MAXIM data g)) = BMP280 g /\
  SUN (snd (Separator CRC8MAXIM data g)) = SUN g /\
  Date_Clock (snd (Separator CRC8MAXIM data g)) = Date_Clock g.
Proof.
  unfold Separator.
  destruct (negb (Z.land (to_uint16 (CRC8MAXIM data)) 2 =? 0));
    cbn; auto.
Qed.

(** C3, on the code. A station 100 m above sea level polls the reference
    raw counts while the sun is 10 degrees up. CalcTruePres stores
    25763824 / 25600 hPa; Retransmitt, through calculate_refraction,
    overwrites BMP280.Pressure with that value times the altitude-lapse
    factor, which is smaller; AltitudeAverage, later in the same pass,
    computes the pressure ratio and Altitude.UNCOMP from the overwritten
    value. *)
Theorem refraction_overwrites_shared_pressure (CRC8MAXIM : Z -> Z) :
  let P := (IZR 25763824 / 25600)%R in
  exists g1 g' : Globals,
    CalcTruePres
      (snd (CalcTrueTemp
              (ReadBMP280TP (press_word daylight_poll)
                 (temp_word daylight_poll) station_100m)))
    = Some (25763824, g1) /\
    BMP390_h.Pressure (BMP280 g1) = P /\
    pipeline_cycle CRC8MAXIM daylight_poll station_100m = Some g' /\
    BMP390_h.Pressure (BMP280 g') = (P * lapse_factor 100)%R /\
    (BMP390_h.Pressure (BMP280 g') < P)%R /\
    Altitude_h.UNCOMP (Altitude g') =
    cmul (Val 44330.7692307)
      (csub (cpow (cdiv (Val (P * lapse_factor 100))
                        (Val Altitude_h.SEA_LEVEL_PRESSURE)) (-0.1902632))
            (Val 1)).
Proof.
  cbv zeta.
  set (gA := snd (CalcTrueTemp
                    (ReadBMP280TP (press_word daylight_poll)
                       (temp_word daylight_poll) station_100m))).
  assert (H1 : pres_var1 gA = 597639168) by (vm_compute; reflexivity).
  assert (H2 : pres_tail gA (pres_var1 gA) (pres_var2 gA) = Some 25763824)
    by (vm_compute; reflexivity).
  assert (HB := CalcTruePres_past_guard gA 25763824
                  ltac:(rewrite H1; discriminate) H2).
  change (to_uint32 25763824) with 25763824 in HB.
  set (gB := set_BMP280
               (BMP390_h.set_CalibrationValues
                  (BMP390_h.set_p 25763824 (cal gA))
                  (BMP390_h.set_Pressure (IZR 25763824 / 25600)%R (BMP280 gA)))
               gA) in *.
  set (gC := snd (Separator CRC8MAXIM (t_word daylight_poll)
                    (snd (Separator CRC8MAXIM (rh_word daylight_poll) gB)))).
  set (gD := ClockAndDataReader (command daylight_poll) gC).
  assert (FB : BMP280 gD = BMP280 gB /\ Date_Clock gD = Date_Clock gB).
  { unfold gD, gC.
    destruct (Separator_frame CRC8MAXIM (rh_word daylight_poll) gB)
      as (E1 & _ & E2).
    destruct (Separator_frame CRC8MAXIM (t_word daylight_poll)
                (snd (Separator CRC8MAXIM (rh_word daylight_poll) gB)))
      as (E3 & _ & E4).
    cbn [ClockAndDataReader command daylight_poll set_SUN BMP280 Date_Clock].
    split; congruence. }
  destruct FB as [FB FD].
  assert (HP : BMP390_h.Pressure (BMP280 gD) = (IZR 25763824 / 25600)%R).
  { rewrite FB. reflexivity. }
  assert (HA : Communications_h.altitude (Date_Clock gD) = 100).
  { rewrite FD. reflexivity. }
  assert (HE : ElAndAzComp_h.elevation (SUN gD) = 10%R) by reflexivity.
  destruct (correct_solar_angles_lowers_pressure gD) as [E L].
  { rewrite HE. lra. }
  { rewrite HA. lia. }
  { rewrite HP. lra. }
  rewrite HP, HA in E. rewrite HP in L.
  exists gB, (AltitudeAverage (correct_solar_angles gD)).
  split; [exact HB |]. split; [reflexivity |].
  split.
  { unfold pipeline_cycle. cbv zeta. fold gA. rewrite HB. reflexivity. }
  split; [exact E |]. split; [exact L |].
  cbn [AltitudeAverage Altitude set_Altitude Altitude_h.UNCOMP].
  unfold pressure_ratio. rewrite E. reflexivity.
Qed.

(** ** Altitude *)

Lemma inf_of_nonfinite (s : sgn) : is_nonfinite (inf_of s).
Proof. destruct s; exact I. Qed.

Lemma cmul_nonfinite_l (x y : cdouble) :
  is_nonfinite x -> is_nonfinite (cmul x y).
Proof.
  destruct x; [contradiction | | |]; intros _;
    destruct y; cbn; try exact I; apply inf_of_nonfinite.
Qed.

Lemma cmul_nonfinite_r (x y : cdouble) :
  is_nonfinite y -> is_nonfinite (cmul x y).
Proof.
  destruct y; [contradiction | | |]; intros _;
    destruct x; cbn; try exact I; apply inf_of_nonfinite.
Qed.

Lemma cadd_nonfinite_l (x y : cdouble) :
  is_nonfinite x -> is_nonfinite (cadd x y).
Proof.
  destruct x; [contradiction | | |]; intros _; destruct y; exact I.
Qed.

Lemma cadd_nonfinite_r (x y : cdouble) :
  is_nonfinite y -> is_nonfinite (cadd x y).
Proof.
  destruct y; [contradiction | | |]; intros _; destruct x; exact I.
Qed.

Lemma cdiv_nonfinite_val (x : cdouble) (b : R) :
  is_nonfinite x -> is_nonfinite (cdiv x (Val b)).
Proof.
  destruct x; [contradiction | | |]; intros _; cbn;
    try exact I; apply inf_of_nonfinite.
Qed.

Lemma cadd_NaN_r (x : cdouble) : cadd x NaN = NaN.
Proof. destruct x; reflexivity. Qed.

Lemma cmul_NaN_r (x : cdouble) : cmul x NaN = NaN.
Proof. destruct x; reflexivity. Qed.

Lemma cdiv_val (a b : R) : b <> 0%R -> cdiv (Val a) (Val b) = Val (a / b).
Proof.
  intros H. cbn. destruct (Req_dec_T b 0) as [E | _]; [contradiction |].
  reflexivity.
Qed.

Lemma Rsgn_pos (r : R) : (0 < r)%R -> Rsgn r = Pos.
Proof.
  intros H. unfold Rsgn. destruct (Rlt_dec 0 r); [reflexivity | contradiction].
Qed.

Lemma Rsgn_neg (r : R) : (r < 0)%R -> Rsgn r = Neg.
Proof.
  intros H. unfold Rsgn.
  destruct (Rlt_dec 0 r); [lra |].
  destruct (Rlt_dec r 0); [reflexivity | contradiction].
Qed.

(** The vapour pressure is always a real number. *)
Lemma vapor_pressure_val (g : Globals) :
  exists e : R, vapor_pressure g = Val e /\
    ((SHT45_h.T (SHT21 g) + Altitude_h.C <> 0)%R ->
     e = (Altitude_h.A
          * exp (Altitude_h.B * SHT45_h.T (SHT21 g)
                 / (SHT45_h.T (SHT21 g) + Altitude_h.C))
          * (SHT45_h.RH (SHT21 g) / 100))%R).
Proof.
  unfold vapor_pressure. cbv zeta.
  set (T := SHT45_h.T (SHT21 g)). set (RH := SHT45_h.RH (SHT21 g)).
  rewrite (cdiv_val RH 100) by lra.
  cbn [cadd cmul].
  destruct (Req_dec_T (T + Altitude_h.C) 0) as [E | NE].
  - assert (Hneg : (Altitude_h.B * T < 0)%R).
    { unfold Altitude_h.B, Altitude_h.C in *. nra. }
    cbn [cdiv]. destruct (Req_dec_T (T + Altitude_h.C) 0) as [_ | N];
      [| contradiction].
    rewrite (Rsgn_neg _ Hneg). cbn.
    eexists. split; [reflexivity |]. intros N. contradiction.
  - rewrite cdiv_val by exact NE. cbn.
    eexists. split; [reflexivity |]. intros _. reflexivity.
Qed.

Lemma adjusted_pressure_val (g : Globals) :
  exists a : R, adjusted_pressure g = Val a /\
    ((SHT45_h.T (SHT21 g) + Altitude_h.C <> 0)%R ->
     a = (BMP390_h.Pressure (BMP280 g)
          - Altitude_h.A
            * exp (Altitude_h.B * SHT45_h.T (SHT21 g)
                   / (SHT45_h.T (SHT21 g) + Altitude_h.C))
            * (SHT45_h.RH (SHT21 g) / 100))%R).
Proof.
  destruct (vapor_pressure_val g) as (e & He & Hf).
  unfold adjusted_pressure. rewrite He. cbn.
  eexists. split; [reflexivity |].
  intros N. rewrite (Hf N). unfold Rminus. reflexivity.
Qed.

(** A negative adjusted pressure: the quotient under [log] is negative and
    [log] yields NaN, which every later product keeps. *)
Lemma comp_of_negative_adjusted (g : Globals) (a : R) :
  adjusted_pressure g = Val a -> (a < 0)%R ->
  calculate_adjusted_elevation g = NaN.
Proof.
  intros Ha Hn. unfold calculate_adjusted_elevation. cbv zeta. rewrite Ha.
  rewrite (cdiv_val Altitude_h.SEA_LEVEL_PRESSURE a) by lra.
  assert (Hq : (Altitude_h.SEA_LEVEL_PRESSURE / a < 0)%R).
  { unfold Altitude_h.SEA_LEVEL_PRESSURE, Rdiv.
    assert (/ a < 0)%R by (apply Rinv_lt_0_compat; exact Hn). nra. }
  unfold clog.
  destruct (Rlt_dec 0 (Altitude_h.SEA_LEVEL_PRESSURE / a)) as [L | _];
    [lra |].
  destruct (Req_dec_T (Altitude_h.SEA_LEVEL_PRESSURE / a) 0) as [E | _];
    [lra |].
  rewrite cmul_NaN_r. reflexivity.
Qed.

(** A zero adjusted pressure: the quotient is an infinity and so is its
    [log]; the product is an infinity or NaN. *)
Lemma comp_of_zero_adjusted (g : Globals) :
  adjusted_pressure g = Val 0 ->
  is_nonfinite (calculate_adjusted_elevation g).
Proof.
  intros Ha. unfold calculate_adjusted_elevation. cbv zeta. rewrite Ha.
  apply cmul_nonfinite_l, cmul_nonfinite_r.
  cbn [cdiv]. destruct (Req_dec_T 0 0) as [_ | N]; [| contradiction].
  rewrite Rsgn_pos by (unfold Altitude_h.SEA_LEVEL_PRESSURE; lra).
  exact I.
Qed.

Lemma pressure_ratio_val (g : Globals) :
  pressure_ratio g =
  Val (BMP390_h.Pressure (BMP280 g) / Altitude_h.SEA_LEVEL_PRESSURE).
Proof.
  unfold pressure_ratio. apply cdiv_val.
  unfold Altitude_h.SEA_LEVEL_PRESSURE. lra.
Qed.

(** A negative pressure: [pow] of a negative base and a fractional exponent
    is NaN. A zero pressure: [pow] of zero and a negative exponent is
    +infinity. *)
Lemma uncomp_of_nonpositive_pressure (g : Globals) :
  let u :=
    cmul (Val 44330.7692307)
         (csub (cpow (pressure_ratio g) (-0.1902632)) (Val 1)) in
  ((BMP390_h.Pressure (BMP280 g) < 0)%R -> u = NaN) /\
  (BMP390_h.Pressure (BMP280 g) = 0%R -> u = PInf).
Proof.
  cbv zeta. rewrite pressure_ratio_val.
  set (P := BMP390_h.Pressure (BMP280 g)).
  unfold Altitude_h.SEA_LEVEL_PRESSURE. split; intros H.
  - unfold cpow.
    destruct (Rlt_dec 0 (P / 1013.25)) as [L | _]; [lra |].
    destruct (Req_dec_T (P / 1013.25) 0) as [E | _]; [lra |].
    reflexivity.
  - unfold cpow.
    destruct (Rlt_dec 0 (P / 1013.25)) as [L | _]; [lra |].
    destruct (Req_dec_T (P / 1013.25) 0) as [_ | N]; [| lra].
    destruct (Rlt_dec (-0.1902632) 0) as [_ | N]; [| lra].
    cbn. rewrite Rsgn_pos by lra. reflexivity.
Qed.

(** C6 (as amended). AltitudeAverage stores the three formula values for
    every input; nothing is tested beforehand. The adjusted pressure P - e
    is always a real number [a]. If [a < 0], Altitude.COMP and
    Altitude.AVRG are NaN; if [a = 0] they are an infinity or NaN; if the
    pressure is negative, Altitude.UNCOMP and Altitude.AVRG are NaN; if it
    is zero, Altitude.UNCOMP is +infinity and Altitude.AVRG an infinity or
    NaN. *)
Theorem AltitudeAverage_propagates_domain_errors (g : Globals) :
  let r := Altitude (AltitudeAverage g) in
  let P := BMP390_h.Pressure (BMP280 g) in
  (Altitude_h.COMP r = calculate_adjusted_elevation g /\
   Altitude_h.UNCOMP r =
     cmul (Val 44330.7692307)
          (csub (cpow (pressure_ratio g) (-0.1902632)) (Val 1)) /\
   Altitude_h.AVRG r =
     cdiv (cadd (Altitude_h.UNCOMP r) (Altitude_h.COMP r)) (Val 2)) /\
  exists a : R,
    adjusted_pressure g = Val a /\
    ((a < 0)%R -> Altitude_h.COMP r = NaN /\ Altitude_h.AVRG r = NaN) /\
    (a = 0%R ->
     is_nonfinite (Altitude_h.COMP r) /\ is_nonfinite (Altitude_h.AVRG r)) /\
    ((P < 0)%R -> Altitude_h.UNCOMP r = NaN /\ Altitude_h.AVRG r = NaN) /\
    (P = 0%R ->
     Altitude_h.UNCOMP r = PInf /\ is_nonfinite (Altitude_h.AVRG r)).
Proof.
  cbv zeta.
  cbn [AltitudeAverage Altitude set_Altitude Altitude_h.COMP Altitude_h.UNCOMP
       Altitude_h.AVRG].
  split; [repeat split |].
  destruct (adjusted_pressure_val g) as (a & Ha & _).
  destruct (uncomp_of_nonpositive_pressure g) as [Un U0]. cbv zeta in Un, U0.
  exists a. split; [exact Ha |].
  split; [| split; [| split]].
  - intros Hn. rewrite (comp_of_negative_adjusted g a Ha Hn).
    rewrite cadd_NaN_r. split; reflexivity.
  - intros ->. pose proof (comp_of_zero_adjusted g Ha) as Hc.
    split; [exact Hc |].
    apply cdiv_nonfinite_val, cadd_nonfinite_r. exact Hc.
  - intros Hn. rewrite (Un Hn). split; reflexivity.
  - intros Hz. rewrite (U0 Hz). split; [reflexivity |].
    apply cdiv_nonfinite_val, cadd_nonfinite_l. exact I.
Qed.

(** C6, counterexample. Before any pressure has been stored, with 25
    degrees Celsius and 50 percent humidity, the adjusted pressure is
    negative and the pressure ratio is zero: both domain errors of the
    claim. AltitudeAverage stores +infinity in Altitude.UNCOMP and NaN in
    Altitude.COMP and Altitude.AVRG. *)
Lemma AltitudeAverage_stores_NaN :
  exists a : R,
    adjusted_pressure no_pressure_yet = Val a /\ (a < 0)%R /\
    pressure_ratio no_pressure_yet = Val 0 /\
    Altitude_h.UNCOMP (Altitude (AltitudeAverage no_pressure_yet)) = PInf /\
    Altitude_h.COMP (Altitude (AltitudeAverage no_pressure_yet)) = NaN /\
    Altitude_h.AVRG (Altitude (AltitudeAverage no_pressure_yet)) = NaN.
Proof.
  destruct (adjusted_pressure_val no_pressure_yet) as (a & Ha & Hf).
  assert (Hn : (a < 0)%R).
  { rewrite Hf.
    - cbn. unfold Altitude_h.A, Altitude_h.B, Altitude_h.C.
      pose proof (exp_pos (17.67 * 25 / (25 + 243.5))). nra.
    - cbn. unfold Altitude_h.C. lra. }
  destruct (uncomp_of_nonpositive_pressure no_pressure_yet) as [_ U0].
  cbv zeta in U0. specialize (U0 eq_refl).
  exists a. split; [exact Ha |]. split; [exact Hn |].
  split.
  { rewrite pressure_ratio_val. cbn. f_equal.
    unfold Altitude_h.SEA_LEVEL_PRESSURE. lra. }
  cbn [AltitudeAverage Altitude set_Altitude Altitude_h.COMP Altitude_h.UNCOMP
       Altitude_h.AVRG].
  rewrite (comp_of_negative_adjusted no_pressure_yet a Ha Hn), U0.
  repeat split.
Qed.

(** * Properties of the rest of the code *)

(** ** Block transfers *)

Lemma lor_disjoint_pow (a b k : Z) :
  0 <= k -> 0 <= b < 2 ^ k -> Z.lor (a * 2 ^ k) b = a * 2 ^ k + b.
Proof.
  intros Hk Hb.
  assert (E : Z.land (a * 2 ^ k) b = 0).
  { apply Z.bits_inj'. intros n Hn.
    rewrite Z.land_spec, Z.bits_0.
    destruct (Z.ltb_spec n k) as [L | G].
    - rewrite Z.mul_pow2_bits_low by lia. reflexivity.
    - replace b with (b mod 2 ^ k) by (apply Z.mod_small; lia).
      rewrite Z.mod_pow2_bits_high by lia. apply andb_false_r. }
  rewrite (Z.add_nocarry_lxor _ _ E). symmetry. apply Z.lxor_lor. exact E.
Qed.

Lemma to_uint8_range (z : Z) : 0 <= to_uint8 z < 256.
Proof.
  unfold to_uint8, wrap_unsigned. change (2 ^ 8) with 256.
  apply Z.mod_pos_bound. lia.
Qed.

Lemma be_from_app (acc : Z) (bs cs : list Z) :
  be_from acc (bs ++ cs) = be_from (be_from acc bs) cs.
Proof. unfold be_from. apply fold_left_app. Qed.

Lemma be_from_shift (bs : list Z) :
  forall acc, be_from acc bs = acc * 256 ^ Z.of_nat (length bs) + be_value bs.
Proof.
  unfold be_value.
  induction bs as [| b bs IH]; intros acc.
  - cbn. lia.
  - cbn [be_from fold_left length]. fold (be_from (acc * 256 + b) bs).
    fold (be_from (0 * 256 + b) bs).
    rewrite (IH (acc * 256 + b)), (IH (0 * 256 + b)).
    rewrite Nat2Z.inj_succ, Z.pow_succ_r by lia. ring.
Qed.

Lemma be_value_range (bs : list Z) :
  Forall (fun b => 0 <= b < 256) bs ->
  0 <= be_value bs < 256 ^ Z.of_nat (length bs).
Proof.
  induction bs as [| b bs IH] using rev_ind; intros H.
  - cbn. lia.
  - apply Forall_app in H. destruct H as [Hbs Hb].
    inversion Hb as [| b' l' Hb0 _]; subst.
    specialize (IH Hbs).
    unfold be_value in *. rewrite be_from_app.
    cbn [be_from fold_left].
    rewrite length_app, Nat2Z.inj_add. cbn [length].
    change (Z.of_nat 1) with 1. rewrite Z.pow_add_r by lia.
    fold (be_from 0 bs). nia.
Qed.

Lemma map_to_uint8_bytes (ws : list Z) :
  Forall (fun b => 0 <= b < 256) (map to_uint8 ws).
Proof.
  induction ws as [| w ws IH]; cbn [map]; constructor.
  - apply to_uint8_range.
  - exact IH.
Qed.

Lemma taken_length (n : nat) :
  forall rx, (length (taken n rx) <= n)%nat.
Proof.
  induction n as [| n IH]; intros rx; [cbn; lia |].
  destruct rx as [| [b |] rx]; cbn [taken length]; try lia.
  specialize (IH rx). lia.
Qed.

Lemma ReadMulti_loop_closed (n : nat) :
  forall (rx : list (option Z)) (bytes i D : Z),
    0 <= i -> i + Z.of_nat n <= bytes <= 8 ->
    ReadMulti_loop n bytes i rx (D * 2 ^ (8 * (bytes - i))) =
    be_from D (map to_uint8 (taken n rx))
    * 2 ^ (8 * (bytes - i - Z.of_nat (length (taken n rx)))).
Proof.
  induction n as [| n IH]; intros rx bytes i D Hi Hb.
  - cbn. rewrite Z.sub_0_r. reflexivity.
  - destruct rx as [| [b |] rx].
    + cbn. rewrite Z.sub_0_r. reflexivity.
    + cbn [ReadMulti_loop taken map length be_from fold_left].
      fold (be_from (D * 256 + to_uint8 b) (map to_uint8 (taken n rx))).
      pose proof (to_uint8_range b) as Hr.
      set (k := 8 * (bytes - 1 - i)).
      assert (Hk : 0 <= k <= 56) by (unfold k; lia).
      assert (Hp : 0 < 2 ^ k) by (apply Z.pow_pos_nonneg; lia).
      assert (Hp56 : 2 ^ k <= 2 ^ 56) by (apply Z.pow_le_mono_r; lia).
      assert (Es : shl_u64 (to_uint8 b) k = to_uint8 b * 2 ^ k).
      { unfold shl_u64, to_uint64, wrap_unsigned.
        rewrite Z.shiftl_mul_pow2 by lia. apply Z.mod_small.
        change (2 ^ 64) with (256 * 2 ^ 56). nia. }
      rewrite Es.
      replace (8 * (bytes - i)) with (k + 8) by (unfold k; lia).
      rewrite lor_disjoint_pow; [| lia |].
      2:{ rewrite Z.pow_add_r by lia. change (2 ^ 8) with 256. nia. }
      replace (D * 2 ^ (k + 8) + to_uint8 b * 2 ^ k)
        with ((D * 256 + to_uint8 b) * 2 ^ (8 * (bytes - (i + 1)))).
      2:{ replace (8 * (bytes - (i + 1))) with k by (unfold k; lia).
          rewrite Z.pow_add_r by lia. change (2 ^ 8) with 256. ring. }
      rewrite IH by lia.
      f_equal. f_equal. lia.
    + cbn. rewrite Z.sub_0_r. reflexivity.
Qed.

Lemma ReadMulti_on_closed (b : BusRead) (bytes : Z) :
  1 <= bytes <= 8 -> setup_error b = 0 ->
  ReadMulti_on b bytes =
  be_value (map to_uint8 (taken (Z.to_nat bytes) (received b)))
  * 2 ^ (8 * (bytes
              - Z.of_nat (length (taken (Z.to_nat bytes) (received b))))).
Proof.
  intros Hb He. unfold ReadMulti_on. rewrite He.
  replace ((bytes =? 0) || (8 <? bytes)) with false.
  2:{ symmetry. apply orb_false_iff.
      split; [apply Z.eqb_neq | apply Z.ltb_ge]; lia. }
  cbn [Z.eqb].
  pose proof (ReadMulti_loop_closed (Z.to_nat bytes) (received b) bytes 0 0
                ltac:(lia) ltac:(lia)) as H.
  rewrite Z.mul_0_l, !Z.sub_0_r in H. exact H.
Qed.

Lemma ReadMulti_on_zero (b : BusRead) (bytes : Z) :
  bytes <= 0 \/ 8 < bytes \/ setup_error b <> 0 -> ReadMulti_on b bytes = 0.
Proof.
  intros H. unfold ReadMulti_on.
  destruct ((bytes =? 0) || (8 <? bytes)) eqn:E; [reflexivity |].
  apply orb_false_iff in E. destruct E as [E0 E8].
  apply Z.eqb_neq in E0. apply Z.ltb_ge in E8.
  destruct H as [H | [H | H]].
  - replace (Z.to_nat bytes) with O by lia. cbn.
    destruct (setup_error b =? 0); reflexivity.
  - lia.
  - destruct (Z.eqb_spec (setup_error b) 0); [contradiction | reflexivity].
Qed.

Lemma ReadMulti_on_range (b : BusRead) (bytes : Z) :
  0 <= ReadMulti_on b bytes /\
  (1 <= bytes <= 8 -> ReadMulti_on b bytes < 2 ^ (8 * bytes)).
Proof.
  destruct (Z_le_dec bytes 0) as [H0 | H0].
  { rewrite ReadMulti_on_zero by (left; exact H0). split; [lia | intros; lia]. }
  destruct (Z_lt_dec 8 bytes) as [H8 | H8].
  { rewrite ReadMulti_on_zero by (right; left; exact H8).
    split; [lia | intros; lia]. }
  destruct (Z.eq_dec (setup_error b) 0) as [He | He].
  2:{ rewrite ReadMulti_on_zero by (right; right; exact He).
      split; [lia | intros _; apply Z.pow_pos_nonneg; lia]. }
  rewrite (ReadMulti_on_closed b bytes ltac:(lia) He).
  set (ws := taken (Z.to_nat bytes) (received b)).
  pose proof (be_value_range _ (map_to_uint8_bytes ws)) as Hr.
  rewrite length_map in Hr.
  pose proof (taken_length (Z.to_nat bytes) (received b)) as Hl.
  fold ws in Hl.
  set (l := Z.of_nat (length ws)) in *.
  assert (Hl' : 0 <= l <= bytes) by (unfold l; lia).
  assert (Hp : 0 < 2 ^ (8 * (bytes - l))) by (apply Z.pow_pos_nonneg; lia).
  replace (2 ^ (8 * bytes)) with (256 ^ l * 2 ^ (8 * (bytes - l))).
  2:{ change 256 with (2 ^ 8). rewrite <- Z.pow_mul_r by lia.
      rewrite <- Z.pow_add_r by lia. f_equal. lia. }
  split; [nia |]. intros _. nia.
Qed.

(** X1. ReadMulti returns 0 when asked for no byte or for more than eight,
    and when an address or register phase fails. Otherwise the bytes
    received before the first time-out stand, first byte highest, in the
    top of the [bytes]-byte value and the rest of it is zero; with no
    time-out this is the big-endian value of the block. The result is
    never negative and, for 1 to 8 bytes, below [2 ^ (8 * bytes)]. *)
Theorem ReadMulti_assembles_big_endian (b : BusRead) (bytes : Z) :
  let ws := taken (Z.to_nat bytes) (received b) in
  (bytes = 0 \/ 8 < bytes \/ setup_error b <> 0 -> ReadMulti_on b bytes = 0) /\
  (1 <= bytes <= 8 /\ setup_error b = 0 ->
   ReadMulti_on b bytes =
   be_value (map to_uint8 ws) * 2 ^ (8 * (bytes - Z.of_nat (length ws)))) /\
  0 <= ReadMulti_on b bytes /\
  (1 <= bytes <= 8 -> ReadMulti_on b bytes < 2 ^ (8 * bytes)).
Proof.
  cbv zeta. split; [| split].
  - intros [H | [H | H]]; apply ReadMulti_on_zero; [left; lia | tauto | tauto].
  - intros [Hb He]. apply ReadMulti_on_closed; assumption.
  - apply ReadMulti_on_range.
Qed.

Lemma WriteMulti_byte_value (data bytes i : Z) :
  0 <= bytes - 1 - i ->
  WriteMulti_byte data bytes i = (data / 2 ^ (8 * (bytes - 1 - i))) mod 256.
Proof.
  intros H. unfold WriteMulti_byte, shr_u64, to_uint8, wrap_unsigned.
  change 0xFF with (Z.ones 8). rewrite Z.land_ones by lia.
  rewrite Z.shiftr_div_pow2 by lia. change (2 ^ 8) with 256.
  apply Z.mod_mod. lia.
Qed.

Lemma WriteMulti_loop_healthy (data bytes : Z) (n : nat) :
  forall i D,
    0 <= i -> i + Z.of_nat n = bytes ->
    length (WriteMulti_loop n bytes i (repeat 0 n) data) = n /\
    Forall (fun b => 0 <= b < 256) (WriteMulti_loop n bytes i (repeat 0 n) data) /\
    be_from D (WriteMulti_loop n bytes i (repeat 0 n) data) =
    D * 256 ^ Z.of_nat n + data mod 2 ^ (8 * Z.of_nat n).
Proof.
  induction n as [| n IH]; intros i D Hi Hb.
  - cbn. repeat split; [constructor | rewrite Z.mod_1_r; lia].
  - cbn [WriteMulti_loop repeat]. change (0 =? 0) with true. cbv iota.
    destruct (IH (i + 1) (D * 256 + WriteMulti_byte data bytes i)
                ltac:(lia) ltac:(lia)) as (Hl & Hf & Hv).
    cbn [length be_from fold_left].
    fold (be_from (D * 256 + WriteMulti_byte data bytes i)
            (WriteMulti_loop n bytes (i + 1) (repeat 0 n) data)).
    rewrite Hv, Hl.
    rewrite WriteMulti_byte_value in * by lia.
    replace (bytes - 1 - i) with (Z.of_nat n) in * by lia.
    split; [reflexivity |]. split.
    + constructor; [apply Z.mod_pos_bound; lia | exact Hf].
    + rewrite Nat2Z.inj_succ.
      replace (8 * Z.succ (Z.of_nat n)) with (8 * Z.of_nat n + 8) by lia.
      rewrite Z.pow_succ_r, (Z.pow_add_r 2) by lia.
      change (2 ^ 8) with 256.
      rewrite (Z.rem_mul_r data (2 ^ (8 * Z.of_nat n)) 256)
        by (try apply Z.pow_nonzero; lia).
      replace (256 ^ Z.of_nat n) with (2 ^ (8 * Z.of_nat n)).
      2:{ change 256 with (2 ^ 8). rewrite <- Z.pow_mul_r by lia. reflexivity. }
      ring.
Qed.

Lemma taken_all (l : list Z) : taken (length l) (map Some l) = l.
Proof.
  induction l as [| x l IH]; [reflexivity |].
  cbn [length map taken]. rewrite IH. reflexivity.
Qed.

Lemma map_to_uint8_id (l : list Z) :
  Forall (fun b => 0 <= b < 256) l -> map to_uint8 l = l.
Proof.
  induction 1 as [| x l Hx _ IH]; [reflexivity |].
  cbn [map]. rewrite IH. f_equal.
  unfold to_uint8, wrap_unsigned. apply Z.mod_small.
  change (2 ^ 8) with 256. exact Hx.
Qed.

(** ReadMulti on a bus that delivers exactly the bytes [l]. *)
Lemma ReadMulti_on_all (l : list Z) :
  (1 <= length l <= 8)%nat ->
  Forall (fun b => 0 <= b < 256) l ->
  ReadMulti_on {| setup_error := 0; received := map Some l |}
    (Z.of_nat (length l)) = be_value l.
Proof.
  intros Hl Hf.
  rewrite ReadMulti_on_closed by (cbn [setup_error]; lia).
  cbn [received]. rewrite Nat2Z.id, taken_all, Z.sub_diag, (map_to_uint8_id l Hf).
  cbn. lia.
Qed.

(** X2. What WriteMulti sends, ReadMulti reads back: on a bus without
    errors WriteMulti hands over exactly [bytes] bytes, and ReadMulti,
    given these bytes, returns the low [bytes] bytes of the value; with
    eight bytes a uint64_t comes back unchanged. *)
Theorem WriteMulti_ReadMulti_round_trip (data bytes : Z) :
  1 <= bytes <= 8 ->
  let sent :=
    WriteMulti_loop (Z.to_nat bytes) bytes 0 (repeat 0 (Z.to_nat bytes)) data in
  length sent = Z.to_nat bytes /\
  ReadMulti_on {| setup_error := 0; received := map Some sent |} bytes =
  data mod 2 ^ (8 * bytes) /\
  (bytes = 8 -> in_uint64 data ->
   ReadMulti_on {| setup_error := 0; received := map Some sent |} bytes = data).
Proof.
  intros Hb. cbv zeta.
  destruct (WriteMulti_loop_healthy data bytes (Z.to_nat bytes) 0 0
              ltac:(lia) ltac:(lia)) as (Hl & Hf & Hv).
  set (sent := WriteMulti_loop (Z.to_nat bytes) bytes 0
                 (repeat 0 (Z.to_nat bytes)) data) in *.
  assert (E : ReadMulti_on {| setup_error := 0; received := map Some sent |}
                bytes = data mod 2 ^ (8 * bytes)).
  { replace bytes with (Z.of_nat (length sent)) at 1 by lia.
    rewrite ReadMulti_on_all by (try exact Hf; lia).
    unfold be_value. rewrite Hv. rewrite Z2Nat.id by lia. lia. }
  split; [exact Hl |]. split; [exact E |].
  intros -> Hd. rewrite E. apply Z.mod_small. exact Hd.
Qed.

Lemma WriteMulti_ReadMulti_round_trip_witness :
  ReadMulti_on
    {| setup_error := 0;
       received := map Some (WriteMulti_loop 3 3 0 [0; 0; 0] 0x123456) |} 3
  = 0x123456 mod 2 ^ (8 * 3).
Proof.
  assert (H : 1 <= 3 <= 8) by lia.
  exact (proj1 (proj2 (WriteMulti_ReadMulti_round_trip 0x123456 3 H))).
Defined.

(** ** Calibration read through the bus *)

Lemma ReadBMP280Calibration_unfold (ReadMulti : Z -> Z -> Z -> Z)
    (g : Globals) :
  let d0 := ReadMulti BMP390_h.BMP280Add BMP390_h.calib00 8 in
  let d1 := ReadMulti BMP390_h.BMP280Add BMP390_h.calib08 8 in
  let d2 := ReadMulti BMP390_h.BMP280Add BMP390_h.calib16 8 in
  cal (ReadBMP280Calibration ReadMulti g) =
  BMP390_h.set_part2
    (to_int16 (swap_expr (shr_u64 d2 48))) (to_int16 (swap_expr (shr_u64 d2 32)))
    (to_int16 (swap_expr (shr_u64 d2 16))) (to_int16 (swap_expr d2))
    (BMP390_h.set_part1
       (to_int16 (swap_expr (shr_u64 d1 48)))
       (to_int16 (swap_expr (shr_u64 d1 32)))
       (to_int16 (swap_expr (shr_u64 d1 16))) (to_int16 (swap_expr d1))
       (BMP390_h.set_part0
          (to_uint16 (swap_expr (shr_u64 d0 48)))
          (to_int16 (swap_expr (shr_u64 d0 32)))
          (to_int16 (swap_expr (shr_u64 d0 16))) (to_uint16 (swap_expr d0))
          (cal g))).
Proof. reflexivity. Qed.

Lemma ReadMulti_healthy_8 (regs : Z -> Z) (addr reg : Z) :
  (forall r, 0 <= regs r < 256) ->
  ReadMulti_healthy regs addr reg 8 =
  be_value [regs (reg + 0); regs (reg + 1); regs (reg + 2); regs (reg + 3);
            regs (reg + 4); regs (reg + 5); regs (reg + 6); regs (reg + 7)].
Proof.
  intros H. unfold ReadMulti_healthy, healthy_read.
  change (Z.to_nat 8) with 8%nat. cbn [seq map Z.of_nat Pos.of_succ_nat Pos.succ].
  apply (ReadMulti_on_all
           [regs (reg + 0); regs (reg + 1); regs (reg + 2); regs (reg + 3);
            regs (reg + 4); regs (reg + 5); regs (reg + 6); regs (reg + 7)]).
  - cbn. lia.
  - repeat constructor; apply H.
Qed.

Lemma decode_be8 (b0 b1 b2 b3 b4 b5 b6 b7 : Z) :
  0 <= b0 < 256 -> 0 <= b1 < 256 -> 0 <= b2 < 256 -> 0 <= b3 < 256 ->
  0 <= b4 < 256 -> 0 <= b5 < 256 -> 0 <= b6 < 256 -> 0 <= b7 < 256 ->
  let d := be_value [b0; b1; b2; b3; b4; b5; b6; b7] in
  swap_expr (shr_u64 d 48) = le16 b0 b1 /\
  swap_expr (shr_u64 d 32) = le16 b2 b3 /\
  swap_expr (shr_u64 d 16) = le16 b4 b5 /\
  swap_expr d = le16 b6 b7.
Proof.
  intros H0 H1 H2 H3 H4 H5 H6 H7. cbv zeta.
  assert (E : forall s hi lo,
             0 <= s -> 0 <= hi < 256 -> 0 <= lo < 256 ->
             field16 (be_value [b0; b1; b2; b3; b4; b5; b6; b7]) s
             = hi * 256 + lo ->
             swap_expr (shr_u64 (be_value [b0; b1; b2; b3; b4; b5; b6; b7]) s)
             = le16 hi lo).
  { intros s hi lo Hs Hhi Hlo Hf.
    destruct (decode_field (be_value [b0; b1; b2; b3; b4; b5; b6; b7]) s Hs)
      as [Ed _].
    rewrite Ed, Hf. unfold bswap16, le16.
    change (2 ^ 8) with 256.
    Z.div_mod_to_equations. lia. }
  assert (F : forall s, s = 48 \/ s = 32 \/ s = 16 \/ s = 0 ->
             field16 (be_value [b0; b1; b2; b3; b4; b5; b6; b7]) s =
             if s =? 48 then b0 * 256 + b1
             else if s =? 32 then b2 * 256 + b3
             else if s =? 16 then b4 * 256 + b5 else b6 * 256 + b7).
  { intros s Hs. unfold field16, be_value, be_from. cbn [fold_left].
    destruct Hs as [-> | [-> | [-> | ->]]]; cbn [Z.eqb Pos.eqb];
      rewrite Z.shiftr_div_pow2 by lia.
    - change (2 ^ 48) with 281474976710656. change (2 ^ 16) with 65536.
      Z.div_mod_to_equations. lia.
    - change (2 ^ 32) with 4294967296. change (2 ^ 16) with 65536.
      Z.div_mod_to_equations. lia.
    - change (2 ^ 16) with 65536.
      Z.div_mod_to_equations. lia.
    - change (2 ^ 0) with 1. change (2 ^ 16) with 65536.
      Z.div_mod_to_equations. lia. }
  repeat split.
  - apply E; try lia. apply (F 48). tauto.
  - apply E; try lia. apply (F 32). tauto.
  - apply E; try lia. apply (F 16). tauto.
  - pose proof (E 0 b6 b7 ltac:(lia) H6 H7 (F 0 ltac:(tauto))) as E0.
    unfold shr_u64 in E0. rewrite Z.shiftr_0_r in E0. exact E0.
Qed.

(** X3. Read through ReadMulti from a sensor that answers with its
    registers in address order, every coefficient comes out as the
    little-endian 16-bit value of its register pair: dig_T1 from 0x88 (low
    byte) and 0x89 (high byte), dig_T2 from 0x8A and 0x8B, and so on up to
    dig_P9 from 0x9E and 0x9F; the ten signed ones are that value read as
    an int16_t. *)
Theorem calibration_is_little_endian (regs : Z -> Z) (g : Globals) :
  (forall r, 0 <= regs r < 256) ->
  coefficients (cal (ReadBMP280Calibration (ReadMulti_healthy regs) g)) =
  [le16 (regs 0x88) (regs 0x89);
   to_int16 (le16 (regs 0x8A) (regs 0x8B));
   to_int16 (le16 (regs 0x8C) (regs 0x8D));
   le16 (regs 0x8E) (regs 0x8F);
   to_int16 (le16 (regs 0x90) (regs 0x91));
   to_int16 (le16 (regs 0x92) (regs 0x93));
   to_int16 (le16 (regs 0x94) (regs 0x95));
   to_int16 (le16 (regs 0x96) (regs 0x97));
   to_int16 (le16 (regs 0x98) (regs 0x99));
   to_int16 (le16 (regs 0x9A) (regs 0x9B));
   to_int16 (le16 (regs 0x9C) (regs 0x9D));
   to_int16 (le16 (regs 0x9E) (regs 0x9F))].
Proof.
  intros H.
  pose proof (ReadBMP280Calibration_unfold (ReadMulti_healthy regs) g) as U.
  cbv zeta in U. rewrite U. clear U.
  rewrite !(ReadMulti_healthy_8 regs _ _ H).
  unfold BMP390_h.calib00, BMP390_h.calib08, BMP390_h.calib16.
  repeat match goal with
         | |- context [regs (?a + ?b)] =>
             let v := eval cbv in (a + b) in change (regs (a + b)) with (regs v)
         end.
  destruct (decode_be8 (regs 136) (regs 137) (regs 138) (regs 139) (regs 140)
              (regs 141) (regs 142) (regs 143)
              (H _) (H _) (H _) (H _) (H _) (H _) (H _) (H _))
    as (A0 & A1 & A2 & A3).
  destruct (decode_be8 (regs 144) (regs 145) (regs 146) (regs 147) (regs 148)
              (regs 149) (regs 150) (regs 151)
              (H _) (H _) (H _) (H _) (H _) (H _) (H _) (H _))
    as (B0 & B1 & B2 & B3).
  destruct (decode_be8 (regs 152) (regs 153) (regs 154) (regs 155) (regs 156)
              (regs 157) (regs 158) (regs 159)
              (H _) (H _) (H _) (H _) (H _) (H _) (H _) (H _))
    as (C0 & C1 & C2 & C3).
  cbv zeta in *.
  rewrite A0, A1, A2, A3, B0, B1, B2, B3, C0, C1, C2, C3.
  assert (R : forall lo hi, to_uint16 (le16 (regs lo) (regs hi))
                            = le16 (regs lo) (regs hi)).
  { intros lo hi. apply to_uint16_id. unfold in_uint16, le16.
    pose proof (H lo). pose proof (H hi). lia. }
  unfold coefficients.
  cbn [BMP390_h.set_part0 BMP390_h.set_part1 BMP390_h.set_part2
       BMP390_h.dig_T1 BMP390_h.dig_T2 BMP390_h.dig_T3
       BMP390_h.dig_P1 BMP390_h.dig_P2 BMP390_h.dig_P3 BMP390_h.dig_P4
       BMP390_h.dig_P5 BMP390_h.dig_P6 BMP390_h.dig_P7 BMP390_h.dig_P8
       BMP390_h.dig_P9].
  rewrite !R. reflexivity.
Qed.

Lemma reference_registers_bytes (r : Z) : 0 <= reference_registers r < 256.
Proof.
  unfold reference_registers.
  set (n := Z.to_nat (r - 136)).
  do 24 (destruct n as [| n]; [cbn; lia |]).
  destruct n; cbn; lia.
Qed.

(** The registers of the reference sensor decode to the reference
    coefficients. *)
Lemma calibration_is_little_endian_witness :
  coefficients
    (cal (ReadBMP280Calibration (ReadMulti_healthy reference_registers)
            globals_init)) =
  [27504; 26435; -1000; 36477; -10685; 3024; 2855; 140; -7; 15500; -14600;
   6000].
Proof.
  rewrite (calibration_is_little_endian reference_registers globals_init
             reference_registers_bytes).
  vm_compute. reflexivity.
Defined.

Lemma mul32_0_r (x : Z) : mul32 x 0 = 0.
Proof. unfold mul32. rewrite Z.mul_0_r. reflexivity. Qed.

Lemma zero_coefficients_behaviour (g : Globals) :
  BMP390_h.dig_T1 (cal g) = 0 -> BMP390_h.dig_T2 (cal g) = 0 ->
  BMP390_h.dig_T3 (cal g) = 0 -> BMP390_h.dig_P1 (cal g) = 0 ->
  fst (CalcTrueTemp g) = 0 /\
  BMP390_h.Temperature (BMP280 (snd (CalcTrueTemp g))) = 0%R /\
  CalcTruePres (snd (CalcTrueTemp g)) = Some (0, snd (CalcTrueTemp g)).
Proof.
  intros H1 H2 H3 HP.
  assert (P : BMP390_h.dig_P1 (cal (snd (CalcTrueTemp g))) = 0) by exact HP.
  assert (G : pres_var1 (snd (CalcTrueTemp g)) = 0).
  { unfold pres_var1. cbv zeta. rewrite P. unfold mul64.
    rewrite Z.mul_0_r. reflexivity. }
  split; [| split].
  - unfold CalcTrueTemp. cbv zeta. cbn [fst].
    rewrite H1, H2, H3, !mul32_0_r. reflexivity.
  - unfold CalcTrueTemp. cbv zeta.
    rewrite H1, H2, H3, !mul32_0_r.
    cbn [snd BMP280 set_BMP280 BMP390_h.set_Temperature BMP390_h.Temperature].
    change (sar (add32 (mul32 (add32 (sar 0 11) (sar 0 14)) 5) 128) 8) with 0.
    lra.
  - unfold CalcTruePres. rewrite G. reflexivity.
Qed.

(** X4. When the sensor does not answer, every block read returns 0 and
    ReadBMP280Calibration stores twelve zero coefficients without any
    sign of the failure. From then on, whatever the raw counts are,
    CalcTrueTemp returns 0 and stores 0.00 degrees, and CalcTruePres takes
    the guard: it returns 0 and changes nothing. *)
Theorem failed_calibration_read (e press temp : Z) (g : Globals) :
  e <> 0 ->
  let g0 := ReadBMP280Calibration (ReadMulti_failing e) g in
  let g1 := ReadBMP280TP press temp g0 in
  coefficients (cal g0) = repeat 0 12 /\
  fst (CalcTrueTemp g1) = 0 /\
  BMP390_h.Temperature (BMP280 (snd (CalcTrueTemp g1))) = 0%R /\
  CalcTruePres (snd (CalcTrueTemp g1)) = Some (0, snd (CalcTrueTemp g1)).
Proof.
  intros He. cbv zeta.
  pose proof (ReadBMP280Calibration_unfold (ReadMulti_failing e) g) as U.
  cbv zeta in U.
  assert (Z0 : forall a r n, ReadMulti_failing e a r n = 0).
  { intros a r n. unfold ReadMulti_failing. apply ReadMulti_on_zero.
    right; right. exact He. }
  rewrite !Z0 in U.
  change (swap_expr (shr_u64 0 48)) with 0 in U.
  change (swap_expr (shr_u64 0 32)) with 0 in U.
  change (swap_expr (shr_u64 0 16)) with 0 in U.
  change (swap_expr 0) with 0 in U.
  change (to_int16 0) with 0 in U. change (to_uint16 0) with 0 in U.
  split; [rewrite U; reflexivity |].
  set (g0 := ReadBMP280Calibration (ReadMulti_failing e) g) in *.
  assert (C1 : cal (ReadBMP280TP press temp g0) =
               BMP390_h.set_raw (to_int32 (shr_u64 temp 4))
                 (to_int32 (shr_u64 press 4)) (cal g0)) by reflexivity.
  apply zero_coefficients_behaviour; rewrite C1, U; reflexivity.
Qed.

Lemma failed_calibration_read_witness :
  fst (CalcTrueTemp
         (ReadBMP280TP (415148 * 16) (519888 * 16)
            (ReadBMP280Calibration (ReadMulti_failing 1) reference_globals)))
  = 0.
Proof.
  assert (H : 1 <> 0) by discriminate.
  exact (proj1 (proj2 (failed_calibration_read 1 (415148 * 16) (519888 * 16)
                         reference_globals H))).
Defined.

(** X5. Whatever the bus does during the two 3-byte reads, the raw counts
    ReadBMP280TP stores are 20-bit values, and the calibration coefficients
    stay as they were. *)
Theorem raw_counts_are_20_bit (bp bt : BusRead) (g : Globals) :
  let g' := ReadBMP280TP (ReadMulti_on bp 3) (ReadMulti_on bt 3) g in
  0 <= BMP390_h.UP (cal g') < 2 ^ 20 /\
  0 <= BMP390_h.UT (cal g') < 2 ^ 20 /\
  coefficients (cal g') = coefficients (cal g).
Proof.
  cbv zeta.
  assert (R : forall b, 0 <= to_int32 (shr_u64 (ReadMulti_on b 3) 4) < 2 ^ 20).
  { intros b. destruct (ReadMulti_on_range b 3) as [H0 H1].
    specialize (H1 ltac:(lia)). change (8 * 3) with 24 in H1.
    unfold shr_u64. rewrite Z.shiftr_div_pow2 by lia.
    assert (0 <= ReadMulti_on b 3 / 2 ^ 4 < 2 ^ 20).
    { split; [apply Z.div_pos; lia | apply Z.div_lt_upper_bound; lia]. }
    rewrite to_int32_id by (unfold in_int32; lia). lia. }
  cbn [ReadBMP280TP cal set_cal set_BMP280 BMP280 BMP390_h.CalibrationValues
       BMP390_h.set_CalibrationValues BMP390_h.set_raw BMP390_h.UP
       BMP390_h.UT].
  split; [apply R |]. split; [apply R |]. reflexivity.
Qed.

(** The initial globals (t_fine = 0, dig_P1 = 0) meet the two range
    conditions, and the guard fires on them. *)
Lemma pres_var1_zero_iff_witness :
  (in_int32 (BMP390_h.t_fine (cal globals_init)) /\
   in_uint16 (BMP390_h.dig_P1 (cal globals_init))) /\
  (pres_var1 globals_init = 0 <-> BMP390_h.dig_P1 (cal globals_init) = 0).
Proof.
  assert (H1 : in_int32 (BMP390_h.t_fine (cal globals_init)))
    by (unfold in_int32; cbn; lia).
  assert (H2 : in_uint16 (BMP390_h.dig_P1 (cal globals_init)))
    by (unfold in_uint16; cbn; lia).
  split; [split; assumption |].
  exact (pres_var1_zero_iff globals_init H1 H2).
Defined.

(** ** What the compensation reads and what a pass leaves alone *)

(** X7. CalcTruePres never reads dig_P2 and dig_P3: with any other two
    values in their place it returns the same value and stores the same
    pressure. *)
Theorem CalcTruePres_ignores_P2_P3 (p2 p3 : Z) (g : Globals) :
  let c := cal g in
  let g2 :=
    set_cal (BMP390_h.set_part1 p2 p3 (BMP390_h.dig_P4 c) (BMP390_h.dig_P5 c) c)
      g in
  option_map fst (CalcTruePres g2) = option_map fst (CalcTruePres g) /\
  option_map (fun r => BMP390_h.Pressure (BMP280 (snd r))) (CalcTruePres g2) =
  option_map (fun r => BMP390_h.Pressure (BMP280 (snd r))) (CalcTruePres g).
Proof.
  cbv zeta.
  set (g2 := set_cal (BMP390_h.set_part1 p2 p3 (BMP390_h.dig_P4 (cal g))
                        (BMP390_h.dig_P5 (cal g)) (cal g)) g).
  assert (E1 : pres_var1 g2 = pres_var1 g).
  { unfold pres_var1. cbv zeta.
    change (BMP390_h.t_fine (cal g2)) with (BMP390_h.t_fine (cal g)).
    change (BMP390_h.dig_P1 (cal g2)) with (BMP390_h.dig_P1 (cal g)).
    reflexivity. }
  assert (E2 : pres_var2 g2 = pres_var2 g).
  { unfold pres_var2. cbv zeta.
    change (BMP390_h.t_fine (cal g2)) with (BMP390_h.t_fine (cal g)).
    change (BMP390_h.dig_P6 (cal g2)) with (BMP390_h.dig_P6 (cal g)).
    change (BMP390_h.dig_P5 (cal g2)) with (BMP390_h.dig_P5 (cal g)).
    change (BMP390_h.dig_P4 (cal g2)) with (BMP390_h.dig_P4 (cal g)).
    reflexivity. }
  assert (E3 : forall v1 v2, pres_tail g2 v1 v2 = pres_tail g v1 v2).
  { intros v1 v2. unfold pres_tail. cbv zeta.
    change (BMP390_h.UP (cal g2)) with (BMP390_h.UP (cal g)).
    change (BMP390_h.dig_P9 (cal g2)) with (BMP390_h.dig_P9 (cal g)).
    change (BMP390_h.dig_P8 (cal g2)) with (BMP390_h.dig_P8 (cal g)).
    change (BMP390_h.dig_P7 (cal g2)) with (BMP390_h.dig_P7 (cal g)).
    reflexivity. }
  unfold CalcTruePres. rewrite E1, E2, E3.
  destruct (pres_var1 g =? 0); [split; reflexivity |].
  destruct (pres_tail g (pres_var1 g) (pres_var2 g)); split; reflexivity.
Qed.

Lemma same_setup_refl (g : Globals) : same_setup g g.
Proof. unfold same_setup. repeat split. Qed.

Lemma same_setup_trans (g1 g2 g3 : Globals) :
  same_setup g1 g2 -> same_setup g2 g3 -> same_setup g1 g3.
Proof.
  unfold same_setup.
  intros (A & B & C & D & E) (A' & B' & C' & D' & E').
  repeat split; congruence.
Qed.

Lemma CalcTruePres_effect (g : Globals) :
  exists p g', CalcTruePres g = Some (p, g') /\
    same_setup g g' /\ SUN g' = SUN g /\ SHT21 g' = SHT21 g /\
    Altitude g' = Altitude g.
Proof.
  unfold CalcTruePres.
  destruct (Z.eqb_spec (pres_var1 g) 0) as [E | NE].
  - exists 0, g. split; [reflexivity |]. split; [apply same_setup_refl |].
    repeat split.
  - destruct (pres_tail_some g (pres_var1 g) (pres_var2 g) NE) as [p Hp].
    rewrite Hp. eexists; eexists. split; [reflexivity |].
    unfold same_setup. repeat split.
Qed.

Lemma correct_solar_angles_effect (g : Globals) :
  same_setup g (correct_solar_angles g) /\
  SHT21 (correct_solar_angles g) = SHT21 g /\
  Altitude (correct_solar_angles g) = Altitude g /\
  ElAndAzComp_h.elevation (SUN (correct_solar_angles g)) =
  ElAndAzComp_h.elevation (SUN g) /\
  ElAndAzComp_h.azimuth (SUN (correct_solar_angles g)) =
  ElAndAzComp_h.azimuth (SUN g) /\
  BMP390_h.Pressure (BMP280 (correct_solar_angles g)) =
  BMP390_h.Pressure (BMP280 (snd (calculate_refraction g))).
Proof.
  unfold correct_solar_angles.
  destruct (Rlt_dec 0 (ElAndAzComp_h.elevation (SUN g))) as [Hel | Hel].
  - destruct (calculate_refraction_cases g)
      as [[Hn _] | [(_ & _ & E) | (_ & _ & E)]]; cbv zeta in *; [lra | |];
      destruct (calculate_refraction g) as [r g1]; cbn [snd] in *; subst g1;
      unfold same_setup; repeat split.
  - destruct (calculate_refraction_cases g)
      as [[Hn E] | [(Hp & _) | (Hp & _)]]; cbv zeta in *; [| lra | lra].
    rewrite E. unfold same_setup. repeat split.
Qed.

Lemma pipeline_cycle_stages (CRC8MAXIM : Z -> Z) (i : CycleInput)
    (g : Globals) :
  exists p gB,
    CalcTruePres
      (snd (CalcTrueTemp (ReadBMP280TP (press_word i) (temp_word i) g)))
    = Some (p, gB) /\
    let gD :=
      ClockAndDataReader (command i)
        (snd (Separator CRC8MAXIM (t_word i)
                (snd (Separator CRC8MAXIM (rh_word i) gB)))) in
    pipeline_cycle CRC8MAXIM i g =
    Some (AltitudeAverage (correct_solar_angles gD)) /\
    same_setup g gD /\
    BMP280 gD = BMP280 gB /\
    SUN gD = SUN (ClockAndDataReader (command i) g).
Proof.
  destruct (CalcTruePres_effect
              (snd (CalcTrueTemp
                      (ReadBMP280TP (press_word i) (temp_word i) g))))
    as (p & gB & HB & SB & SunB & _ & _).
  exists p, gB. split; [exact HB |]. cbv zeta.
  destruct (Separator_frame CRC8MAXIM (rh_word i) gB) as (E1 & E2 & E3).
  destruct (Separator_frame CRC8MAXIM (t_word i)
              (snd (Separator CRC8MAXIM (rh_word i) gB))) as (E4 & E5 & E6).
  set (gC := snd (Separator CRC8MAXIM (t_word i)
                    (snd (Separator CRC8MAXIM (rh_word i) gB)))) in *.
  assert (BD : BMP280 (ClockAndDataReader (command i) gC) = BMP280 gB).
  { destruct (command i); cbn; congruence. }
  assert (DD : Date_Clock (ClockAndDataReader (command i) gC) = Date_Clock gB).
  { destruct (command i); cbn; congruence. }
  split.
  { unfold pipeline_cycle. cbv zeta. rewrite HB. reflexivity. }
  split.
  { apply (same_setup_trans g gB); [| unfold same_setup, cal; rewrite BD, DD;
                                      repeat split].
    apply (same_setup_trans g
             (snd (CalcTrueTemp (ReadBMP280TP (press_word i) (temp_word i) g))));
      [| exact SB].
    unfold same_setup. repeat split. }
  split; [exact BD |].
  assert (SC : SUN gC = SUN g).
  { rewrite E5, E2, SunB. reflexivity. }
  destruct (command i); cbn; [exact SC | rewrite SC; reflexivity].
Qed.


(** X9. With the observer at or below sea level (the initial altitude is
    -50), or with the sun at or below the horizon, the pressure
    AltitudeAverage works with and the pass leaves behind is the one
    CalcTruePres stored in that pass. *)
Theorem pressure_untouched_without_lapse (CRC8MAXIM : Z -> Z)
    (i : CycleInput) (g : Globals) :
  Communications_h.altitude (Date_Clock g) <= 0 \/
  (ElAndAzComp_h.elevation (SUN (ClockAndDataReader (command i) g)) <= 0)%R ->
  exists p gB g',
    CalcTruePres
      (snd (CalcTrueTemp (ReadBMP280TP (press_word i) (temp_word i) g)))
    = Some (p, gB) /\
    pipeline_cycle CRC8MAXIM i g = Some g' /\
    BMP390_h.Pressure (BMP280 g') = BMP390_h.Pressure (BMP280 gB).
Proof.
  intros H.
  destruct (pipeline_cycle_stages CRC8MAXIM i g) as (p & gB & HB & HS).
  cbv zeta in HS. destruct HS as (HC & SD & BD & SunD).
  set (gD := ClockAndDataReader (command i)
               (snd (Separator CRC8MAXIM (t_word i)
                       (snd (Separator CRC8MAXIM (rh_word i) gB))))) in *.
  exists p, gB, (AltitudeAverage (correct_solar_angles gD)).
  split; [exact HB |]. split; [exact HC |].
  destruct (correct_solar_angles_effect gD) as (_ & _ & _ & _ & _ & EP).
  cbn [AltitudeAverage set_Altitude BMP280]. rewrite EP, <- BD.
  destruct SD as (_ & _ & _ & _ & DD).
  destruct (calculate_refraction_cases gD)
    as [[_ E] | [(_ & _ & E) | (Hel & Hal & _)]]; cbv zeta in *.
  - rewrite E. reflexivity.
  - rewrite E. reflexivity.
  - exfalso. rewrite DD in Hal. rewrite SunD in Hel.
    destruct H as [H | H]; [lia | lra].
Qed.

Lemma pressure_untouched_without_lapse_witness :
  exists p gB g',
    CalcTruePres
      (snd (CalcTrueTemp
              (ReadBMP280TP (press_word daylight_poll)
                 (temp_word daylight_poll) reference_globals)))
    = Some (p, gB) /\
    pipeline_cycle (fun d => d) daylight_poll reference_globals = Some g' /\
    BMP390_h.Pressure (BMP280 g') = BMP390_h.Pressure (BMP280 gB).
Proof.
  assert (H : Communications_h.altitude (Date_Clock reference_globals) <= 0 \/
              (ElAndAzComp_h.elevation
                 (SUN (ClockAndDataReader (command daylight_poll)
                         reference_globals)) <= 0)%R)
    by (left; vm_compute; discriminate).
  exact (pressure_untouched_without_lapse (fun d => d) daylight_poll
           reference_globals H).
Defined.

(** X10. The altitude-lapse factor accumulates: while the sun is up and the
    observer is above sea level, [n] calls of correct_solar_angles without
    a fresh pressure in between (CalcTruePres taking its guard) leave
    BMP280.Pressure multiplied by the [n]-th power of the factor. *)
Theorem lapse_factor_accumulates (n : nat) (g : Globals) :
  (0 < ElAndAzComp_h.elevation (SUN g))%R ->
  0 < Communications_h.altitude (Date_Clock g) ->
  BMP390_h.Pressure (BMP280 (Nat.iter n correct_solar_angles g)) =
  (BMP390_h.Pressure (BMP280 g)
   * lapse_factor (Communications_h.altitude (Date_Clock g)) ^ n)%R.
Proof.
  intros Hel Hal.
  assert (I : ElAndAzComp_h.elevation
                (SUN (Nat.iter n correct_solar_angles g)) =
              ElAndAzComp_h.elevation (SUN g) /\
              Date_Clock (Nat.iter n correct_solar_angles g) = Date_Clock g /\
              BMP390_h.Pressure (BMP280 (Nat.iter n correct_solar_angles g)) =
              (BMP390_h.Pressure (BMP280 g)
               * lapse_factor (Communications_h.altitude (Date_Clock g)) ^ n)%R).
  { induction n as [| n IH].
    - cbn. repeat split. lra.
    - destruct IH as (IE & ID & IP).
      change (Nat.iter (S n) correct_solar_angles g)
        with (correct_solar_angles (Nat.iter n correct_solar_angles g)).
      set (gn := Nat.iter n correct_solar_angles g) in *.
      destruct (correct_solar_angles_effect gn)
        as (SS & _ & _ & E1 & _ & EP).
      destruct SS as (_ & _ & _ & _ & DD).
      split; [congruence |]. split; [congruence |].
      rewrite EP.
      destruct (calculate_refraction_cases gn)
        as [[Hn _] | [(_ & Hn & _) | (_ & _ & E)]]; cbv zeta in *.
      + rewrite IE in Hn. lra.
      + rewrite ID in Hn. lia.
      + rewrite E. cbn [BMP280 set_BMP280 BMP390_h.set_Pressure
                        BMP390_h.Pressure].
        rewrite IP, ID. cbn [pow]. ring. }
  apply I.
Qed.

Lemma lapse_factor_accumulates_witness :
  BMP390_h.Pressure
    (BMP280 (Nat.iter 3 correct_solar_angles
               (ClockAndDataReader (Angles 180 10) station_100m))) =
  (BMP390_h.Pressure
     (BMP280 (ClockAndDataReader (Angles 180 10) station_100m))
   * lapse_factor
       (Communications_h.altitude
          (Date_Clock (ClockAndDataReader (Angles 180 10) station_100m)))
     ^ 3)%R.
Proof.
  apply (lapse_factor_accumulates 3
           (ClockAndDataReader (Angles 180 10) station_100m)).
  - cbn. lra.
  - vm_compute. reflexivity.
Defined.

(** ** The humidity sensor *)

(** X11. Each call of Separator writes exactly one of the two readings and
    leaves the other: either a temperature, which then lies in
    [-46.85, 128.87), or a relative humidity, which then lies in
    [-6, 119). Nothing clamps the humidity to 0..100. *)
Theorem Separator_output_ranges (CRC8MAXIM : Z -> Z) (data : Z)
    (g : Globals) :
  let g' := snd (Separator CRC8MAXIM data g) in
  (SHT45_h.RH (SHT21 g') = SHT45_h.RH (SHT21 g) /\
   (-46.85 <= SHT45_h.T (SHT21 g') < 128.87)%R) \/
  (SHT45_h.T (SHT21 g') = SHT45_h.T (SHT21 g) /\
   (-6 <= SHT45_h.RH (SHT21 g') < 119)%R).
Proof.
  cbv zeta. unfold Separator. rewrite land_2_testbit, negb_involutive.
  pose proof (to_uint16_range (CRC8MAXIM data)) as Hr.
  set (r := to_uint16 (CRC8MAXIM data)) in *.
  destruct (Z.testbit r 1) eqn:Hb; cbn.
  - right. split; [reflexivity |].
    pose proof (uint16_bit1_ge_2 r Hr Hb) as Hge.
    unfold to_uint32, wrap_unsigned. rewrite Z.mod_small by lia.
    assert (H0 : (0 <= IZR (r - 2))%R) by (apply IZR_le; lia).
    assert (H1 : (IZR (r - 2) <= 65533)%R) by (apply IZR_le; lia).
    split; lra.
  - left. split; [reflexivity |].
    unfold in_uint16 in Hr.
    assert (H0 : (0 <= IZR r)%R) by (apply IZR_le; lia).
    assert (H1 : (IZR r <= 65535)%R) by (apply IZR_le; lia).
    split; lra.
Qed.

Lemma all_bytes_complete (P : Z -> bool) :
  forallb P all_bytes = true -> forall r, 0 <= r < 256 -> P r = true.
Proof.
  intros H r Hr. rewrite forallb_forall in H. apply H.
  unfold all_bytes. apply in_map_iff. exists (Z.to_nat r).
  split; [lia |]. apply in_seq. lia.
Qed.

Lemma user_register_reserved_bits (reader : Z) :
  0 <= reader < 256 ->
  to_uint8
    (to_uint8 (Z.land reader RESOLUTION_ADD)
     + Z.shiftl
         (to_uint8 (Z.shiftr (Z.land reader (Z.shiftl ON HEATER_ADD)) HEATER_ADD))
         HEATER_ADD
     + Z.shiftl
         (to_uint8 (Z.shiftr (Z.land reader (Z.shiftl ON OTP_ADD)) OTP_ADD))
         OTP_ADD
     + Z.shiftl
         (to_uint8
            (Z.shiftr (Z.land reader (Z.shiftl ON BATTERY_ADD)) BATTERY_ADD))
         BATTERY_ADD)
  = Z.land reader 0xC7.
Proof.
  intros Hr. apply Z.eqb_eq.
  revert reader Hr.
  apply (all_bytes_complete
           (fun reader =>
              to_uint8
                (to_uint8 (Z.land reader RESOLUTION_ADD)
                 + Z.shiftl
                     (to_uint8 (Z.shiftr (Z.land reader (Z.shiftl ON HEATER_ADD))
                                  HEATER_ADD)) HEATER_ADD
                 + Z.shiftl
                     (to_uint8 (Z.shiftr (Z.land reader (Z.shiftl ON OTP_ADD))
                                  OTP_ADD)) OTP_ADD
                 + Z.shiftl
                     (to_uint8
                        (Z.shiftr (Z.land reader (Z.shiftl ON BATTERY_ADD))
                           BATTERY_ADD)) BATTERY_ADD)
              =? Z.land reader 0xC7)).
  vm_compute. reflexivity.
Qed.

Lemma land_1_testbit (x : Z) : (Z.land x 1 =? 0) = negb (Z.testbit x 0).
Proof.
  assert (E : Z.land x 1 = x mod 2) by exact (Z.land_ones x 1 ltac:(lia)).
  rewrite E, <- Z.bit0_mod. destruct (Z.testbit x 0); reflexivity.
Qed.

(** X12. The user register of the humidity sensor. Decoding the byte that
    SHT21_Settings_Write sends gives back the four settings it was built
    from, for every setting the data sheet allows. The other way round,
    writing back what SHT21_Settings_Read decoded from a byte sends that
    byte with bits 3, 4 and 5 cleared; this is what SHT21_Reset writes
    when asked to save. *)
Theorem user_register_round_trip (g : Globals) (reader save : Z) :
  (valid_settings (SHT21 g) ->
   SHT21 (SHT21_Settings_Read (SHT21_Settings_Write g) g) = SHT21 g) /\
  (0 <= reader < 256 ->
   SHT21_Settings_Write (SHT21_Settings_Read reader g) = Z.land reader 0xC7) /\
  (0 <= reader < 256 -> Z.testbit save 0 = true ->
   snd (SHT21_Reset reader save g) = Some (Z.land reader 0xC7)) /\
  (Z.testbit save 0 = false -> snd (SHT21_Reset reader save g) = None).
Proof.
  split; [| split; [| split]].
  - unfold valid_settings, SHT21_Settings_Read, SHT21_Settings_Write.
    destruct (SHT21 g) as [otp heat res batt t rh fault e]. cbn.
    intros (Hres & Hheat & Hotp & Hbatt).
    destruct Hres as [-> | [-> | [-> | ->]]];
      destruct Hheat as [-> | ->]; destruct Hotp as [-> | ->];
      destruct Hbatt as [-> | ->]; reflexivity.
  - intros Hr. unfold SHT21_Settings_Write, SHT21_Settings_Read. cbn.
    apply user_register_reserved_bits. exact Hr.
  - intros Hr Hs. unfold SHT21_Reset.
    rewrite land_1_testbit, Hs. cbn [negb snd]. f_equal.
    unfold SHT21_Settings_Write, SHT21_Settings_Read. cbn.
    apply user_register_reserved_bits. exact Hr.
  - intros Hs. unfold SHT21_Reset. rewrite land_1_testbit, Hs. reflexivity.
Qed.

(** ** Altitude on proper input *)

Lemma uncomp_of_positive_pressure (g : Globals) :
  (0 < BMP390_h.Pressure (BMP280 g))%R ->
  Altitude_h.UNCOMP (Altitude (AltitudeAverage g)) =
  Val (barometric (BMP390_h.Pressure (BMP280 g))).
Proof.
  intros HP.
  cbn [AltitudeAverage Altitude set_Altitude Altitude_h.UNCOMP].
  rewrite pressure_ratio_val. unfold cpow.
  assert (Hq : (0 < BMP390_h.Pressure (BMP280 g)
                    / Altitude_h.SEA_LEVEL_PRESSURE)%R).
  { unfold Altitude_h.SEA_LEVEL_PRESSURE. apply Rdiv_lt_0_compat; lra. }
  destruct (Rlt_dec 0 (BMP390_h.Pressure (BMP280 g)
                       / Altitude_h.SEA_LEVEL_PRESSURE)) as [_ | N];
    [| contradiction].
  reflexivity.
Qed.

Lemma comp_of_positive_adjusted (g : Globals) (a : R) :
  adjusted_pressure g = Val a -> (0 < a)%R ->
  calculate_adjusted_elevation g = Val (hypsometric (SHT45_h.T (SHT21 g)) a).
Proof.
  intros Ha Hp. unfold calculate_adjusted_elevation. cbv zeta. rewrite Ha.
  rewrite (cdiv_val Altitude_h.SEA_LEVEL_PRESSURE a) by lra.
  assert (Hq : (0 < Altitude_h.SEA_LEVEL_PRESSURE / a)%R).
  { unfold Altitude_h.SEA_LEVEL_PRESSURE. apply Rdiv_lt_0_compat; lra. }
  unfold clog.
  destruct (Rlt_dec 0 (Altitude_h.SEA_LEVEL_PRESSURE / a)) as [_ | N];
    [| contradiction].
  cbn [cadd].
  rewrite cdiv_val by (unfold Altitude_h.GRAVITY; lra).
  rewrite cdiv_val by (unfold Altitude_h.MOLAR_MASS_AIR; lra).
  reflexivity.
Qed.

(** X13. When is an altitude a number? The adjusted pressure P - e is
    always a real number [a]. Altitude.UNCOMP is a number exactly when the
    pressure is positive, and is then the barometric formula of it;
    Altitude.COMP is a number exactly when [a] is positive, and is then the
    hypsometric formula of temperature and [a]; with both positive
    Altitude.AVRG is their mean. *)
Theorem AltitudeAverage_numbers (g : Globals) :
  let r := Altitude (AltitudeAverage g) in
  let P := BMP390_h.Pressure (BMP280 g) in
  exists a : R,
    adjusted_pressure g = Val a /\
    ((0 < P)%R -> Altitude_h.UNCOMP r = Val (barometric P)) /\
    ((0 < a)%R ->
     Altitude_h.COMP r = Val (hypsometric (SHT45_h.T (SHT21 g)) a)) /\
    ((0 < P)%R /\ (0 < a)%R ->
     Altitude_h.AVRG r =
     Val ((barometric P + hypsometric (SHT45_h.T (SHT21 g)) a) / 2)) /\
    (is_nonfinite (Altitude_h.UNCOMP r) <-> (P <= 0)%R) /\
    (is_nonfinite (Altitude_h.COMP r) <-> (a <= 0)%R).
Proof.
  cbv zeta.
  destruct (adjusted_pressure_val g) as (a & Ha & _).
  exists a. split; [exact Ha |].
  assert (HU := uncomp_of_positive_pressure g).
  assert (HC : (0 < a)%R ->
               Altitude_h.COMP (Altitude (AltitudeAverage g)) =
               Val (hypsometric (SHT45_h.T (SHT21 g)) a)).
  { intros Hp. cbn [AltitudeAverage Altitude set_Altitude Altitude_h.COMP].
    apply comp_of_positive_adjusted; assumption. }
  split; [exact HU |]. split; [exact HC |]. split; [| split].
  - intros [HP Hp].
    specialize (HU HP). specialize (HC Hp).
    cbn [AltitudeAverage Altitude set_Altitude Altitude_h.COMP
         Altitude_h.UNCOMP Altitude_h.AVRG] in *.
    rewrite HU, HC. cbn [cadd]. apply cdiv_val. lra.
  - split.
    + intros Hn.
      destruct (Rle_dec (BMP390_h.Pressure (BMP280 g)) 0) as [L | G];
        [exact L |].
      rewrite HU in Hn by lra. contradiction.
    + intros HP.
      destruct (uncomp_of_nonpositive_pressure g) as [Un U0].
      cbv zeta in Un, U0.
      cbn [AltitudeAverage Altitude set_Altitude Altitude_h.UNCOMP].
      destruct (Req_dec_T (BMP390_h.Pressure (BMP280 g)) 0) as [E | NE].
      * rewrite (U0 E). exact I.
      * rewrite Un by lra. exact I.
  - split.
    + intros Hn.
      destruct (Rle_dec a 0) as [L | G]; [exact L |].
      rewrite HC in Hn by lra. contradiction.
    + intros Hp.
      cbn [AltitudeAverage Altitude set_Altitude Altitude_h.COMP].
      destruct (Req_dec_T a 0) as [E | NE].
      * subst a. apply comp_of_zero_adjusted. exact Ha.
      * rewrite (comp_of_negative_adjusted g a Ha) by lra. exact I.
Qed.

Lemma barometric_decreasing (P1 P2 : R) :
  (0 < P1 < P2)%R -> (barometric P2 < barometric P1)%R.
Proof.
  intros [H1 H2]. unfold barometric, Rpower, Altitude_h.SEA_LEVEL_PRESSURE.
  assert (Hq1 : (0 < P1 / 1013.25)%R) by (apply Rdiv_lt_0_compat; lra).
  assert (Hq : (P1 / 1013.25 < P2 / 1013.25)%R) by lra.
  assert (Hln : (ln (P1 / 1013.25) < ln (P2 / 1013.25))%R)
    by (apply ln_increasing; lra).
  assert (He : (exp (-0.1902632 * ln (P2 / 1013.25))
                < exp (-0.1902632 * ln (P1 / 1013.25)))%R)
    by (apply exp_increasing; lra).
  lra.
Qed.

Lemma barometric_sea_level : barometric Altitude_h.SEA_LEVEL_PRESSURE = 0%R.
Proof.
  unfold barometric, Rpower, Altitude_h.SEA_LEVEL_PRESSURE.
  replace (1013.25 / 1013.25)%R with 1%R by lra.
  rewrite ln_1, Rmult_0_r, exp_0. lra.
Qed.

(** X14. The uncompensated altitude is 0 at the sea-level pressure of
    1013.25 hPa and falls strictly as the pressure rises, so it is positive
    below 1013.25 hPa and negative above. At 1013.25 hPa and 0 percent
    humidity all three altitudes are 0, whatever the temperature. *)
Theorem AltitudeAverage_sea_level_and_monotone (g1 g2 : Globals) :
  let P1 := BMP390_h.Pressure (BMP280 g1) in
  let P2 := BMP390_h.Pressure (BMP280 g2) in
  ((0 < P1 < P2)%R ->
   exists u1 u2 : R,
     Altitude_h.UNCOMP (Altitude (AltitudeAverage g1)) = Val u1 /\
     Altitude_h.UNCOMP (Altitude (AltitudeAverage g2)) = Val u2 /\
     (u2 < u1)%R) /\
  (P1 = Altitude_h.SEA_LEVEL_PRESSURE ->
   Altitude_h.UNCOMP (Altitude (AltitudeAverage g1)) = Val 0) /\
  (P1 = Altitude_h.SEA_LEVEL_PRESSURE -> SHT45_h.RH (SHT21 g1) = 0%R ->
   Altitude (AltitudeAverage g1) =
   {| Altitude_h.UNCOMP := Val 0; Altitude_h.COMP := Val 0;
      Altitude_h.AVRG := Val 0 |}).
Proof.
  cbv zeta.
  assert (U0 : BMP390_h.Pressure (BMP280 g1) = Altitude_h.SEA_LEVEL_PRESSURE ->
               Altitude_h.UNCOMP (Altitude (AltitudeAverage g1)) = Val 0).
  { intros E. rewrite uncomp_of_positive_pressure
      by (rewrite E; unfold Altitude_h.SEA_LEVEL_PRESSURE; lra).
    rewrite E, barometric_sea_level. reflexivity. }
  split; [| split; [exact U0 |]].
  - intros [H1 H2].
    exists (barometric (BMP390_h.Pressure (BMP280 g1))),
           (barometric (BMP390_h.Pressure (BMP280 g2))).
    split; [apply uncomp_of_positive_pressure; lra |].
    split; [apply uncomp_of_positive_pressure; lra |].
    apply barometric_decreasing. lra.
  - intros E HRH. specialize (U0 E).
    destruct (vapor_pressure_val g1) as (e & He & _).
    assert (He0 : vapor_pressure g1 = Val 0).
    { unfold vapor_pressure in *. cbv zeta in *. rewrite HRH in *.
      rewrite (cdiv_val 0 100) in * by lra.
      destruct (cmul (Val Altitude_h.A)
                  (cexp (cdiv (cmul (Val Altitude_h.B)
                                 (Val (SHT45_h.T (SHT21 g1))))
                           (cadd (Val (SHT45_h.T (SHT21 g1)))
                              (Val Altitude_h.C))))) as [es | | |];
        cbn in He; try discriminate.
      - cbn. f_equal. lra.
      - unfold Rsgn in He. replace (0 / 100)%R with 0%R in He by lra.
        destruct (Rlt_dec 0 0); [lra |]. discriminate.
      - unfold Rsgn in He. replace (0 / 100)%R with 0%R in He by lra.
        destruct (Rlt_dec 0 0); [lra |]. discriminate. }
    assert (Ha : adjusted_pressure g1 = Val Altitude_h.SEA_LEVEL_PRESSURE).
    { unfold adjusted_pressure. rewrite He0, E. cbn. f_equal. lra. }
    assert (HC : calculate_adjusted_elevation g1 = Val 0).
    { rewrite (comp_of_positive_adjusted g1 _ Ha)
        by (unfold Altitude_h.SEA_LEVEL_PRESSURE; lra).
      f_equal. unfold hypsometric, Altitude_h.SEA_LEVEL_PRESSURE.
      replace (1013.25 / 1013.25)%R with 1%R by lra.
      rewrite ln_1. lra. }
    cbn [AltitudeAverage Altitude set_Altitude Altitude_h.UNCOMP] in *.
    rewrite U0, HC. cbn [cadd]. rewrite cdiv_val by lra.
    f_equal. f_equal. lra.
Qed.

(** ** Communications.c and Windows.c: the settings editor *)

Lemma to_uint8_id (z : Z) : 0 <= z < 256 -> to_uint8 z = z.
Proof.
  intros H. unfold to_uint8, wrap_unsigned. change (2 ^ 8) with 256.
  apply Z.mod_small. exact H.
Qed.

Lemma to_int_id (z : Z) : - 32768 <= z < 32768 -> to_int z = z.
Proof.
  intros H. apply to_int16_id. unfold in_int16.
  change (2 ^ 15) with 32768. exact H.
Qed.

Lemma to_uint_id (z : Z) : 0 <= z < 65536 -> to_uint z = z.
Proof.
  intros H. apply to_uint16_id. unfold in_uint16.
  change (2 ^ 16) with 65536. exact H.
Qed.

Lemma to_int8_id (z : Z) : - 128 <= z < 128 -> to_int8 z = z.
Proof.
  intros H. unfold to_int8, wrap_signed.
  change (2 ^ (8 - 1)) with 128. change (2 ^ 8) with 256.
  rewrite Z.mod_small; lia.
Qed.

Lemma isLeapYear_gregorian (year : Z) :
  0 <= year -> isLeapYear year = if gregorian_leap year then 1 else 0.
Proof.
  intros H. unfold isLeapYear, gregorian_leap, c_mod.
  rewrite !Z.rem_mod_nonneg by lia. reflexivity.
Qed.

Lemma month_cases (m : Z) :
  1 <= m <= 12 ->
  m = 1 \/ m = 2 \/ m = 3 \/ m = 4 \/ m = 5 \/ m = 6 \/
  m = 7 \/ m = 8 \/ m = 9 \/ m = 10 \/ m = 11 \/ m = 12.
Proof. lia. Qed.

Lemma isValidDateTime_cases (year month day hour minute second : Z) :
  (isValidDateTime year month day hour minute second = Some 0 /\
   valid_date_time year month day hour minute second) \/
  (isValidDateTime year month day hour minute second = Some 1 /\
   ~ valid_date_time year month day hour minute second).
Proof.
  unfold isValidDateTime, valid_date_time.
  destruct (year <? 1) eqn:Ey; cbn [orb].
  { right. split; [reflexivity | lia]. }
  destruct (month <? 1) eqn:Em1; cbn [orb].
  { right. split; [reflexivity | lia]. }
  destruct (12 <? month) eqn:Em12.
  { right. split; [reflexivity | lia]. }
  rewrite isLeapYear_gregorian by lia.
  destruct (day <? 1) eqn:Ed.
  { destruct (gregorian_leap year); right; (split; [reflexivity | lia]). }
  assert (Hm : 1 <= month <= 12) by lia.
  destruct (month_cases month Hm)
    as [->|[->|[->|[->|[->|[->|[->|[->|[->|[->|[->| ->]]]]]]]]]]];
    unfold days_in_month; destruct (gregorian_leap year);
    match goal with
    | |- context [Z.to_nat ?e] =>
        let v := eval vm_compute in (Z.to_nat e) in
        change (Z.to_nat e) with v
    end;
    cbn -[Z.ltb Z.leb];
    match goal with
    | |- context [?n <? day] => destruct (n <? day) eqn:E1
    end; cbn [orb];
    try (right; split; [reflexivity | lia]);
    destruct (23 <? hour) eqn:E2; cbn [orb];
    try (right; split; [reflexivity | lia]);
    destruct (59 <? minute) eqn:E3; cbn [orb];
    try (right; split; [reflexivity | lia]);
    destruct (59 <? second) eqn:E4;
    try (right; split; [reflexivity | lia]);
    left; (split; [reflexivity | lia]).
Qed.

(** X15. isValidDateTime always returns, without reading outside its
    table of month lengths, and returns 0 exactly for a year from 1 on, a
    month from 1 to 12, a day that exists in that month of the Gregorian
    calendar (29 February in leap years only), an hour up to 23 and a
    minute and second up to 59; otherwise it returns 1. *)
Theorem isValidDateTime_decides (year month day hour minute second : Z) :
  exists r,
    isValidDateTime year month day hour minute second = Some r /\
    (r = 0 \/ r = 1) /\
    (r = 0 <-> valid_date_time year month day hour minute second).
Proof.
  destruct (isValidDateTime_cases year month day hour minute second)
    as [[E V] | [E V]]; rewrite E.
  - exists 0. split; [reflexivity |]. split; [left; reflexivity |].
    split; intros _; [exact V | reflexivity].
  - exists 1. split; [reflexivity |]. split; [right; reflexivity |].
    split; [discriminate | intros V'; contradiction].
Qed.

Lemma calculateValue_snoc (ds : list Z) (d : Z) :
  calculateValue (ds ++ [d]) = add64 (mul64 (calculateValue ds) 10) d.
Proof. unfold calculateValue. rewrite fold_left_app. reflexivity. Qed.

Lemma decimal_snoc (ds : list Z) (d : Z) :
  decimal (ds ++ [d]) = decimal ds * 10 + d.
Proof. unfold decimal. rewrite fold_left_app. reflexivity. Qed.

Lemma decimal_bound (ds : list Z) :
  Forall (fun d => 0 <= d < 256) ds ->
  0 <= 9 * decimal ds <= 255 * (10 ^ Z.of_nat (length ds) - 1).
Proof.
  induction ds as [| d ds IH] using rev_ind; intros H.
  - cbn. lia.
  - apply Forall_app in H. destruct H as [H Hd].
    apply Forall_inv in Hd. specialize (IH H).
    rewrite decimal_snoc, length_app, Nat2Z.inj_add.
    cbn [length]. change (Z.of_nat 1) with 1.
    rewrite Z.pow_add_r by lia. change (10 ^ 1) with 10. lia.
Qed.

(** calculateValue does not wrap for up to 17 digit bytes. *)
Lemma calculateValue_decimal (ds : list Z) :
  Forall (fun d => 0 <= d < 256) ds -> (length ds <= 17)%nat ->
  calculateValue ds = decimal ds.
Proof.
  induction ds as [| d ds IH] using rev_ind; intros H L.
  - reflexivity.
  - assert (H' := H). apply Forall_app in H'. destruct H' as [H0 Hd].
    apply Forall_inv in Hd.
    rewrite length_app in L. cbn [length] in L.
    rewrite calculateValue_snoc, decimal_snoc, IH by (assumption || lia).
    assert (B := decimal_bound ds H0).
    assert (P : 10 ^ Z.of_nat (length ds) <= 10 ^ 16)
      by (apply Z.pow_le_mono_r; lia).
    change (10 ^ 16) with 10000000000000000 in P.
    unfold add64, mul64.
    rewrite (to_int64_id (decimal ds * 10)).
    + apply to_int64_id. unfold in_int64.
      change (2 ^ 63) with 9223372036854775808. lia.
    + unfold in_int64. change (2 ^ 63) with 9223372036854775808. lia.
Qed.

Lemma digits_at_cons (a : list Z) (k n : nat) (x : Z) (l : list Z) :
  digits_at a k (S n) = x :: l ->
  nth k a 0 = x /\ digits_at a (S k) n = l.
Proof.
  unfold digits_at. intros H.
  replace (nth k a 0) with (nth 0 (skipn k a) 0)
    by (rewrite nth_skipn; f_equal; lia).
  replace (skipn (S k) a) with (skipn 1 (skipn k a))
    by (rewrite skipn_skipn; reflexivity).
  destruct (skipn k a) as [| y r]; [discriminate |].
  cbn in H. injection H as -> <-. split; reflexivity.
Qed.

Ltac split_digits H :=
  repeat match type of H with
  | digits_at _ _ (S _) = _ :: _ =>
      let E := fresh "D" in
      apply digits_at_cons in H; destruct H as [E H]
  end.

Lemma set_altitude_same (g : Globals) :
  set_altitude (Communications_h.altitude (Date_Clock g)) g = g.
Proof. destruct g as [b s u d a]. destruct d. reflexivity. Qed.

Lemma entered_altitude_of_digits (a : list Z) (g : Globals) :
  let alt := Communications_h.altitude (Date_Clock g) in
  - 32767 <= alt <= 32767 ->
  digits_at a 17 5 = altitude_digits g ->
  entered_altitude a = Z.sgn alt * (Z.abs alt mod 10000).
Proof.
  intros alt R H. unfold altitude_digits in H. cbn [map] in H.
  unfold extractDigitFromAltitude in H. cbn [Z.eqb Pos.eqb] in H.
  fold alt in H.
  apply digits_at_cons in H. destruct H as [D0 H].
  assert (Habs : c_abs alt = Z.abs alt)
    by (unfold c_abs; apply to_int_id; lia).
  rewrite Habs in H. unfold c_div, c_mod in H.
  set (m := Z.abs alt) in *.
  assert (Hm : 0 <= m <= 32767) by (unfold m; lia).
  rewrite !Z.quot_div_nonneg in H by lia.
  rewrite !Z.rem_mod_nonneg in H
    by (try apply Z.div_pos; lia).
  assert (B1 : 0 <= (m / 1000) mod 10 < 10) by (apply Z.mod_pos_bound; lia).
  assert (B2 : 0 <= (m / 100) mod 10 < 10) by (apply Z.mod_pos_bound; lia).
  assert (B3 : 0 <= (m / 10) mod 10 < 10) by (apply Z.mod_pos_bound; lia).
  assert (B4 : 0 <= m mod 10 < 10) by (apply Z.mod_pos_bound; lia).
  rewrite !to_uint8_id in H by lia.
  unfold entered_altitude. rewrite H, D0.
  rewrite calculateValue_decimal
    by (try (repeat constructor; lia); cbn; lia).
  cbn [decimal fold_left].
  assert (V : (((0 * 10 + (m / 1000) mod 10) * 10 + (m / 100) mod 10) * 10
               + (m / 10) mod 10) * 10 + m mod 10 = m mod 10000).
  { clear - Hm. Z.div_mod_to_equations. lia. }
  rewrite V.
  assert (BV : 0 <= m mod 10000 < 10000) by (apply Z.mod_pos_bound; lia).
  unfold applySign.
  destruct (alt <? 0) eqn:S0.
  - apply Z.ltb_lt in S0. rewrite to_uint8_id by lia.
    change (1 =? 0) with false. cbn match.
    rewrite (to_int_id (m mod 10000)) by lia.
    rewrite (to_int_id (- (m mod 10000))) by lia. rewrite to_int16_id
      by (unfold in_int16; change (2 ^ 15) with 32768; lia).
    rewrite Z.sgn_neg by lia. lia.
  - apply Z.ltb_ge in S0. rewrite to_uint8_id by lia.
    change (0 =? 0) with true. cbn match.
    rewrite (to_int_id (m mod 10000)) by lia. rewrite to_int16_id
      by (unfold in_int16; change (2 ^ 15) with 32768; lia).
    destruct (Z.eq_dec alt 0) as [E | E].
    + replace m with 0 by (unfold m; lia).
      change (0 mod 10000) with 0. lia.
    + rewrite Z.sgn_pos by lia. lia.
Qed.

Lemma two_digits (f : Z) :
  0 <= f <= 99 ->
  to_uint8 (to_uint8 (c_mod (c_div f 10) 10) * 10 + to_uint8 (c_mod f 10)) = f.
Proof.
  intros H. unfold c_div, c_mod.
  rewrite Z.quot_div_nonneg by lia.
  rewrite !Z.rem_mod_nonneg by (try apply Z.div_pos; lia).
  assert (B1 : 0 <= (f / 10) mod 10 < 10) by (apply Z.mod_pos_bound; lia).
  assert (B2 : 0 <= f mod 10 < 10) by (apply Z.mod_pos_bound; lia).
  rewrite (to_uint8_id ((f / 10) mod 10)) by lia.
  rewrite (to_uint8_id (f mod 10)) by lia.
  rewrite to_uint8_id by lia.
  clear B1 B2. Z.div_mod_to_equations. lia.
Qed.

Lemma four_digits (y : Z) :
  0 <= y <= 9999 ->
  to_uint (to_uint (to_uint (to_uint (to_uint8 (c_mod (c_div y 1000) 10) * 1000)
                             + to_uint (to_uint8 (c_mod (c_div y 100) 10) * 100))
                    + to_uint8 (c_mod (c_div y 10) 10) * 10)
           + to_uint8 (c_mod y 10)) = y.
Proof.
  intros H. unfold c_div, c_mod.
  rewrite !Z.quot_div_nonneg by lia.
  rewrite !Z.rem_mod_nonneg by (try apply Z.div_pos; lia).
  assert (B1 : 0 <= (y / 1000) mod 10 < 10) by (apply Z.mod_pos_bound; lia).
  assert (B2 : 0 <= (y / 100) mod 10 < 10) by (apply Z.mod_pos_bound; lia).
  assert (B3 : 0 <= (y / 10) mod 10 < 10) by (apply Z.mod_pos_bound; lia).
  assert (B4 : 0 <= y mod 10 < 10) by (apply Z.mod_pos_bound; lia).
  rewrite (to_uint8_id ((y / 1000) mod 10)) by lia.
  rewrite (to_uint8_id ((y / 100) mod 10)) by lia.
  rewrite (to_uint8_id ((y / 10) mod 10)) by lia.
  rewrite (to_uint8_id (y mod 10)) by lia.
  rewrite (to_uint_id ((y / 1000) mod 10 * 1000)) by lia.
  rewrite (to_uint_id ((y / 100) mod 10 * 100)) by lia.
  rewrite (to_uint_id ((y / 1000) mod 10 * 1000 + (y / 100) mod 10 * 100))
    by lia.
  rewrite (to_uint_id ((y / 1000) mod 10 * 1000 + (y / 100) mod 10 * 100
                       + (y / 10) mod 10 * 10)) by lia.
  rewrite to_uint_id by lia.
  clear B1 B2 B3 B4. Z.div_mod_to_equations. lia.
Qed.

Lemma entered_time_of_digits (a : list Z) (g : Globals) :
  let d := Date_Clock g in
  0 <= Communications_h.year d <= 9999 ->
  0 <= Communications_h.month d <= 99 ->
  0 <= Communications_h.day d <= 99 ->
  0 <= Communications_h.hour d <= 99 ->
  0 <= Communications_h.minute d <= 99 ->
  0 <= Communications_h.second d <= 99 ->
  digits_at a 0 14 = time_digits g ->
  entered_year a = Communications_h.year d /\
  entered_field a 4 = Communications_h.month d /\
  entered_field a 6 = Communications_h.day d /\
  entered_field a 8 = Communications_h.hour d /\
  entered_field a 10 = Communications_h.minute d /\
  entered_field a 12 = Communications_h.second d.
Proof.
  intros d Hy Hmo Hd Hh Hmi Hs H.
  unfold time_digits in H. cbn [map] in H.
  unfold extractDigitFromTime in H. cbn [Z.eqb Pos.eqb] in H. fold d in H.
  split_digits H.
  unfold entered_year, entered_field.
  rewrite D, D0, D1, D2, D3, D4, D5, D6, D7, D8, D9, D10, D11, D12.
  rewrite four_digits by exact Hy.
  rewrite !two_digits by assumption.
  repeat split; reflexivity.
Qed.

Lemma entered_timezone_of_digits (a : list Z) (g : Globals) :
  let tz := Communications_h.timezone (Date_Clock g) in
  - 99 <= tz <= 99 ->
  digits_at a 14 3 = timezone_digits g ->
  entered_timezone a = tz.
Proof.
  intros tz R H. unfold timezone_digits in H. cbn [map] in H.
  unfold extractDigitFromTimeZone in H. cbn [Z.eqb Pos.eqb] in H.
  fold tz in H.
  apply digits_at_cons in H. destruct H as [D0 H].
  assert (Habs : c_abs tz = Z.abs tz)
    by (unfold c_abs; apply to_int_id; lia).
  rewrite Habs in H. unfold c_div, c_mod in H.
  set (m := Z.abs tz) in *.
  assert (Hm : 0 <= m <= 99) by (unfold m; lia).
  rewrite !Z.quot_div_nonneg in H by lia.
  rewrite !Z.rem_mod_nonneg in H by (try apply Z.div_pos; lia).
  assert (B1 : 0 <= (m / 10) mod 10 < 10) by (apply Z.mod_pos_bound; lia).
  assert (B2 : 0 <= m mod 10 < 10) by (apply Z.mod_pos_bound; lia).
  rewrite !to_uint8_id in H by lia.
  unfold entered_timezone. rewrite H, D0.
  rewrite calculateValue_decimal
    by (try (repeat constructor; lia); cbn; lia).
  cbn [decimal fold_left].
  assert (V : (0 * 10 + (m / 10) mod 10) * 10 + m mod 10 = m).
  { clear - Hm. Z.div_mod_to_equations. lia. }
  rewrite V. unfold applySign.
  destruct (tz <? 0) eqn:S0.
  - apply Z.ltb_lt in S0. rewrite to_uint8_id by lia.
    change (1 =? 0) with false. cbn match.
    rewrite (to_int_id m) by lia.
    rewrite (to_int_id (- m)) by lia. rewrite to_int8_id by lia.
    unfold m. lia.
  - apply Z.ltb_ge in S0. rewrite to_uint8_id by lia.
    change (0 =? 0) with true. cbn match.
    rewrite (to_int_id m) by lia. rewrite to_int8_id by lia.
    unfold m. lia.
Qed.

Lemma ValidateNewData_cases (a : list Z) (g : Globals) :
  (exists step,
     ValidateNewData a g = Some (step, 21, g) /\
     (step = 0 \/ step = 14 \/ step = 17 \/ step = 22 \/ step = 30) /\
     ~ (valid_date_time (entered_year a) (entered_field a 4)
          (entered_field a 6) (entered_field a 8) (entered_field a 10)
          (entered_field a 12) /\
        - 12 <= entered_timezone a <= 12 /\
        - 500 <= entered_altitude a <= 9000 /\
        (- 90 <= entered_latitude a <= 90)%R /\
        (- 180 <= entered_longitude a <= 180)%R)) \/
  (ValidateNewData a g = Some (0, 0, set_altitude (entered_altitude a) g) /\
   valid_date_time (entered_year a) (entered_field a 4)
     (entered_field a 6) (entered_field a 8) (entered_field a 10)
     (entered_field a 12) /\
   - 12 <= entered_timezone a <= 12 /\
   - 500 <= entered_altitude a <= 9000 /\
   (- 90 <= entered_latitude a <= 90)%R /\
   (- 180 <= entered_longitude a <= 180)%R).
Proof.
  unfold ValidateNewData. cbv zeta.
  destruct (isValidDateTime_cases (entered_year a) (entered_field a 4)
              (entered_field a 6) (entered_field a 8) (entered_field a 10)
              (entered_field a 12)) as [[E V] | [E V]]; rewrite E.
  2:{ left. exists 0. change (1 =? 1) with true. cbn match.
      split; [reflexivity |]. split; [tauto |]. tauto. }
  change (0 =? 1) with false. cbn match.
  unfold isValidTimeZone.
  destruct ((entered_timezone a <? -12) || (12 <? entered_timezone a)) eqn:Etz.
  { left. exists 14. change (1 =? 1) with true. cbn match.
    split; [reflexivity |]. split; [tauto |].
    apply orb_true_iff in Etz. intros (_ & T & _). lia. }
  apply orb_false_iff in Etz. destruct Etz as [Etz1 Etz2].
  change (0 =? 1) with false. cbn match.
  unfold isValidAltitude.
  destruct ((entered_altitude a <? -500) || (9000 <? entered_altitude a))
    eqn:Ealt.
  { left. exists 17. change (1 =? 1) with true. cbn match.
    split; [reflexivity |]. split; [tauto |].
    apply orb_true_iff in Ealt. intros (_ & _ & T & _). lia. }
  apply orb_false_iff in Ealt. destruct Ealt as [Ealt1 Ealt2].
  change (0 =? 1) with false. cbn match.
  unfold isValidLatitude.
  destruct (Rlt_dec (entered_latitude a) (-90)) as [L1 | L1].
  { left. exists 22. change (1 =? 1) with true. cbn match.
    split; [reflexivity |]. split; [tauto |].
    intros (_ & _ & _ & T & _). lra. }
  destruct (Rlt_dec 90 (entered_latitude a)) as [L2 | L2].
  { left. exists 22. change (1 =? 1) with true. cbn match.
    split; [reflexivity |]. split; [tauto |].
    intros (_ & _ & _ & T & _). lra. }
  change (0 =? 1) with false. cbn match.
  unfold isValidLongitude.
  destruct (Rlt_dec (entered_longitude a) (-180)) as [G1 | G1].
  { left. exists 30. change (1 =? 1) with true. cbn match.
    split; [reflexivity |]. split; [tauto |].
    intros (_ & _ & _ & _ & T). lra. }
  destruct (Rlt_dec 180 (entered_longitude a)) as [G2 | G2].
  { left. exists 30. change (1 =? 1) with true. cbn match.
    split; [reflexivity |]. split; [tauto |].
    intros (_ & _ & _ & _ & T). lra. }
  change (0 =? 1) with false. cbn match.
  right. split; [reflexivity |]. split; [exact V |].
  split; [lia |]. split; [lia |]. split; lra.
Qed.

Lemma set_altitude_altitude (v : Z) (g : Globals) :
  Communications_h.altitude (Date_Clock (set_altitude v g)) = v.
Proof. reflexivity. Qed.

Lemma digits_at_app (a : list Z) (k n m : nat) (l r : list Z) :
  digits_at a k (n + m) = l ++ r -> length l = n ->
  digits_at a k n = l /\ digits_at a (k + n) m = r.
Proof.
  unfold digits_at. intros H L. split.
  - assert (E : firstn n (firstn (n + m) (skipn k a)) = firstn n (l ++ r))
      by (rewrite H; reflexivity).
    rewrite firstn_firstn in E.
    replace (Nat.min n (n + m)) with n in E by lia.
    rewrite E, firstn_app, L, Nat.sub_diag. cbn [firstn].
    rewrite <- L, firstn_all, app_nil_r. reflexivity.
  - replace (skipn (k + n) a) with (skipn n (skipn k a))
      by (rewrite skipn_skipn; f_equal; lia).
    assert (E : skipn n (firstn (n + m) (skipn k a)) = skipn n (l ++ r))
      by (rewrite H; reflexivity).
    rewrite skipn_firstn_comm in E.
    replace (n + m - n)%nat with m in E by lia.
    rewrite E, skipn_app, L, Nat.sub_diag. cbn [skipn].
    rewrite <- L, skipn_all. reflexivity.
Qed.

(** X16. The altitude field of the settings editor keeps four digits and
    a sign: when entries 17..21 of the editor's array are the digits
    extractDigitFromAltitude gives for the stored altitude,
    ValidateNewData decodes the altitude's sign times its last four
    decimal digits, hence the altitude itself whenever it has at most
    four digits. *)
Theorem altitude_digits_round_trip (a : list Z) (g : Globals) :
  - 32767 <= Communications_h.altitude (Date_Clock g) <= 32767 ->
  digits_at a 17 5 = altitude_digits g ->
  entered_altitude a =
    Z.sgn (Communications_h.altitude (Date_Clock g))
    * (Z.abs (Communications_h.altitude (Date_Clock g)) mod 10000) /\
  (Z.abs (Communications_h.altitude (Date_Clock g)) <= 9999 ->
   entered_altitude a = Communications_h.altitude (Date_Clock g)).
Proof.
  intros R H.
  assert (E := entered_altitude_of_digits a g R H). cbv zeta in E.
  split; [exact E |].
  intros B. rewrite E. rewrite Z.mod_small by lia.
  rewrite Z.mul_comm. apply Z.abs_sgn.
Qed.

Lemma altitude_digits_round_trip_witness :
  entered_altitude editor_array = - 50 /\
  altitude_digits editor_state = [1; 0; 0; 5; 0].
Proof.
  assert (R : - 32767 <= Communications_h.altitude (Date_Clock editor_state)
              <= 32767) by (vm_compute; split; discriminate).
  assert (H : digits_at editor_array 17 5 = altitude_digits editor_state)
    by (vm_compute; reflexivity).
  assert (B : Z.abs (Communications_h.altitude (Date_Clock editor_state))
              <= 9999) by (vm_compute; discriminate).
  split.
  - exact (proj2 (altitude_digits_round_trip editor_array editor_state R H) B).
  - vm_compute. reflexivity.
Defined.

(** X17. ValidateNewData always returns, in one of two ways. Either
    some field is out of range: the editor stays open (key_held = 21),
    the cursor goes to step 0, 14, 17, 22 or 30 and no global changes.
    Or the date and time are valid, the time zone is within -12..12, the
    altitude within -500..9000, the latitude within -90..90 and the
    longitude within -180..180: the editor closes (key_held = 0, step 0)
    and only Date_Clock.altitude is written. An altitude within
    -500..9000 therefore stays within that range. *)
Theorem ValidateNewData_outcomes (a : list Z) (g : Globals) :
  exists step key g',
    ValidateNewData a g = Some (step, key, g') /\
    ((key = 21 /\ g' = g /\
      (step = 0 \/ step = 14 \/ step = 17 \/ step = 22 \/ step = 30) /\
      ~ (valid_date_time (entered_year a) (entered_field a 4)
           (entered_field a 6) (entered_field a 8) (entered_field a 10)
           (entered_field a 12) /\
         - 12 <= entered_timezone a <= 12 /\
         - 500 <= entered_altitude a <= 9000 /\
         (- 90 <= entered_latitude a <= 90)%R /\
         (- 180 <= entered_longitude a <= 180)%R)) \/
     (key = 0 /\ step = 0 /\ g' = set_altitude (entered_altitude a) g /\
      valid_date_time (entered_year a) (entered_field a 4)
        (entered_field a 6) (entered_field a 8) (entered_field a 10)
        (entered_field a 12) /\
      - 12 <= entered_timezone a <= 12 /\
      - 500 <= entered_altitude a <= 9000 /\
      (- 90 <= entered_latitude a <= 90)%R /\
      (- 180 <= entered_longitude a <= 180)%R)) /\
    (- 500 <= Communications_h.altitude (Date_Clock g) <= 9000 ->
     - 500 <= Communications_h.altitude (Date_Clock g') <= 9000).
Proof.
  destruct (ValidateNewData_cases a g) as [(step & E & S & N) | (E & V)].
  - exists step, 21, g. split; [exact E |]. split; [| tauto].
    left. split; [reflexivity |]. split; [reflexivity |].
    split; [exact S | exact N].
  - exists 0, 0, (set_altitude (entered_altitude a) g).
    split; [exact E |]. split.
    + right. split; [reflexivity |]. split; [reflexivity |].
      split; [reflexivity |]. exact V.
    + intros _. rewrite set_altitude_altitude.
      destruct V as (_ & _ & V & _). exact V.
Qed.

(** Settings that are confirmed as the clock holds them pass
    ValidateNewData and leave the globals as they were. *)
Lemma unchanged_settings_accepted (a : list Z) (g : Globals) :
  valid_date_time
    (Communications_h.year (Date_Clock g))
    (Communications_h.month (Date_Clock g))
    (Communications_h.day (Date_Clock g))
    (Communications_h.hour (Date_Clock g))
    (Communications_h.minute (Date_Clock g))
    (Communications_h.second (Date_Clock g)) ->
  Communications_h.year (Date_Clock g) <= 9999 ->
  0 <= Communications_h.hour (Date_Clock g) ->
  0 <= Communications_h.minute (Date_Clock g) ->
  0 <= Communications_h.second (Date_Clock g) ->
  - 12 <= Communications_h.timezone (Date_Clock g) <= 12 ->
  - 500 <= Communications_h.altitude (Date_Clock g) <= 9000 ->
  digits_at a 0 22 = time_digits g ++ timezone_digits g ++ altitude_digits g ->
  (- 90 <= entered_latitude a <= 90)%R ->
  (- 180 <= entered_longitude a <= 180)%R ->
  ValidateNewData a g = Some (0, 0, g).
Proof.
  intros V Hy Hh Hmi Hs Htz Halt H Hlat Hlon.
  assert (V' := V). destruct V' as (Y1 & M & D & H23 & M59 & S59).
  assert (D31 : days_in_month (Communications_h.year (Date_Clock g))
                  (Communications_h.month (Date_Clock g)) <= 31).
  { unfold days_in_month.
    destruct (_ =? 2); [destruct (gregorian_leap _); lia |].
    destruct (_ || _); lia. }
  apply (digits_at_app a 0 14 8) in H; [| reflexivity].
  destruct H as [Ht H]. cbn [Nat.add] in H.
  apply (digits_at_app a 14 3 5) in H; [| reflexivity].
  destruct H as [Hz Ha]. cbn [Nat.add] in Ha.
  destruct (entered_time_of_digits a g) as (E1 & E2 & E3 & E4 & E5 & E6);
    try lia; try exact Ht.
  assert (Ez := entered_timezone_of_digits a g). cbv zeta in Ez.
  specialize (Ez ltac:(lia) Hz).
  assert (Ea := entered_altitude_of_digits a g). cbv zeta in Ea.
  specialize (Ea ltac:(lia) Ha).
  assert (Ea' : entered_altitude a = Communications_h.altitude (Date_Clock g)).
  { rewrite Ea. rewrite Z.mod_small by lia.
    rewrite Z.mul_comm. apply Z.abs_sgn. }
  destruct (ValidateNewData_cases a g) as [(step & E & S & N) | (E & _)].
  - exfalso. apply N. rewrite E1, E2, E3, E4, E5, E6, Ez, Ea'.
    split; [exact V |]. split; [exact Htz |]. split; [exact Halt |].
    split; assumption.
  - rewrite E, Ea', set_altitude_same. reflexivity.
Qed.

(** ** ADC.c, Wind.c and SunLevel *)

Lemma ADC0_read_value (RES : Z) : ADC0_read RES = (RES mod 65536) / 16.
Proof.
  unfold ADC0_read, to_uint16, wrap_unsigned.
  rewrite Z.shiftr_div_pow2 by lia. reflexivity.
Qed.

Lemma ADC0_read_range (RES : Z) : 0 <= ADC0_read RES <= 4095.
Proof.
  rewrite ADC0_read_value.
  assert (H : 0 <= RES mod 65536 < 65536) by (apply Z.mod_pos_bound; lia).
  split.
  - apply Z.div_pos; lia.
  - assert (RES mod 65536 / 16 < 4096)
      by (apply Z.div_lt_upper_bound; lia).
    lia.
Qed.

Lemma Int_part_floor (x : R) (z : Z) :
  (IZR z <= x < IZR z + 1)%R -> Int_part x = z.
Proof.
  intros [H1 H2]. symmetry. apply Int_part_spec. split; lra.
Qed.

Lemma c_trunc_floor (x : R) (z : Z) :
  0 <= z -> (IZR z <= x < IZR z + 1)%R -> c_trunc x = z.
Proof.
  intros Hz H. unfold c_trunc.
  assert (0 <= IZR z)%R by (apply IZR_le; exact Hz).
  destruct (Rle_dec 0 x) as [P | P]; [| lra].
  apply Int_part_floor. exact H.
Qed.

Lemma c_round_IZR (z : Z) : 0 <= z -> c_round (IZR z) = IZR z.
Proof.
  intros Hz. unfold c_round.
  assert (0 <= IZR z)%R by (apply IZR_le; exact Hz).
  destruct (Rle_dec 0 (IZR z)) as [P | P]; [| lra].
  f_equal. apply Int_part_floor. lra.
Qed.

Lemma WindSpeed_floor (n : Z) :
  0 <= n ->
  c_trunc (IZR n * 0.00732421875)%R = n * 15 / 2048.
Proof.
  intros Hn. apply c_trunc_floor.
  - apply Z.div_pos; lia.
  - assert (E : n * 15 = 2048 * (n * 15 / 2048) + (n * 15) mod 2048)
      by (apply Z.div_mod; lia).
    assert (B : 0 <= (n * 15) mod 2048 < 2048)
      by (apply Z.mod_pos_bound; lia).
    set (q := n * 15 / 2048) in *. set (r := (n * 15) mod 2048) in *.
    assert (ER : (IZR n * 15 = 2048 * IZR q + IZR r)%R).
    { rewrite <- mult_IZR, <- (mult_IZR 2048), <- plus_IZR.
      f_equal. exact E. }
    assert (B1 : (0 <= IZR r)%R) by (apply IZR_le; lia).
    assert (B2 : (IZR r < 2048)%R) by (apply IZR_lt; lia).
    lra.
Qed.

(** X18. WindSpeed stores the whole metres per second of a 30 m/s
    full scale: with the 16-bit result register RES, the speed is
    floor(((RES mod 65536) >> 4) * 15 / 2048), which never exceeds 29,
    and the direction is left alone. *)
Theorem WindSpeed_value (RES : Z) (w : Wind_h.WindParam) :
  Wind_h.speed (WindSpeed RES w) = (RES mod 65536 / 16) * 15 / 2048 /\
  0 <= Wind_h.speed (WindSpeed RES w) <= 29 /\
  Wind_h.direction (WindSpeed RES w) = Wind_h.direction w.
Proof.
  assert (R := ADC0_read_range RES).
  assert (V : Wind_h.speed (WindSpeed RES w) = ADC0_read RES * 15 / 2048).
  { cbn [WindSpeed Wind_h.speed].
    rewrite WindSpeed_floor by lia.
    apply to_uint8_id.
    split; [apply Z.div_pos; lia |].
    apply Z.div_lt_upper_bound; lia. }
  split; [rewrite V, ADC0_read_value; reflexivity |].
  split; [| reflexivity].
  rewrite V. split; [apply Z.div_pos; lia |].
  assert (ADC0_read RES * 15 / 2048 < 30)
    by (apply Z.div_lt_upper_bound; lia).
  lia.
Qed.

Lemma WindDirection_cases (RES : Z) (w : Wind_h.WindParam) :
  Wind_h.speed (WindDirection RES w) = Wind_h.speed w /\
  (ADC0_read RES < 292 -> Wind_h.direction (WindDirection RES w) = 0) /\
  (3803 < ADC0_read RES -> Wind_h.direction (WindDirection RES w) = 7) /\
  (forall k, 1 <= k <= 6 ->
     585 * k - 146 <= ADC0_read RES <= 585 * k + 146 ->
     Wind_h.direction (WindDirection RES w) = k) /\
  (292 <= ADC0_read RES <= 3803 ->
   (forall k, 1 <= k <= 6 ->
      ADC0_read RES < 585 * k - 146 \/ 585 * k + 146 < ADC0_read RES) ->
   WindDirection RES w = w).
Proof.
  assert (R := ADC0_read_range RES).
  unfold WindDirection. cbv zeta.
  change Wind_h.WINDADCHALFSTEP with 292.
  change Wind_h.WINDADCSTEP with 585.
  change Wind_h.WINDDIRTOLERANCE with 146.
  change (Wind_h.WINDADCRES - 292) with 3803.
  remember (ADC0_read RES) as raw eqn:Eraw. clear Eraw.
  destruct (raw <? 292) eqn:E1.
  { apply Z.ltb_lt in E1. cbn [Wind_h.speed Wind_h.direction].
    split; [reflexivity |]. split; [reflexivity |].
    split; [lia |]. split; [intros k Hk Hr; lia | lia]. }
  apply Z.ltb_ge in E1.
  destruct (3803 <? raw) eqn:E2.
  { apply Z.ltb_lt in E2. cbn [Wind_h.speed Wind_h.direction].
    split; [reflexivity |]. split; [lia |]. split; [reflexivity |].
    split; [intros k Hk Hr; lia | lia]. }
  apply Z.ltb_ge in E2.
  rewrite (to_uint_id (raw + 292)) by lia.
  set (q := (raw + 292) / 585).
  assert (Q : 0 <= q <= 7).
  { unfold q. split; [apply Z.div_pos; lia |].
    assert ((raw + 292) / 585 < 8) by (apply Z.div_lt_upper_bound; lia).
    lia. }
  assert (QE : 585 * q <= raw + 292 < 585 * q + 585).
  { unfold q. clear. Z.div_mod_to_equations. lia. }
  rewrite (to_uint8_id q) by lia.
  rewrite (to_int_id (q * 585)) by lia.
  rewrite (to_uint16_id (q * 585))
    by (unfold in_uint16; change (2 ^ 16) with 65536; lia).
  rewrite (to_uint_id (q * 585 + 146)) by lia.
  destruct (Z.eq_dec q 0) as [Q0 | Q0].
  { rewrite Q0. change (to_uint (0 * 585 - 146)) with 65390.
    replace (65390 <=? raw) with false by (symmetry; apply Z.leb_gt; lia).
    cbn [andb]. split; [reflexivity |]. split; [lia |]. split; [lia |].
    split; [| reflexivity]. intros k Hk Hr. lia. }
  rewrite (to_uint_id (q * 585 - 146)) by lia.
  destruct ((q * 585 - 146 <=? raw) && (raw <=? q * 585 + 146)) eqn:E3.
  - apply andb_true_iff in E3. destruct E3 as [L U].
    apply Z.leb_le in L. apply Z.leb_le in U.
    cbn [Wind_h.speed Wind_h.direction].
    split; [reflexivity |]. split; [lia |]. split; [lia |].
    split.
    + intros k Hk Hr. lia.
    + intros _ Hd. exfalso.
      assert (Hq : 1 <= q <= 6) by lia.
      specialize (Hd q Hq). lia.
  - split; [reflexivity |]. split; [lia |]. split; [lia |].
    split; [| reflexivity].
    intros k Hk Hr. exfalso.
    apply andb_false_iff in E3.
    assert (k = q) by lia. subst k.
    destruct E3 as [E3 | E3]; apply Z.leb_gt in E3; lia.
Qed.

(** X19. WindDirection sorts the 12-bit reading into eight sectors with
    dead bands between them: a reading below 292 gives direction 0, one
    above 3803 gives 7, one within 146 counts of 585 k gives k for k from
    1 to 6, and any other reading leaves Wind as it was; the speed is
    never touched, and a direction within 0..7 stays within 0..7. *)
Theorem WindDirection_sectors (RES : Z) (w : Wind_h.WindParam) :
  Wind_h.speed (WindDirection RES w) = Wind_h.speed w /\
  (ADC0_read RES < 292 -> Wind_h.direction (WindDirection RES w) = 0) /\
  (3803 < ADC0_read RES -> Wind_h.direction (WindDirection RES w) = 7) /\
  (forall k, 1 <= k <= 6 ->
     585 * k - 146 <= ADC0_read RES <= 585 * k + 146 ->
     Wind_h.direction (WindDirection RES w) = k) /\
  (292 <= ADC0_read RES <= 3803 ->
   (forall k, 1 <= k <= 6 ->
      ADC0_read RES < 585 * k - 146 \/ 585 * k + 146 < ADC0_read RES) ->
   WindDirection RES w = w) /\
  (0 <= Wind_h.direction w <= 7 ->
   0 <= Wind_h.direction (WindDirection RES w) <= 7).
Proof.
  destruct (WindDirection_cases RES w) as (S & L & H & M & D).
  split; [exact S |]. split; [exact L |]. split; [exact H |].
  split; [exact M |]. split; [exact D |].
  intros B.
  destruct (Z_lt_dec (ADC0_read RES) 292) as [C1 | C1];
    [rewrite (L C1); lia |].
  destruct (Z_lt_dec 3803 (ADC0_read RES)) as [C2 | C2];
    [rewrite (H C2); lia |].
  assert (K : (exists k, 1 <= k <= 6 /\
                 585 * k - 146 <= ADC0_read RES <= 585 * k + 146) \/
              (forall k, 1 <= k <= 6 ->
                 ADC0_read RES < 585 * k - 146 \/
                 585 * k + 146 < ADC0_read RES)).
  { set (q := (ADC0_read RES + 292) / 585).
    assert (QE : 585 * q <= ADC0_read RES + 292 < 585 * q + 585)
      by (unfold q; clear; Z.div_mod_to_equations; lia).
    destruct (Z_le_dec (585 * q - 146) (ADC0_read RES)) as [A1 | A1];
      [destruct (Z_le_dec (ADC0_read RES) (585 * q + 146)) as [A2 | A2] |].
    - destruct (Z_le_dec 1 q) as [A3 | A3];
        [destruct (Z_le_dec q 6) as [A4 | A4] |].
      + left. exists q. lia.
      + right. intros k Hk. lia.
      + right. intros k Hk. lia.
    - right. intros k Hk. lia.
    - right. intros k Hk. lia. }
  destruct K as [(k & Hk & Hr) | K].
  - rewrite (M k Hk Hr). lia.
  - rewrite D by (lia || exact K). exact B.
Qed.

(** X20. SunLevel stores a quarter of the 12-bit reading, rounded down:
    ((RES mod 65536) >> 4) / 4, at most 1023; rounding has nothing left to
    round, and the angles and every other global are left alone. *)
Theorem SunLevel_value (RES : Z) (g : Globals) :
  ElAndAzComp_h.sunlevel (SUN (SunLevel RES g)) = RES mod 65536 / 16 / 4 /\
  0 <= ElAndAzComp_h.sunlevel (SUN (SunLevel RES g)) <= 1023 /\
  ElAndAzComp_h.elevation (SUN (SunLevel RES g))
    = ElAndAzComp_h.elevation (SUN g) /\
  ElAndAzComp_h.azimuth (SUN (SunLevel RES g))
    = ElAndAzComp_h.azimuth (SUN g) /\
  ElAndAzComp_h.adjelevation (SUN (SunLevel RES g))
    = ElAndAzComp_h.adjelevation (SUN g) /\
  ElAndAzComp_h.adjazimuth (SUN (SunLevel RES g))
    = ElAndAzComp_h.adjazimuth (SUN g) /\
  BMP280 (SunLevel RES g) = BMP280 g /\
  SHT21 (SunLevel RES g) = SHT21 g /\
  Date_Clock (SunLevel RES g) = Date_Clock g /\
  Altitude (SunLevel RES g) = Altitude g.
Proof.
  assert (R := ADC0_read_range RES).
  assert (Q : 0 <= ADC0_read RES / 4 <= 1023).
  { split; [apply Z.div_pos; lia |].
    assert (ADC0_read RES / 4 < 1024) by (apply Z.div_lt_upper_bound; lia).
    lia. }
  assert (V : ElAndAzComp_h.sunlevel (SUN (SunLevel RES g))
              = ADC0_read RES / 4).
  { cbn [SunLevel set_SUN SUN ElAndAzComp_h.sunlevel].
    rewrite (to_uint_id (ADC0_read RES)) by lia.
    rewrite c_round_IZR by lia.
    rewrite (c_trunc_floor _ (ADC0_read RES / 4)) by (lia || lra).
    apply to_uint16_id. unfold in_uint16. change (2 ^ 16) with 65536. lia. }
  split; [rewrite V, ADC0_read_value; reflexivity |].
  split; [rewrite V; exact Q |].
  repeat split; reflexivity.
Qed.

(** ** BMP390.c: configuration and status registers *)

Lemma ReadMulti_healthy_2 (regs : Z -> Z) (addr reg : Z) :
  0 <= regs reg < 256 -> 0 <= regs (reg + 1) < 256 ->
  ReadMulti_healthy regs addr reg 2 = regs reg * 256 + regs (reg + 1).
Proof.
  intros H0 H1. unfold ReadMulti_healthy, healthy_read.
  change (Z.to_nat 2) with 2%nat.
  cbn [seq map Z.of_nat Pos.of_succ_nat Pos.succ].
  transitivity (be_value [regs (reg + 0); regs (reg + 1)]).
  - apply (ReadMulti_on_all [regs (reg + 0); regs (reg + 1)]).
    + cbn. lia.
    + rewrite Z.add_0_r.
      constructor; [exact H0 | constructor; [exact H1 | constructor]].
  - rewrite Z.add_0_r. cbn. lia.
Qed.

Lemma WriteBMP280Config_bytes (g : Globals) :
  let c := BMP390_h.Config (BMP280 g) in
  0 <= BMP390_h.t_sb c <= 7 -> 0 <= BMP390_h.filter c <= 7 ->
  0 <= BMP390_h.spi3w_en c <= 1 ->
  0 <= BMP390_h.osrs_t c <= 7 -> 0 <= BMP390_h.osrs_p c <= 7 ->
  0 <= BMP390_h.Mode c <= 3 ->
  WriteBMP280Config g =
    (32 * BMP390_h.osrs_p c + 4 * BMP390_h.osrs_t c + BMP390_h.Mode c,
     32 * BMP390_h.t_sb c + 4 * BMP390_h.filter c + BMP390_h.spi3w_en c).
Proof.
  intros c Hs Hf Hw Ht Hp Hm. unfold WriteBMP280Config. fold c.
  rewrite !Z.shiftl_mul_pow2 by lia.
  change (2 ^ 5) with 32. change (2 ^ 2) with 4.
  rewrite (to_int_id (BMP390_h.osrs_p c * 32)) by lia.
  rewrite (to_int_id (BMP390_h.osrs_t c * 4)) by lia.
  rewrite (to_int_id (BMP390_h.t_sb c * 32)) by lia.
  rewrite (to_int_id (BMP390_h.filter c * 4)) by lia.
  rewrite (to_int_id (BMP390_h.osrs_p c * 32 + BMP390_h.osrs_t c * 4)) by lia.
  rewrite (to_int_id (BMP390_h.t_sb c * 32 + BMP390_h.filter c * 4)) by lia.
  rewrite (to_int_id (BMP390_h.osrs_p c * 32 + BMP390_h.osrs_t c * 4
                      + BMP390_h.Mode c)) by lia.
  rewrite (to_int_id (BMP390_h.t_sb c * 32 + BMP390_h.filter c * 4
                      + BMP390_h.spi3w_en c)) by lia.
  rewrite !to_uint8_id by lia.
  f_equal; lia.
Qed.

Lemma ReadBMP280Config_fields (p t m s f w : Z) (g : Globals) :
  0 <= s <= 7 -> 0 <= f <= 7 -> 0 <= w <= 1 ->
  0 <= t <= 7 -> 0 <= p <= 7 -> 0 <= m <= 3 ->
  BMP390_h.Config
    (BMP280 (ReadBMP280Config
               ((32 * p + 4 * t + m) * 256 + (32 * s + 4 * f + w)) g)) =
  {| BMP390_h.t_sb := 32 * t + 8 * m + s;
     BMP390_h.filter := 64 * m + 8 * s + f;
     BMP390_h.spi3w_en := 4 * (f mod 4) + w;
     BMP390_h.osrs_t := p;
     BMP390_h.osrs_p := 8 * p + t;
     BMP390_h.Mode := 32 * p + 4 * t + m |}.
Proof.
  intros Hs Hf Hw Ht Hp Hm.
  cbn [ReadBMP280Config set_Config set_BMP280 BMP280 BMP390_h.Config].
  set (data := (32 * p + 4 * t + m) * 256 + (32 * s + 4 * f + w)).
  assert (Hd : 0 <= data < 65536) by (unfold data; lia).
  unfold shr_u64, to_uint8, wrap_unsigned.
  rewrite !Z.shiftr_div_pow2 by lia.
  change 0xfff with (Z.ones 12). change 0xff with (Z.ones 8).
  change 0xf with (Z.ones 4).
  rewrite !Z.land_ones by lia.
  change (2 ^ 12) with 4096. change (2 ^ 8) with 256. change (2 ^ 4) with 16.
  change (2 ^ 13) with 8192. change (2 ^ 10) with 1024.
  change (2 ^ 5) with 32. change (2 ^ 2) with 4.
  f_equal; unfold data; clear data Hd; Z.div_mod_to_equations; lia.
Qed.

(** X21. ReadBMP280Config does not read back what WriteBMP280Config
    wrote. With every field within its register width and a sensor that
    returns the two bytes written to ctrl_meas and config, the fields come
    back as: osrs_t = the written osrs_p, osrs_p = 8 osrs_p + osrs_t,
    Mode = the whole ctrl_meas byte, t_sb = 32 osrs_t + 8 Mode + t_sb,
    filter = 64 Mode + 8 t_sb + filter, spi3w_en = 4 (filter mod 4)
    + spi3w_en. The configuration survives the round trip only when
    osrs_p, osrs_t, Mode and t_sb are all 0 and filter is 0 or 4. *)
Theorem config_read_back (regs : Z -> Z) (g : Globals) :
  0 <= BMP390_h.t_sb (BMP390_h.Config (BMP280 g)) <= 7 ->
  0 <= BMP390_h.filter (BMP390_h.Config (BMP280 g)) <= 7 ->
  0 <= BMP390_h.spi3w_en (BMP390_h.Config (BMP280 g)) <= 1 ->
  0 <= BMP390_h.osrs_t (BMP390_h.Config (BMP280 g)) <= 7 ->
  0 <= BMP390_h.osrs_p (BMP390_h.Config (BMP280 g)) <= 7 ->
  0 <= BMP390_h.Mode (BMP390_h.Config (BMP280 g)) <= 3 ->
  regs ctrl_meas = fst (WriteBMP280Config g) ->
  regs (ctrl_meas + 1) = snd (WriteBMP280Config g) ->
  BMP390_h.Config
    (BMP280 (ReadBMP280Config
               (ReadMulti_healthy regs BMP390_h.BMP280Add ctrl_meas 2) g)) =
  {| BMP390_h.t_sb :=
       32 * BMP390_h.osrs_t (BMP390_h.Config (BMP280 g))
       + 8 * BMP390_h.Mode (BMP390_h.Config (BMP280 g))
       + BMP390_h.t_sb (BMP390_h.Config (BMP280 g));
     BMP390_h.filter :=
       64 * BMP390_h.Mode (BMP390_h.Config (BMP280 g))
       + 8 * BMP390_h.t_sb (BMP390_h.Config (BMP280 g))
       + BMP390_h.filter (BMP390_h.Config (BMP280 g));
     BMP390_h.spi3w_en :=
       4 * (BMP390_h.filter (BMP390_h.Config (BMP280 g)) mod 4)
       + BMP390_h.spi3w_en (BMP390_h.Config (BMP280 g));
     BMP390_h.osrs_t := BMP390_h.osrs_p (BMP390_h.Config (BMP280 g));
     BMP390_h.osrs_p :=
       8 * BMP390_h.osrs_p (BMP390_h.Config (BMP280 g))
       + BMP390_h.osrs_t (BMP390_h.Config (BMP280 g));
     BMP390_h.Mode :=
       32 * BMP390_h.osrs_p (BMP390_h.Config (BMP280 g))
       + 4 * BMP390_h.osrs_t (BMP390_h.Config (BMP280 g))
       + BMP390_h.Mode (BMP390_h.Config (BMP280 g)) |} /\
  (BMP390_h.Config
     (BMP280 (ReadBMP280Config
                (ReadMulti_healthy regs BMP390_h.BMP280Add ctrl_meas 2) g))
   = BMP390_h.Config (BMP280 g) <->
   BMP390_h.osrs_p (BMP390_h.Config (BMP280 g)) = 0 /\
   BMP390_h.osrs_t (BMP390_h.Config (BMP280 g)) = 0 /\
   BMP390_h.Mode (BMP390_h.Config (BMP280 g)) = 0 /\
   BMP390_h.t_sb (BMP390_h.Config (BMP280 g)) = 0 /\
   BMP390_h.filter (BMP390_h.Config (BMP280 g)) mod 4 = 0).
Proof.
  intros Hs Hf Hw Ht Hp Hm R0 R1.
  assert (W := WriteBMP280Config_bytes g). cbv zeta in W.
  specialize (W Hs Hf Hw Ht Hp Hm).
  rewrite W in R0, R1. cbn [fst snd] in R0, R1.
  rewrite ReadMulti_healthy_2 by (rewrite ?R0, ?R1; lia).
  rewrite R0, R1.
  rewrite (ReadBMP280Config_fields _ _ _ _ _ _ g Hs Hf Hw Ht Hp Hm).
  split; [reflexivity |].
  destruct (BMP390_h.Config (BMP280 g)) as [s f w t p m].
  cbn [BMP390_h.t_sb BMP390_h.filter BMP390_h.spi3w_en BMP390_h.osrs_t
       BMP390_h.osrs_p BMP390_h.Mode] in *.
  split.
  - intros E.
    assert (E1 := f_equal BMP390_h.t_sb E).
    assert (E2 := f_equal BMP390_h.filter E).
    assert (E3 := f_equal BMP390_h.spi3w_en E).
    assert (E4 := f_equal BMP390_h.osrs_t E).
    assert (E5 := f_equal BMP390_h.osrs_p E).
    cbn [BMP390_h.t_sb BMP390_h.filter BMP390_h.spi3w_en BMP390_h.osrs_t
         BMP390_h.osrs_p] in E1, E2, E3, E4, E5.
    clear E. repeat split; lia.
  - intros (-> & -> & -> & -> & E). rewrite E. reflexivity.
Qed.

Lemma config_read_back_witness :
  BMP390_h.Config
    (BMP280 (ReadBMP280Config
               (ReadMulti_healthy (config_registers 183 17)
                  BMP390_h.BMP280Add ctrl_meas 2)
               (set_Config main_config globals_init))) =
  {| BMP390_h.t_sb := 184; BMP390_h.filter := 196; BMP390_h.spi3w_en := 1;
     BMP390_h.osrs_t := 5; BMP390_h.osrs_p := 45; BMP390_h.Mode := 183 |}.
Proof.
  assert (Hs : 0 <= BMP390_h.t_sb (BMP390_h.Config
                 (BMP280 (set_Config main_config globals_init))) <= 7)
    by (cbn; lia).
  assert (Hf : 0 <= BMP390_h.filter (BMP390_h.Config
                 (BMP280 (set_Config main_config globals_init))) <= 7)
    by (cbn; lia).
  assert (Hw : 0 <= BMP390_h.spi3w_en (BMP390_h.Config
                 (BMP280 (set_Config main_config globals_init))) <= 1)
    by (cbn; lia).
  assert (Ht : 0 <= BMP390_h.osrs_t (BMP390_h.Config
                 (BMP280 (set_Config main_config globals_init))) <= 7)
    by (cbn; lia).
  assert (Hp : 0 <= BMP390_h.osrs_p (BMP390_h.Config
                 (BMP280 (set_Config main_config globals_init))) <= 7)
    by (cbn; lia).
  assert (Hm : 0 <= BMP390_h.Mode (BMP390_h.Config
                 (BMP280 (set_Config main_config globals_init))) <= 3)
    by (cbn; lia).
  assert (R0 : config_registers 183 17 ctrl_meas
               = fst (WriteBMP280Config (set_Config main_config globals_init)))
    by (vm_compute; reflexivity).
  assert (R1 : config_registers 183 17 (ctrl_meas + 1)
               = snd (WriteBMP280Config (set_Config main_config globals_init)))
    by (vm_compute; reflexivity).
  exact (proj1 (config_read_back (config_registers 183 17)
                  (set_Config main_config globals_init)
                  Hs Hf Hw Ht Hp Hm R0 R1)).
Defined.

Lemma status_flags_of_byte (data : Z) :
  0 <= data < 256 ->
  to_uint8 (Z.land (Z.shiftr data 3) 0xf) = (data / 8) mod 16 /\
  to_uint8 (Z.land data 0xf) = data mod 16.
Proof.
  intros H. change 0xf with (Z.ones 4).
  rewrite !Z.land_ones, Z.shiftr_div_pow2 by lia.
  change (2 ^ 4) with 16. change (2 ^ 3) with 8.
  split; apply to_uint8_id.
  - assert (0 <= (data / 8) mod 16 < 16) by (apply Z.mod_pos_bound; lia). lia.
  - assert (0 <= data mod 16 < 16) by (apply Z.mod_pos_bound; lia). lia.
Qed.

(** X22. ReadBMP280Status takes measuring from bits 3..6 and im_update
    from bits 0..3 of the status byte, so bit 3 counts for both: a byte
    with the measuring bit (bit 3) set always makes ReadBMP280TP poll
    again, and for a byte with only the two documented bits (3 and 0)
    ReadBMP280TP polls again exactly when bit 3 is set; im_update alone
    never makes it wait. *)
Theorem status_wait_condition (data : Z) (g : Globals) :
  0 <= data < 256 ->
  BMP390_h.measuring (BMP390_h.Status (BMP280 (ReadBMP280Status data g)))
    = (data / 8) mod 16 /\
  BMP390_h.im_update (BMP390_h.Status (BMP280 (ReadBMP280Status data g)))
    = data mod 16 /\
  (Z.testbit data 3 = true ->
   ReadBMP280TP_waits (ReadBMP280Status data g) = true) /\
  (Z.land data 0xF6 = 0 ->
   ReadBMP280TP_waits (ReadBMP280Status data g) = Z.testbit data 3).
Proof.
  intros H.
  destruct (status_flags_of_byte data H) as [M I].
  split; [exact M |]. split; [exact I |].
  unfold ReadBMP280TP_waits.
  cbn [ReadBMP280Status set_Status set_BMP280 BMP280 BMP390_h.Status
       BMP390_h.measuring BMP390_h.im_update].
  assert (P := all_bytes_complete
           (fun d =>
              implb (Z.testbit d 3)
                (negb (to_uint8 (Z.land (Z.shiftr d 3) 0xf) =? 0)
                 && negb (to_uint8 (Z.land d 0xf) =? 0))
              && implb (Z.land d 0xF6 =? 0)
                   (Bool.eqb
                      (negb (to_uint8 (Z.land (Z.shiftr d 3) 0xf) =? 0)
                       && negb (to_uint8 (Z.land d 0xf) =? 0))
                      (Z.testbit d 3)))
           ltac:(vm_compute; reflexivity) data H).
  cbv beta in P. apply andb_true_iff in P. destruct P as [P1 P2].
  split.
  - intros T. rewrite T in P1. exact P1.
  - intros E. rewrite E in P2. change (0 =? 0) with true in P2.
    cbn [implb] in P2. apply Bool.eqb_prop in P2. exact P2.
Qed.

Lemma status_wait_condition_witness :
  ReadBMP280TP_waits (ReadBMP280Status 8 globals_init) = true /\
  ReadBMP280TP_waits (ReadBMP280Status 1 globals_init) = false.
Proof.
  assert (H8 : 0 <= 8 < 256) by lia.
  split.
  - exact (proj1 (proj2 (proj2 (status_wait_condition 8 globals_init H8)))
             eq_refl).
  - vm_compute. reflexivity.
Defined.

(** ** Windows.c: the digits of latitude and longitude *)

Lemma IZR_div_floor (n d : Z) :
  0 < d -> (IZR (n / d) <= IZR n / IZR d < IZR (n / d) + 1)%R.
Proof.
  intros Hd.
  assert (E : n = d * (n / d) + n mod d) by (apply Z.div_mod; lia).
  assert (B : 0 <= n mod d < d) by (apply Z.mod_pos_bound; lia).
  assert (Dp : (0 < IZR d)%R) by (apply IZR_lt; exact Hd).
  assert (ER : (IZR n = IZR d * IZR (n / d) + IZR (n mod d))%R).
  { rewrite <- mult_IZR, <- plus_IZR. f_equal. exact E. }
  assert (B1 : (0 <= IZR (n mod d))%R) by (apply IZR_le; lia).
  assert (B2 : (IZR (n mod d) < IZR d)%R) by (apply IZR_lt; lia).
  split.
  - apply Rmult_le_reg_r with (IZR d); [exact Dp |].
    unfold Rdiv. rewrite Rmult_assoc, Rinv_l by lra. lra.
  - apply Rmult_lt_reg_r with (IZR d); [exact Dp |].
    unfold Rdiv. rewrite Rmult_assoc, Rinv_l by lra. lra.
Qed.

Lemma location_parts (n : Z) :
  0 <= n < 2560000 ->
  to_uint8 (c_trunc (IZR n / 10000)) = n / 10000 /\
  to_uint32
    (c_trunc (c_round ((IZR n / 10000
                        - IZR (to_uint8 (c_trunc (IZR n / 10000)))) * 10000)))
  = n mod 10000.
Proof.
  intros H.
  assert (Q : 0 <= n / 10000 < 256).
  { split; [apply Z.div_pos; lia | apply Z.div_lt_upper_bound; lia]. }
  assert (B : 0 <= n mod 10000 < 10000) by (apply Z.mod_pos_bound; lia).
  assert (T : c_trunc (IZR n / 10000) = n / 10000).
  { apply c_trunc_floor; [lia |]. apply (IZR_div_floor n 10000). lia. }
  rewrite T. rewrite (to_uint8_id (n / 10000)) by lia.
  split; [reflexivity |].
  assert (E : n = 10000 * (n / 10000) + n mod 10000)
    by (apply Z.div_mod; lia).
  assert (ER : (IZR n = 10000 * IZR (n / 10000) + IZR (n mod 10000))%R).
  { rewrite <- (mult_IZR 10000), <- plus_IZR. f_equal. exact E. }
  replace ((IZR n / 10000 - IZR (n / 10000)) * 10000)%R
    with (IZR (n mod 10000)) by lra.
  rewrite c_round_IZR by lia.
  rewrite (c_trunc_floor _ (n mod 10000)) by (lia || lra).
  unfold to_uint32, wrap_unsigned. apply Z.mod_small.
  change (2 ^ 32) with 4294967296. lia.
Qed.

Lemma Rabs_IZR_div (n : Z) : Rabs (IZR n / 10000) = (IZR (Z.abs n) / 10000)%R.
Proof.
  unfold Rdiv. rewrite Rabs_mult, <- abs_IZR.
  rewrite (Rabs_pos_eq (/ 10000)); [reflexivity |].
  apply Rlt_le, Rinv_0_lt_compat. lra.
Qed.

Lemma digit_of_value (v d : Z) :
  0 <= v < 4294967296 -> 0 < d ->
  digit_of v d = Some ((v / d) mod 10).
Proof.
  intros Hv Hd. unfold digit_of.
  replace (d =? 0) with false by (symmetry; apply Z.eqb_neq; lia).
  assert (Q : 0 <= v / d <= v).
  { split; [apply Z.div_pos; lia |].
    apply Z.div_le_upper_bound; nia. }
  assert (B : 0 <= (v / d) mod 10 < 10) by (apply Z.mod_pos_bound; lia).
  unfold to_uint32, wrap_unsigned. change (2 ^ 32) with 4294967296.
  rewrite (Z.mod_small (v / d)) by lia.
  rewrite to_uint8_id by lia. reflexivity.
Qed.

(** The digits extractDigitFromLocation gives for a multiple of 0.0001. *)
Lemma extractDigitFromLocation_exact (intgpart n step : Z) :
  Z.abs n < 2560000 -> 1 <= intgpart <= 3 -> 1 <= step <= 4 + intgpart ->
  extractDigitFromLocation intgpart (IZR n / 10000) step =
  Some ((Z.abs n / 10 ^ (4 + intgpart - step)) mod 10).
Proof.
  intros Hn Hi Hs. unfold extractDigitFromLocation.
  replace (step =? 0) with false by (symmetry; apply Z.eqb_neq; lia).
  rewrite Rabs_IZR_div.
  destruct (location_parts (Z.abs n)) as [P1 P2]; [lia |].
  cbv zeta. rewrite P2, P1.
  assert (Q : 0 <= Z.abs n / 10000 < 256).
  { split; [apply Z.div_pos; lia | apply Z.div_lt_upper_bound; lia]. }
  assert (B : 0 <= Z.abs n mod 10000 < 10000)
    by (apply Z.mod_pos_bound; lia).
  assert (C : intgpart = 1 \/ intgpart = 2 \/ intgpart = 3) by lia.
  assert (D : step = 1 \/ step = 2 \/ step = 3 \/ step = 4 \/ step = 5 \/
              step = 6 \/ step = 7) by lia.
  destruct C as [-> | [-> | ->]];
    destruct D as [-> | [-> | [-> | [-> | [-> | [-> | ->]]]]]];
    try lia;
    match goal with
    | |- context [?a <=? ?b] =>
        let v := eval vm_compute in (a <=? b) in change (a <=? b) with v
    end; cbv iota;
    match goal with
    | |- context [divisor_loop ?k 1] =>
        let v := eval vm_compute in (divisor_loop k 1) in
        change (divisor_loop k 1) with v
    end;
    match goal with
    | |- context [10 ^ ?e] =>
        let v := eval vm_compute in (10 ^ e) in change (10 ^ e) with v
    end;
    rewrite digit_of_value by lia; f_equal;
    clear; Z.div_mod_to_equations; lia.
Qed.

Lemma map_Some_inj (l l' : list Z) : map Some l = map Some l' -> l = l'.
Proof.
  revert l'. induction l as [| x l IH]; intros [| y l'] H;
    try discriminate; [reflexivity |].
  cbn in H. injection H as -> H. f_equal. apply IH. exact H.
Qed.

Lemma IZR_abs_sign (n : Z) (s : Z) :
  s = (if Rlt_dec (IZR n / 10000) 0 then 1 else 0) ->
  applySignDouble s (IZR (Z.abs n) / 10000) = (IZR n / 10000)%R.
Proof.
  intros ->. unfold applySignDouble.
  destruct (Rlt_dec (IZR n / 10000) 0) as [L | L].
  - change (1 =? 0) with false. cbv iota.
    assert (Hn : (IZR n < 0)%R) by lra.
    apply lt_IZR in Hn.
    rewrite Z.abs_neq by lia. rewrite opp_IZR. lra.
  - change (0 =? 0) with true. cbv iota.
    assert (Hn : (0 <= IZR n)%R) by lra.
    apply le_IZR in Hn.
    rewrite Z.abs_eq by lia. reflexivity.
Qed.

Lemma entered_latitude_of_digits (a : list Z) (g : Globals) (n : Z) :
  Z.abs n < 1000000 ->
  Communications_h.latitude (Date_Clock g) = (IZR n / 10000)%R ->
  latitude_digits g = map Some (digits_at a 22 7) ->
  entered_latitude a = (IZR n / 10000)%R.
Proof.
  intros Hn E H. unfold latitude_digits in H. rewrite E in H.
  cbn [map] in H.
  unfold extractDigitFromLocation in H at 1. change (0 =? 0) with true in H.
  cbv iota in H.
  rewrite !extractDigitFromLocation_exact in H by lia.
  match type of H with
  | [Some ?s; Some ?d1; Some ?d2; Some ?d3; Some ?d4; Some ?d5; Some ?d6] = _ =>
      change (map Some [s; d1; d2; d3; d4; d5; d6]
              = map Some (digits_at a 22 7)) in H
  end.
  apply map_Some_inj in H. symmetry in H.
  apply digits_at_cons in H. destruct H as [D0 H].
  unfold entered_latitude. rewrite H, D0.
  set (m := Z.abs n) in *.
  assert (Hm : 0 <= m < 1000000) by (unfold m; lia).
  rewrite calculateValue_decimal.
  2:{ repeat constructor;
        match goal with
        | |- _ <= ?x mod 10 => pose proof (Z.mod_pos_bound x 10); lia
        | |- ?x mod 10 < _ => pose proof (Z.mod_pos_bound x 10); lia
        end. }
  2:{ cbn. lia. }
  cbn [decimal fold_left].
  change (4 + 2 - 1) with 5. change (4 + 2 - 2) with 4.
  change (4 + 2 - 3) with 3. change (4 + 2 - 4) with 2.
  change (4 + 2 - 5) with 1. change (4 + 2 - 6) with 0.
  change (10 ^ 5) with 100000. change (10 ^ 4) with 10000.
  change (10 ^ 3) with 1000. change (10 ^ 2) with 100.
  change (10 ^ 1) with 10. change (10 ^ 0) with 1.
  replace ((((((0 * 10 + (m / 100000) mod 10) * 10 + (m / 10000) mod 10) * 10
              + (m / 1000) mod 10) * 10 + (m / 100) mod 10) * 10
            + (m / 10) mod 10) * 10 + (m / 1) mod 10) with m
    by (clear - Hm; Z.div_mod_to_equations; lia).
  apply IZR_abs_sign. reflexivity.
Qed.

Lemma entered_longitude_of_digits (a : list Z) (g : Globals) (n : Z) :
  Z.abs n < 2560000 ->
  Communications_h.longitude (Date_Clock g) = (IZR n / 10000)%R ->
  longitude_digits g = map Some (digits_at a 29 8) ->
  entered_longitude a = (IZR n / 10000)%R.
Proof.
  intros Hn E H. unfold longitude_digits in H. rewrite E in H.
  cbn [map] in H.
  unfold extractDigitFromLocation in H at 1. change (0 =? 0) with true in H.
  cbv iota in H.
  rewrite !extractDigitFromLocation_exact in H by lia.
  match type of H with
  | [Some ?s; Some ?d1; Some ?d2; Some ?d3; Some ?d4; Some ?d5; Some ?d6;
     Some ?d7] = _ =>
      change (map Some [s; d1; d2; d3; d4; d5; d6; d7]
              = map Some (digits_at a 29 8)) in H
  end.
  apply map_Some_inj in H. symmetry in H.
  apply digits_at_cons in H. destruct H as [D0 H].
  unfold entered_longitude. rewrite H, D0.
  set (m := Z.abs n) in *.
  assert (Hm : 0 <= m < 2560000) by (unfold m; lia).
  rewrite calculateValue_decimal.
  2:{ repeat constructor;
        match goal with
        | |- _ <= ?x mod 10 => pose proof (Z.mod_pos_bound x 10); lia
        | |- ?x mod 10 < _ => pose proof (Z.mod_pos_bound x 10); lia
        end. }
  2:{ cbn. lia. }
  cbn [decimal fold_left].
  change (4 + 3 - 1) with 6. change (4 + 3 - 2) with 5.
  change (4 + 3 - 3) with 4. change (4 + 3 - 4) with 3.
  change (4 + 3 - 5) with 2. change (4 + 3 - 6) with 1.
  change (4 + 3 - 7) with 0.
  change (10 ^ 6) with 1000000.
  change (10 ^ 5) with 100000. change (10 ^ 4) with 10000.
  change (10 ^ 3) with 1000. change (10 ^ 2) with 100.
  change (10 ^ 1) with 10. change (10 ^ 0) with 1.
  replace (((((((0 * 10 + (m / 1000000) mod 10) * 10
                + (m / 100000) mod 10) * 10 + (m / 10000) mod 10) * 10
              + (m / 1000) mod 10) * 10 + (m / 100) mod 10) * 10
            + (m / 10) mod 10) * 10 + (m / 1) mod 10) with m
    by (clear - Hm; Z.div_mod_to_equations; lia).
  apply IZR_abs_sign. reflexivity.
Qed.

Lemma extractDigitFromLocation_some (intgpart : Z) (x : R) (step : Z) :
  1 <= intgpart <= 3 -> 0 <= step <= 7 ->
  exists v, extractDigitFromLocation intgpart x step = Some v.
Proof.
  intros Hi Hs.
  assert (C : intgpart = 1 \/ intgpart = 2 \/ intgpart = 3) by lia.
  assert (D : step = 0 \/ step = 1 \/ step = 2 \/ step = 3 \/ step = 4 \/
              step = 5 \/ step = 6 \/ step = 7) by lia.
  unfold extractDigitFromLocation, digit_of.
  destruct C as [-> | [-> | ->]];
    destruct D as [-> | [-> | [-> | [-> | [-> | [-> | [-> | ->]]]]]]];
    match goal with
    | |- context [?a =? 0] =>
        let v := eval vm_compute in (a =? 0) in change (a =? 0) with v
    end; cbv iota zeta;
    try (eexists; reflexivity);
    match goal with
    | |- context [?a <=? ?b] =>
        let v := eval vm_compute in (a <=? b) in change (a <=? b) with v
    end; cbv iota;
    match goal with
    | |- context [divisor_loop ?k 1 =? 0] =>
        let v := eval vm_compute in (divisor_loop k 1 =? 0) in
        change (divisor_loop k 1 =? 0) with v
    end; cbv iota; eexists; reflexivity.
Qed.

Lemma press_hash_fill (a : list Z) (g : Globals) :
  length a = 38%nat ->
  exists a',
    press_hash 38 0 a g = Some (38, a') /\
    map Some a' =
      map Some (time_digits g ++ timezone_digits g ++ altitude_digits g)
      ++ latitude_digits g ++ longitude_digits g ++ [nth_error a 37].
Proof.
  intros L.
  do 38 (destruct a as [| ? a]; [discriminate |]).
  destruct a; [| discriminate]. clear L.
  unfold latitude_digits, longitude_digits, time_digits, timezone_digits,
    altitude_digits.
  cbn [map app nth_error].
  set (lat := Communications_h.latitude (Date_Clock g)).
  set (lon := Communications_h.longitude (Date_Clock g)).
  destruct (extractDigitFromLocation_some 2 lat 0) as [u0 U0]; [lia | lia |].
  destruct (extractDigitFromLocation_some 2 lat 1) as [u1 U1]; [lia | lia |].
  destruct (extractDigitFromLocation_some 2 lat 2) as [u2 U2]; [lia | lia |].
  destruct (extractDigitFromLocation_some 2 lat 3) as [u3 U3]; [lia | lia |].
  destruct (extractDigitFromLocation_some 2 lat 4) as [u4 U4]; [lia | lia |].
  destruct (extractDigitFromLocation_some 2 lat 5) as [u5 U5]; [lia | lia |].
  destruct (extractDigitFromLocation_some 2 lat 6) as [u6 U6]; [lia | lia |].
  destruct (extractDigitFromLocation_some 3 lon 0) as [v0 V0]; [lia | lia |].
  destruct (extractDigitFromLocation_some 3 lon 1) as [v1 V1]; [lia | lia |].
  destruct (extractDigitFromLocation_some 3 lon 2) as [v2 V2]; [lia | lia |].
  destruct (extractDigitFromLocation_some 3 lon 3) as [v3 V3]; [lia | lia |].
  destruct (extractDigitFromLocation_some 3 lon 4) as [v4 V4]; [lia | lia |].
  destruct (extractDigitFromLocation_some 3 lon 5) as [v5 V5]; [lia | lia |].
  destruct (extractDigitFromLocation_some 3 lon 6) as [v6 V6]; [lia | lia |].
  destruct (extractDigitFromLocation_some 3 lon 7) as [v7 V7]; [lia | lia |].
  rewrite U0, U1, U2, U3, U4, U5, U6, V0, V1, V2, V3, V4, V5, V6, V7.
  unfold press_hash, DataExtraction. fold lat lon.
  repeat (cbn -[extractDigitFromTime extractDigitFromTimeZone
                extractDigitFromAltitude extractDigitFromLocation];
          rewrite ?U0, ?U1, ?U2, ?U3, ?U4, ?U5, ?U6,
                  ?V0, ?V1, ?V2, ?V3, ?V4, ?V5, ?V6, ?V7).
  eexists. split; reflexivity.
Qed.

Lemma array_sections (a' T : list Z) (Lat Lon : list (option Z))
    (x : option Z) :
  map Some a' = map Some T ++ Lat ++ Lon ++ [x] ->
  length T = 22%nat -> length Lat = 7%nat -> length Lon = 8%nat ->
  digits_at a' 0 22 = T /\
  Lat = map Some (digits_at a' 22 7) /\
  Lon = map Some (digits_at a' 29 8).
Proof.
  intros M LT LLat LLon. unfold digits_at.
  assert (LT' : length (map Some T) = 22%nat) by (rewrite length_map; exact LT).
  split; [| split].
  - apply map_Some_inj. rewrite skipn_0.
    rewrite <- firstn_map, M, firstn_app, LT', Nat.sub_diag, firstn_0.
    rewrite app_nil_r. apply firstn_all2. lia.
  - rewrite <- firstn_map, <- skipn_map, M.
    rewrite skipn_app, LT', Nat.sub_diag, skipn_0.
    rewrite skipn_all2 by lia. rewrite app_nil_l.
    rewrite firstn_app, LLat, Nat.sub_diag, firstn_0, app_nil_r.
    symmetry. apply firstn_all2. lia.
  - rewrite <- firstn_map, <- skipn_map, M.
    rewrite skipn_app, LT'.
    change (29 - 22)%nat with 7%nat.
    rewrite skipn_all2 by lia. rewrite app_nil_l.
    rewrite skipn_app, LLat, Nat.sub_diag, skipn_0.
    rewrite skipn_all2 by lia. rewrite app_nil_l.
    rewrite firstn_app, LLon, Nat.sub_diag, firstn_0, app_nil_r.
    symmetry. apply firstn_all2. lia.
Qed.

(** X23. The # key pressed 38 times from step 0 walks DataExtraction
    through the whole array: the walk cannot fail (no divisor of
    extractDigitFromLocation is 0), ends at step 38, and leaves in entries
    0..36 the digits of the clock's date and time, time zone, altitude,
    latitude and longitude, in this order, and entry 37 as it was. *)
Theorem DataExtraction_fills_array (a : list Z) (g : Globals) :
  length a = 38%nat ->
  exists a',
    press_hash 38 0 a g = Some (38, a') /\
    map Some a' =
      map Some (time_digits g ++ timezone_digits g ++ altitude_digits g)
      ++ latitude_digits g ++ longitude_digits g ++ [nth_error a 37].
Proof. exact (press_hash_fill a g). Qed.

Lemma DataExtraction_fills_array_witness :
  exists a',
    press_hash 38 0 editor_array editor_state = Some (38, a') /\
    map Some a' =
      map Some (time_digits editor_state ++ timezone_digits editor_state
                ++ altitude_digits editor_state)
      ++ latitude_digits editor_state ++ longitude_digits editor_state
      ++ [nth_error editor_array 37].
Proof.
  apply DataExtraction_fills_array. reflexivity.
Defined.

(** X24. Latitude and longitude survive the editor when they are
    multiples of 0.0001: if the latitude is n / 10000 with |n| < 1000000,
    the longitude m / 10000 with |m| < 2560000, and entries 22..36 of the
    array are the digits extractDigitFromLocation gives for them, then
    ValidateNewData decodes exactly the latitude and the longitude. *)
Theorem location_digits_round_trip (a : list Z) (g : Globals) (n m : Z) :
  Z.abs n < 1000000 -> Z.abs m < 2560000 ->
  Communications_h.latitude (Date_Clock g) = (IZR n / 10000)%R ->
  Communications_h.longitude (Date_Clock g) = (IZR m / 10000)%R ->
  latitude_digits g = map Some (digits_at a 22 7) ->
  longitude_digits g = map Some (digits_at a 29 8) ->
  entered_latitude a = Communications_h.latitude (Date_Clock g) /\
  entered_longitude a = Communications_h.longitude (Date_Clock g).
Proof.
  intros Hn Hm En Em Hlat Hlon. split.
  - rewrite En. exact (entered_latitude_of_digits a g n Hn En Hlat).
  - rewrite Em. exact (entered_longitude_of_digits a g m Hm Em Hlon).
Qed.

Lemma editor_state_latitude :
  Communications_h.latitude (Date_Clock editor_state)
  = (IZR 546872 / 10000)%R.
Proof. cbn. lra. Qed.

Lemma editor_state_longitude :
  Communications_h.longitude (Date_Clock editor_state)
  = (IZR 252797 / 10000)%R.
Proof. cbn. lra. Qed.

(** X25. Confirming every digit with # accepts the settings and changes
    nothing: when the clock holds a valid date and time with a year up to
    9999, a time zone within -12..12, an altitude within -500..9000, a
    latitude n / 10000 within -90..90 and a longitude m / 10000 within
    -180..180, then 38 presses of # on any 38-entry array reach step 38
    with an array that ValidateNewData accepts, closing the editor with
    the globals as they were. *)
Theorem confirmed_settings_are_accepted (a : list Z) (g : Globals) (n m : Z) :
  length a = 38%nat ->
  valid_date_time
    (Communications_h.year (Date_Clock g))
    (Communications_h.month (Date_Clock g))
    (Communications_h.day (Date_Clock g))
    (Communications_h.hour (Date_Clock g))
    (Communications_h.minute (Date_Clock g))
    (Communications_h.second (Date_Clock g)) ->
  Communications_h.year (Date_Clock g) <= 9999 ->
  0 <= Communications_h.hour (Date_Clock g) ->
  0 <= Communications_h.minute (Date_Clock g) ->
  0 <= Communications_h.second (Date_Clock g) ->
  - 12 <= Communications_h.timezone (Date_Clock g) <= 12 ->
  - 500 <= Communications_h.altitude (Date_Clock g) <= 9000 ->
  Communications_h.latitude (Date_Clock g) = (IZR n / 10000)%R ->
  - 900000 <= n <= 900000 ->
  Communications_h.longitude (Date_Clock g) = (IZR m / 10000)%R ->
  - 1800000 <= m <= 1800000 ->
  exists a',
    press_hash 38 0 a g = Some (38, a') /\
    ValidateNewData a' g = Some (0, 0, g).
Proof.
  intros L V Hy Hh Hmi Hs Htz Halt En Hn Em Hm.
  destruct (press_hash_fill a g L) as (a' & P & M).
  exists a'. split; [exact P |].
  destruct (array_sections a' _ _ _ _ M) as (S1 & S2 & S3);
    try reflexivity.
  assert (Elat := entered_latitude_of_digits a' g n ltac:(lia) En S2).
  assert (Elon := entered_longitude_of_digits a' g m ltac:(lia) Em S3).
  apply unchanged_settings_accepted; try assumption.
  - rewrite Elat.
    assert (B1 : (IZR (- 900000) <= IZR n)%R) by (apply IZR_le; lia).
    assert (B2 : (IZR n <= IZR 900000)%R) by (apply IZR_le; lia).
    lra.
  - rewrite Elon.
    assert (B1 : (IZR (- 1800000) <= IZR m)%R) by (apply IZR_le; lia).
    assert (B2 : (IZR m <= IZR 1800000)%R) by (apply IZR_le; lia).
    lra.
Qed.

Lemma editor_array_latitude_digits :
  latitude_digits editor_state = map Some (digits_at editor_array 22 7).
Proof.
  unfold latitude_digits. rewrite editor_state_latitude. cbn [map].
  unfold extractDigitFromLocation at 1. change (0 =? 0) with true. cbv iota.
  rewrite !extractDigitFromLocation_exact by (cbn; lia).
  destruct (Rlt_dec (IZR 546872 / 10000) 0) as [L | L]; [lra |].
  reflexivity.
Qed.

Lemma editor_array_longitude_digits :
  longitude_digits editor_state = map Some (digits_at editor_array 29 8).
Proof.
  unfold longitude_digits. rewrite editor_state_longitude. cbn [map].
  unfold extractDigitFromLocation at 1. change (0 =? 0) with true. cbv iota.
  rewrite !extractDigitFromLocation_exact by (cbn; lia).
  destruct (Rlt_dec (IZR 252797 / 10000) 0) as [L | L]; [lra |].
  reflexivity.
Qed.

Lemma location_digits_round_trip_witness :
  entered_latitude editor_array
    = Communications_h.latitude (Date_Clock editor_state) /\
  entered_longitude editor_array
    = Communications_h.longitude (Date_Clock editor_state).
Proof.
  assert (Hn : Z.abs 546872 < 1000000) by (cbn; lia).
  assert (Hm : Z.abs 252797 < 2560000) by (cbn; lia).
  exact (location_digits_round_trip editor_array editor_state 546872 252797
           Hn Hm editor_state_latitude editor_state_longitude
           editor_array_latitude_digits editor_array_longitude_digits).
Defined.

Lemma confirmed_settings_are_accepted_witness :
  exists a',
    press_hash 38 0 editor_array editor_state = Some (38, a') /\
    ValidateNewData a' editor_state = Some (0, 0, editor_state).
Proof.
  apply (confirmed_settings_are_accepted editor_array editor_state
           546872 252797).
  - reflexivity.
  - unfold valid_date_time. cbn. repeat split; discriminate.
  - cbn. discriminate.
  - cbn. discriminate.
  - cbn. discriminate.
  - cbn. discriminate.
  - cbn. split; discriminate.
  - cbn. split; discriminate.
  - exact editor_state_latitude.
  - lia.
  - exact editor_state_longitude.
  - lia.
Defined.

(** ** main.c: the whole loop body *)

Lemma AltitudeAverage_SunLevel (RES : Z) (g : Globals) :
  AltitudeAverage (SunLevel RES g) = SunLevel RES (AltitudeAverage g).
Proof. destruct g as [b s u d a]. reflexivity. Qed.

(** X26. The ADC readings do not interfere with the measurement
    pipeline: one pass of main's loop fails exactly when the pipeline of
    BMP280, SHT21, clock and altitude fails, and otherwise yields the
    pipeline's globals with only SUN.sunlevel replaced by SunLevel's
    value, next to the wind record that WindSpeed and WindDirection
    produce; so after every pass the speed is at most 29 and the sun level
    at most 1023. *)
Theorem main_cycle_factors (CRC8MAXIM : Z -> Z) (i : CycleInput)
    (ws wd sl : Z) (g : Globals) (w : Wind_h.WindParam) :
  main_cycle CRC8MAXIM i ws wd sl g w =
    match pipeline_cycle CRC8MAXIM i g with
    | Some g' => Some (SunLevel sl g', WindDirection wd (WindSpeed ws w))
    | None => None
    end /\
  (forall g' w',
     main_cycle CRC8MAXIM i ws wd sl g w = Some (g', w') ->
     0 <= Wind_h.speed w' <= 29 /\
     0 <= ElAndAzComp_h.sunlevel (SUN g') <= 1023).
Proof.
  assert (E : main_cycle CRC8MAXIM i ws wd sl g w =
              match pipeline_cycle CRC8MAXIM i g with
              | Some g' =>
                  Some (SunLevel sl g', WindDirection wd (WindSpeed ws w))
              | None => None
              end).
  { unfold main_cycle, pipeline_cycle. cbv zeta.
    destruct (CalcTruePres _) as [[p g1] |]; [| reflexivity].
    rewrite AltitudeAverage_SunLevel. reflexivity. }
  split; [exact E |].
  intros g' w' H. rewrite E in H.
  destruct (pipeline_cycle CRC8MAXIM i g) as [g1 |]; [| discriminate].
  injection H as <- <-.
  split.
  - destruct (WindDirection_cases wd (WindSpeed ws w)) as (S & _).
    rewrite S.
    assert (R := ADC0_read_range ws).
    cbn [WindSpeed Wind_h.speed].
    rewrite WindSpeed_floor by lia.
    assert (Q : 0 <= ADC0_read ws * 15 / 2048 < 30).
    { split; [apply Z.div_pos; lia | apply Z.div_lt_upper_bound; lia]. }
    rewrite to_uint8_id by lia. lia.
  - assert (R := ADC0_read_range sl).
    assert (Q : 0 <= ADC0_read sl / 4 < 1024).
    { split; [apply Z.div_pos; lia | apply Z.div_lt_upper_bound; lia]. }
    cbn [SunLevel set_SUN SUN ElAndAzComp_h.sunlevel].
    rewrite (to_uint_id (ADC0_read sl)) by lia.
    rewrite c_round_IZR by lia.
    rewrite (c_trunc_floor _ (ADC0_read sl / 4)) by (lia || lra).
    rewrite to_uint16_id
      by (unfold in_uint16; change (2 ^ 16) with 65536; lia).
    lia.
Qed.

(** ** SHT45.c: SHT21_Read *)

Lemma shift_byte_fits (x k : Z) :
  0 <= k <= 16 ->
  to_uint64 (Z.shiftl (to_uint8 x) k) = Z.shiftl (to_uint8 x) k /\
  to_uint32 (Z.shiftl (to_uint8 x) k) = Z.shiftl (to_uint8 x) k.
Proof.
  intros Hk. assert (B := to_uint8_range x).
  rewrite Z.shiftl_mul_pow2 by lia.
  assert (P : 0 < 2 ^ k <= 2 ^ 16).
  { split; [apply Z.pow_pos_nonneg; lia | apply Z.pow_le_mono_r; lia]. }
  change (2 ^ 16) with 65536 in P.
  unfold to_uint64, to_uint32, wrap_unsigned.
  change (2 ^ 64) with 18446744073709551616.
  change (2 ^ 32) with 4294967296.
  split; apply Z.mod_small; nia.
Qed.

Lemma SHT21_Read_loop_is_ReadMulti_loop (rx : list (option Z)) :
  SHT21_Read_loop 3 0 rx 0 = ReadMulti_loop 3 3 0 rx 0.
Proof.
  destruct rx as [| [b0 |] [| [b1 |] [| [b2 |] rx]]];
    cbn [SHT21_Read_loop ReadMulti_loop]; unfold shl_u64;
    change (0 + 1) with 1; change (1 + 1) with 2;
    change (8 * (2 - 0)) with 16; change (8 * (2 - 1)) with 8;
    change (8 * (2 - 2)) with 0;
    change (8 * (3 - 1 - 0)) with 16; change (8 * (3 - 1 - 1)) with 8;
    change (8 * (3 - 1 - 2)) with 0;
    repeat match goal with
    | |- context [to_uint32 (Z.shiftl (to_uint8 ?x) ?k)] =>
        rewrite (proj2 (shift_byte_fits x k ltac:(lia)))
    | |- context [to_uint64 (Z.shiftl (to_uint8 ?x) ?k)] =>
        rewrite (proj1 (shift_byte_fits x k ltac:(lia)))
    end; reflexivity.
Qed.

(** X27. The two branches of SHT21_Read agree: in the hold modes (0xE3,
    0xE5) and in the no-hold modes (0xF3, 0xF5) the word returned for a
    given bus behaviour is the one ReadMulti assembles from three bytes,
    so the cast to uint32_t loses nothing and the word is below 2^24; for
    any other mode byte the function returns 0 without a transfer. *)
Theorem SHT21_Read_modes_agree (mode : Z) (b : BusRead) :
  (mode = HOLD_MASTER_T_MES \/ mode = HOLD_MASTER_RH_MES \/
   mode = NO_HOLD_MASTER_T_MES \/ mode = NO_HOLD_MASTER_RH_MES ->
   SHT21_Read mode b = ReadMulti_on b 3) /\
  (mode <> HOLD_MASTER_T_MES -> mode <> HOLD_MASTER_RH_MES ->
   mode <> NO_HOLD_MASTER_T_MES -> mode <> NO_HOLD_MASTER_RH_MES ->
   SHT21_Read mode b = 0) /\
  0 <= SHT21_Read mode b < 2 ^ 24.
Proof.
  destruct (ReadMulti_on_range b 3) as [R0 R1].
  specialize (R1 ltac:(lia)). change (2 ^ (8 * 3)) with (2 ^ 24) in R1.
  change (2 ^ 24) with 16777216 in *.
  assert (U : to_uint32 (ReadMulti_on b 3) = ReadMulti_on b 3).
  { unfold to_uint32, wrap_unsigned. change (2 ^ 32) with 4294967296.
    apply Z.mod_small. lia. }
  assert (N : (if setup_error b =? 0
               then SHT21_Read_loop 3 0 (received b) 0 else 0)
              = ReadMulti_on b 3).
  { unfold ReadMulti_on. change ((3 =? 0) || (8 <? 3)) with false.
    cbv iota. change (Z.to_nat 3) with 3%nat.
    rewrite SHT21_Read_loop_is_ReadMulti_loop. reflexivity. }
  assert (A : mode = HOLD_MASTER_T_MES \/ mode = HOLD_MASTER_RH_MES \/
              mode = NO_HOLD_MASTER_T_MES \/ mode = NO_HOLD_MASTER_RH_MES ->
              SHT21_Read mode b = ReadMulti_on b 3).
  { unfold SHT21_Read.
    intros [-> | [-> | [-> | ->]]]; cbn [Z.eqb Pos.eqb orb]; cbv iota;
      try exact U; exact N. }
  assert (Z0 : mode <> HOLD_MASTER_T_MES -> mode <> HOLD_MASTER_RH_MES ->
               mode <> NO_HOLD_MASTER_T_MES -> mode <> NO_HOLD_MASTER_RH_MES ->
               SHT21_Read mode b = 0).
  { intros H1 H2 H3 H4. unfold SHT21_Read.
    apply Z.eqb_neq in H1, H2, H3, H4. rewrite H1, H2, H3, H4. reflexivity. }
  split; [exact A |]. split; [exact Z0 |].
  destruct (Z.eq_dec mode HOLD_MASTER_T_MES) as [E1 | E1];
    [rewrite A by tauto; lia |].
  destruct (Z.eq_dec mode HOLD_MASTER_RH_MES) as [E2 | E2];
    [rewrite A by tauto; lia |].
  destruct (Z.eq_dec mode NO_HOLD_MASTER_T_MES) as [E3 | E3];
    [rewrite A by tauto; lia |].
  destruct (Z.eq_dec mode NO_HOLD_MASTER_RH_MES) as [E4 | E4];
    [rewrite A by tauto; lia |].
  rewrite Z0 by assumption. lia.
Qed.

(** ** Keypad3x4.c *)

Ltac scan_candidate r c :=
  right; exists r, c;
  split; [lia |]; split; [lia |]; split; [reflexivity |];
  split; [assumption |];
  intros r' c' Hc' Hlt;
  destruct r' as [| [| [| [| r']]]]; destruct c' as [| [| [| c']]];
  try lia; assumption.

(** X28. scan_keypad reports the first pressed key in row-major order:
    it returns 0 when no column input is low in any of the four rows, and
    otherwise 3 row + col + 1 (between 1 and 12) for the first row, and in
    it the first column, whose input is low. *)
Theorem scan_keypad_first_key (PORTD_IN PORTF_IN : Z -> Z) :
  (scan_keypad PORTD_IN PORTF_IN = 0 /\
   forall r c, (r < 4)%nat -> (c < 3)%nat ->
     pin_state PORTD_IN PORTF_IN r c = false) \/
  (exists r c,
     (r < 4)%nat /\ (c < 3)%nat /\
     scan_keypad PORTD_IN PORTF_IN = 3 * Z.of_nat r + Z.of_nat c + 1 /\
     pin_state PORTD_IN PORTF_IN r c = true /\
     forall r' c', (c' < 3)%nat -> (3 * r' + c' < 3 * r + c)%nat ->
       pin_state PORTD_IN PORTF_IN r' c' = false).
Proof.
  unfold scan_keypad. cbn [scan_rows scan_cols].
  destruct (pin_state PORTD_IN PORTF_IN 0 0) eqn:P00; [scan_candidate 0%nat 0%nat |].
  destruct (pin_state PORTD_IN PORTF_IN 0 1) eqn:P01; [scan_candidate 0%nat 1%nat |].
  destruct (pin_state PORTD_IN PORTF_IN 0 2) eqn:P02; [scan_candidate 0%nat 2%nat |].
  destruct (pin_state PORTD_IN PORTF_IN 1 0) eqn:P10; [scan_candidate 1%nat 0%nat |].
  destruct (pin_state PORTD_IN PORTF_IN 1 1) eqn:P11; [scan_candidate 1%nat 1%nat |].
  destruct (pin_state PORTD_IN PORTF_IN 1 2) eqn:P12; [scan_candidate 1%nat 2%nat |].
  destruct (pin_state PORTD_IN PORTF_IN 2 0) eqn:P20; [scan_candidate 2%nat 0%nat |].
  destruct (pin_state PORTD_IN PORTF_IN 2 1) eqn:P21; [scan_candidate 2%nat 1%nat |].
  destruct (pin_state PORTD_IN PORTF_IN 2 2) eqn:P22; [scan_candidate 2%nat 2%nat |].
  destruct (pin_state PORTD_IN PORTF_IN 3 0) eqn:P30; [scan_candidate 3%nat 0%nat |].
  destruct (pin_state PORTD_IN PORTF_IN 3 1) eqn:P31; [scan_candidate 3%nat 1%nat |].
  destruct (pin_state PORTD_IN PORTF_IN 3 2) eqn:P32; [scan_candidate 3%nat 2%nat |].
  left. split; [reflexivity |].
  intros r c Hr Hc.
  destruct r as [| [| [| [| r]]]]; destruct c as [| [| [| c]]];
    try lia; assumption.
Qed.

Lemma keypad_first (k : Z) (s : Keypad3x4_h.KeypadState) :
  Keypad3x4_h.last_key s <> k ->
  keypad k s =
  {| Keypad3x4_h.last_key := k; Keypad3x4_h.hold_counter := 0;
     Keypad3x4_h.key := k; Keypad3x4_h.key_held := Keypad3x4_h.key_held s |}.
Proof.
  intros H. unfold keypad.
  replace (k =? Keypad3x4_h.last_key s) with false
    by (symmetry; apply Z.eqb_neq; congruence).
  reflexivity.
Qed.

Lemma keypad_repeat (k hc held shown : Z) :
  k <> 0 -> 0 <= hc < 65526 -> hc + 10 <> 50 ->
  keypad k {| Keypad3x4_h.last_key := k; Keypad3x4_h.hold_counter := hc;
              Keypad3x4_h.key := shown; Keypad3x4_h.key_held := held |} =
  {| Keypad3x4_h.last_key := k; Keypad3x4_h.hold_counter := hc + 10;
     Keypad3x4_h.key := k; Keypad3x4_h.key_held := held |}.
Proof.
  intros Hk Hh Hn. unfold keypad.
  cbn [Keypad3x4_h.last_key Keypad3x4_h.hold_counter Keypad3x4_h.key_held].
  rewrite Z.eqb_refl.
  replace (k =? 0) with false by (symmetry; apply Z.eqb_neq; exact Hk).
  cbn [negb andb].
  change Keypad3x4_h.DEBOUNCE_DELAY with 10.
  change Keypad3x4_h.HOLD_THRESHOLD with 50.
  rewrite (to_uint16_id (hc + 10))
    by (unfold in_uint16; change (2 ^ 16) with 65536; lia).
  replace (hc + 10 =? 50) with false
    by (symmetry; apply Z.eqb_neq; exact Hn).
  reflexivity.
Qed.

(** After the long press has fired the counter is odd and stays odd, also
    across the wrap of the uint16_t, so it never meets the threshold 50
    again. *)
Lemma keypad_after_long_press (k : Z) (n : nat) :
  1 <= k <= 12 ->
  forall s,
    Keypad3x4_h.last_key s = k ->
    0 <= Keypad3x4_h.hold_counter s < 65536 ->
    Keypad3x4_h.hold_counter s mod 2 = 1 ->
    let s' := keypad_held k (S n) s in
    Keypad3x4_h.last_key s' = k /\
    0 <= Keypad3x4_h.hold_counter s' < 65536 /\
    Keypad3x4_h.hold_counter s' mod 2 = 1 /\
    Keypad3x4_h.key s' = k /\
    Keypad3x4_h.key_held s' = Keypad3x4_h.key_held s.
Proof.
  intros Hk.
  assert (Step : forall s,
            Keypad3x4_h.last_key s = k ->
            0 <= Keypad3x4_h.hold_counter s < 65536 ->
            Keypad3x4_h.hold_counter s mod 2 = 1 ->
            Keypad3x4_h.last_key (keypad k s) = k /\
            0 <= Keypad3x4_h.hold_counter (keypad k s) < 65536 /\
            Keypad3x4_h.hold_counter (keypad k s) mod 2 = 1 /\
            Keypad3x4_h.key (keypad k s) = k /\
            Keypad3x4_h.key_held (keypad k s) = Keypad3x4_h.key_held s).
  { intros s L R O. unfold keypad. rewrite L, Z.eqb_refl.
    replace (k =? 0) with false by (symmetry; apply Z.eqb_neq; lia).
    cbn [negb andb].
    change Keypad3x4_h.DEBOUNCE_DELAY with 10.
    change Keypad3x4_h.HOLD_THRESHOLD with 50.
    assert (B : 0 <= to_uint16 (Keypad3x4_h.hold_counter s + 10) < 65536).
    { unfold to_uint16, wrap_unsigned. change (2 ^ 16) with 65536.
      apply Z.mod_pos_bound. lia. }
    assert (P : to_uint16 (Keypad3x4_h.hold_counter s + 10) mod 2 = 1).
    { unfold to_uint16, wrap_unsigned. change (2 ^ 16) with 65536.
      clear - O. Z.div_mod_to_equations. lia. }
    replace (to_uint16 (Keypad3x4_h.hold_counter s + 10) =? 50) with false.
    2:{ symmetry. apply Z.eqb_neq. intros E. rewrite E in P.
        discriminate P. }
    cbn [Keypad3x4_h.last_key Keypad3x4_h.hold_counter Keypad3x4_h.key
         Keypad3x4_h.key_held].
    repeat split; try reflexivity; try lia; exact P. }
  induction n as [| n IH]; intros s L R O; cbv zeta.
  - unfold keypad_held. cbn [Nat.iter]. apply Step; assumption.
  - specialize (IH s L R O). cbv zeta in IH.
    destruct IH as (L' & R' & O' & _ & H').
    unfold keypad_held in *.
    change (Nat.iter (S (S n)) (keypad k) s)
      with (keypad k (Nat.iter (S n) (keypad k) s)).
    destruct (Step _ L' R' O') as (A & B & C & D & E).
    repeat split; first [assumption | lia | congruence].
Qed.

Lemma keypad_held_6 (k : Z) (s : Keypad3x4_h.KeypadState) :
  1 <= k <= 12 -> Keypad3x4_h.last_key s <> k ->
  keypad_held k 5 s =
    {| Keypad3x4_h.last_key := k; Keypad3x4_h.hold_counter := 40;
       Keypad3x4_h.key := k; Keypad3x4_h.key_held := Keypad3x4_h.key_held s |}
  /\
  keypad_held k 6 s =
    {| Keypad3x4_h.last_key := k; Keypad3x4_h.hold_counter := 51;
       Keypad3x4_h.key := 0; Keypad3x4_h.key_held := k + 20 |}.
Proof.
  intros Hk Hl.
  assert (E5 : keypad_held k 5 s =
    {| Keypad3x4_h.last_key := k; Keypad3x4_h.hold_counter := 40;
       Keypad3x4_h.key := k; Keypad3x4_h.key_held := Keypad3x4_h.key_held s |}).
  { unfold keypad_held.
    change (Nat.iter 5 (keypad k) s)
      with (keypad k (keypad k (keypad k (keypad k (keypad k s))))).
    rewrite (keypad_first k s Hl).
    rewrite (keypad_repeat k 0) by lia. rewrite (keypad_repeat k (0 + 10)) by lia.
    rewrite (keypad_repeat k (0 + 10 + 10)) by lia.
    rewrite (keypad_repeat k (0 + 10 + 10 + 10)) by lia.
    reflexivity. }
  split; [exact E5 |].
  unfold keypad_held in *.
  change (Nat.iter 6 (keypad k) s) with (keypad k (Nat.iter 5 (keypad k) s)).
  rewrite E5. unfold keypad.
  cbn [Keypad3x4_h.last_key Keypad3x4_h.hold_counter Keypad3x4_h.key_held].
  rewrite Z.eqb_refl.
  replace (k =? 0) with false by (symmetry; apply Z.eqb_neq; lia).
  cbn [negb andb].
  change (to_uint16 (40 + Keypad3x4_h.DEBOUNCE_DELAY)
          =? Keypad3x4_h.HOLD_THRESHOLD) with true. cbv iota.
  change (to_uint16 (Keypad3x4_h.HOLD_THRESHOLD + 1)) with 51.
  change Keypad3x4_h.LONG_PRESS_ADD with 20.
  rewrite to_uint8_id by lia. reflexivity.
Qed.

Lemma keypad_held_short (k : Z) (s : Keypad3x4_h.KeypadState) (m : nat) :
  1 <= k <= 12 -> Keypad3x4_h.last_key s <> k -> (m <= 4)%nat ->
  keypad_held k (S m) s =
  {| Keypad3x4_h.last_key := k; Keypad3x4_h.hold_counter := 10 * Z.of_nat m;
     Keypad3x4_h.key := k; Keypad3x4_h.key_held := Keypad3x4_h.key_held s |}.
Proof.
  intros Hk Hl. induction m as [| m IH]; intros Hm.
  - unfold keypad_held.
    change (Nat.iter 1 (keypad k) s) with (keypad k s).
    apply keypad_first. exact Hl.
  - unfold keypad_held in *.
    change (Nat.iter (S (S m)) (keypad k) s)
      with (keypad k (Nat.iter (S m) (keypad k) s)).
    rewrite IH by lia. rewrite keypad_repeat by lia.
    f_equal. lia.
Qed.

(** X29. A long press fires once. When a key 1..12 is seen in
    consecutive calls of keypad(), starting from a call that saw something
    else: calls 1 to 5 report the key in Keypad3x4.key and leave key_held
    alone, call 6 stores key + 20 in key_held and reports key 0, and every
    later call reports the key again and never writes key_held, since the
    counter, set to 51, stays odd across its 16-bit wrap and cannot meet
    the threshold 50 a second time. *)
Theorem keypad_long_press_fires_once (k : Z) (s : Keypad3x4_h.KeypadState)
    (n : nat) :
  1 <= k <= 12 -> Keypad3x4_h.last_key s <> k ->
  (forall m, (1 <= m <= 5)%nat ->
     Keypad3x4_h.key (keypad_held k m s) = k /\
     Keypad3x4_h.key_held (keypad_held k m s) = Keypad3x4_h.key_held s) /\
  Keypad3x4_h.key (keypad_held k 6 s) = 0 /\
  Keypad3x4_h.key_held (keypad_held k 6 s) = k + 20 /\
  Keypad3x4_h.key (keypad_held k (7 + n) s) = k /\
  Keypad3x4_h.key_held (keypad_held k (7 + n) s) = k + 20.
Proof.
  intros Hk Hl.
  destruct (keypad_held_6 k s Hk Hl) as [_ E6].
  split.
  { intros m Hm. destruct m as [| m]; [lia |].
    rewrite (keypad_held_short k s m Hk Hl) by lia.
    split; reflexivity. }
  split; [rewrite E6; reflexivity |].
  split; [rewrite E6; reflexivity |].
  assert (A : keypad_held k (7 + n) s
              = keypad_held k (S n) (keypad_held k 6 s)).
  { unfold keypad_held. replace (7 + n)%nat with (S n + 6)%nat by lia.
    apply Nat.iter_add. }
  rewrite A, E6.
  destruct (keypad_after_long_press k n Hk
              {| Keypad3x4_h.last_key := k; Keypad3x4_h.hold_counter := 51;
                 Keypad3x4_h.key := 0; Keypad3x4_h.key_held := k + 20 |})
    as (_ & _ & _ & K & H); try reflexivity.
  { cbn. lia. }
  split; [exact K | exact H].
Qed.

Lemma keypad_long_press_fires_once_witness :
  Keypad3x4_h.key_held (keypad_held 1 6 keypad_init) = 21 /\
  Keypad3x4_h.key_held (keypad_held 1 7 keypad_init) = 21 /\
  Keypad3x4_h.key (keypad_held 1 7 keypad_init) = 1.
Proof.
  assert (Hk : 1 <= 1 <= 12) by lia.
  assert (Hl : Keypad3x4_h.last_key keypad_init <> 1) by (cbn; lia).
  destruct (keypad_long_press_fires_once 1 keypad_init 0 Hk Hl)
    as (_ & _ & H6 & K7 & H7).
  split; [exact H6 |]. split; [exact H7 | exact K7].
Defined.

(** ** ST7567S.c: aligned text *)

Lemma draw_text_loop_all (text : list Z) :
  forall len max_length,
    0 <= len -> len + Z.of_nat (length text) <= max_length <= 255 ->
    draw_text_loop text len max_length = (text, len + Z.of_nat (length text)).
Proof.
  induction text as [| c text IH]; intros len max_length H0 H.
  - cbn. f_equal. lia.
  - cbn [draw_text_loop]. cbn [length] in H.
    replace (len <? max_length) with true by (symmetry; apply Z.ltb_lt; lia).
    rewrite (to_uint8_id (len + 1)) by lia.
    rewrite IH by lia. cbn [fst snd length]. f_equal. lia.
Qed.

Lemma draw_pad_loop_spaces (fuel : nat) :
  forall len max_length,
    0 <= len <= max_length -> max_length <= 255 ->
    (Z.to_nat (max_length - len) <= fuel)%nat ->
    draw_pad_loop fuel len max_length = repeat 32 (Z.to_nat (max_length - len)).
Proof.
  induction fuel as [| fuel IH]; intros len max_length H0 H1 Hf.
  - replace (Z.to_nat (max_length - len)) with O by lia. reflexivity.
  - cbn [draw_pad_loop].
    destruct (len <? max_length) eqn:E.
    + apply Z.ltb_lt in E. rewrite (to_uint8_id (len + 1)) by lia.
      rewrite IH by lia.
      replace (Z.to_nat (max_length - len))
        with (S (Z.to_nat (max_length - (len + 1)))) by lia.
      reflexivity.
    + apply Z.ltb_ge in E.
      replace (Z.to_nat (max_length - len)) with O by lia. reflexivity.
Qed.

(** X30. A text of at most 21 characters fits the line: for every
    alignment the start pixel is 0 (left), (128 - 6 n) / 2 (centre) or
    128 - 6 n (right); screen_draw_text is asked for
    (128 - start) / 6 >= n characters, draws the whole text followed by
    spaces only, and the last character ends at or before column 128. *)
Theorem aligned_text_fits (text : list Z) (alignment : alignment_t) :
  (length text <= 21)%nat ->
  exists start_pixel,
    screen_write_text_aligned text alignment =
      Some (start_pixel,
            text ++ repeat 32
                      (Z.to_nat (max_chars start_pixel) - length text)) /\
    start_pixel =
      match alignment with
      | ALIGN_LEFT => 0
      | ALIGN_CENTER => (128 - 6 * Z.of_nat (length text)) / 2
      | ALIGN_RIGHT => 128 - 6 * Z.of_nat (length text)
      end /\
    max_chars start_pixel = (128 - start_pixel) / 6 /\
    Z.of_nat (length text) <= max_chars start_pixel /\
    start_pixel + 6 * max_chars start_pixel <= 128.
Proof.
  intros L. set (n := Z.of_nat (length text)).
  assert (Hn : 0 <= n <= 21) by (unfold n; lia).
  assert (S : calculate_start_pixel text alignment =
              Some match alignment with
                   | ALIGN_LEFT => 0
                   | ALIGN_CENTER => (128 - 6 * n) / 2
                   | ALIGN_RIGHT => 128 - 6 * n
                   end).
  { unfold calculate_start_pixel. fold n.
    replace (256 <=? n) with false by (symmetry; apply Z.leb_gt; lia).
    cbv zeta. rewrite (to_uint8_id n) by lia.
    rewrite (to_int_id (n * 6)) by lia.
    rewrite (to_uint8_id (n * 6)) by lia.
    rewrite (to_int_id (128 - n * 6)) by lia.
    f_equal. destruct alignment.
    - reflexivity.
    - unfold c_div. rewrite Z.quot_div_nonneg by lia.
      assert (0 <= (128 - n * 6) / 2 < 256).
      { split; [apply Z.div_pos; lia | apply Z.div_lt_upper_bound; lia]. }
      rewrite to_uint8_id by lia. f_equal. lia.
    - rewrite to_uint8_id by lia. lia. }
  set (start := match alignment with
                | ALIGN_LEFT => 0
                | ALIGN_CENTER => (128 - 6 * n) / 2
                | ALIGN_RIGHT => 128 - 6 * n
                end) in *.
  assert (Hs : 0 <= start /\ start + 6 * n <= 128).
  { unfold start. destruct alignment; [lia | | lia].
    split; [apply Z.div_pos; lia |].
    assert ((128 - 6 * n) / 2 * 2 <= 128 - 6 * n)
      by (clear; Z.div_mod_to_equations; lia).
    lia. }
  assert (M : max_chars start = (128 - start) / 6).
  { unfold max_chars. rewrite (to_int_id (128 - start)) by lia.
    unfold c_div. rewrite Z.quot_div_nonneg by lia.
    apply to_uint8_id.
    split; [apply Z.div_pos; lia | apply Z.div_lt_upper_bound; lia]. }
  assert (Mb : n <= (128 - start) / 6 /\ 6 * ((128 - start) / 6) <= 128 - start
               /\ (128 - start) / 6 <= 21).
  { split; [apply Z.div_le_lower_bound; lia |].
    split; [apply Z.mul_div_le; lia |].
    assert ((128 - start) / 6 < 22) by (apply Z.div_lt_upper_bound; lia).
    lia. }
  exists start.
  split.
  { unfold screen_write_text_aligned. rewrite S. f_equal. f_equal.
    unfold screen_draw_text.
    rewrite (draw_text_loop_all text 0 (max_chars start)) by (fold n; lia).
    cbn [fst snd]. f_equal.
    rewrite draw_pad_loop_spaces by (fold n; lia).
    f_equal. fold n. lia. }
  split; [reflexivity |].
  split; [exact M |].
  split; [rewrite M; lia | rewrite M; lia].
Qed.

Lemma aligned_text_fits_witness :
  screen_write_text_aligned [83; 97; 118; 101; 100; 32; 58; 68] ALIGN_CENTER
  = Some (40, [83; 97; 118; 101; 100; 32; 58; 68; 32; 32; 32; 32; 32; 32]).
Proof.
  assert (L : (length [83; 97; 118; 101; 100; 32; 58; 68] <= 21)%nat)
    by (cbn; lia).
  destruct (aligned_text_fits [83; 97; 118; 101; 100; 32; 58; 68]
              ALIGN_CENTER L) as (start & E & S0 & _).
  rewrite E. cbn in S0. rewrite S0. reflexivity.
Defined.
